(** * KEDA scalers: the PredictKube scaler and the GCP storage scaler

    A shallow embedding of [pkg/scalers/predictkube_scaler.go] and
    [pkg/scalers/gcp_storage_scaler.go].

    Conventions of the embedding:
    - Go's [int64] and [int] (64-bit on every platform KEDA is built for) are
      [Z], with the wrap-around of arithmetic written out ([wrap64]);
    - Go's [float64] is [spec_float] at precision 53 and maximal exponent 1024;
    - a Go [error] is the text its [Error()] method returns; the sentinel
      [iterator.Done], which the code compares by identity, is a constructor of
      its own;
    - [map[string]string] is [gmap string string];
    - a method with a pointer receiver that writes a field returns the updated
      receiver next to its results;
    - calls that leave the process (Prometheus, the gRPC engine, the bucket)
      read their answer from a record describing the remote side;
    - logging is left out. *)

From Stdlib Require Import ZArith List String Ascii Bool Lia.
From Stdlib Require Import Floats.SpecFloat.
From stdpp Require Import base option list gmap strings pretty.

Local Open Scope string_scope.
Local Open Scope Z_scope.
Local Open Scope list_scope.

(** ** Go: the fragment of the language and of its standard library in use *)

Module Go.

Definition error := string.

(** A call returning [(T, error)] whose value is only read when the error is
    [nil]. *)
Inductive result (A : Type) : Type :=
| Ok (a : A)
| Err (e : error).
Arguments Ok {A} a.
Arguments Err {A} e.

Definition bind {A B : Type} (r : result A) (k : A -> result B) : result B :=
  match r with
  | Ok a => k a
  | Err e => Err e
  end.

(** [fmt.Errorf] on a failed call: the error is rewritten, a value passes. *)
Definition wrapErr {A : Type} (f : error -> error) (r : result A) : result A :=
  match r with
  | Ok a => Ok a
  | Err e => Err (f e)
  end.

Definition min_int64 : Z := - 2 ^ 63.
Definition max_int64 : Z := 2 ^ 63 - 1.
Definition max_uint64 : Z := 2 ^ 64 - 1.

Definition in_int64 (z : Z) : Prop := min_int64 <= z <= max_int64.

(** Two's-complement wrap-around of an [int64] operation. *)
Definition wrap64 (z : Z) : Z := (z + 2 ^ 63) mod 2 ^ 64 - 2 ^ 63.

(** [x / y] on [int64]: truncated towards zero; [min_int64 / -1] wraps. *)
Definition div64 (x y : Z) : Z := wrap64 (Z.quot x y).

(** [strings.HasPrefix] and [strings.Contains], on bytes. *)
Fixpoint HasPrefix (s prefix : string) : bool :=
  match prefix, s with
  | EmptyString, _ => true
  | String a p, String b s' => Ascii.eqb a b && HasPrefix s' p
  | String _ _, EmptyString => false
  end.

Fixpoint Contains (s substr : string) : bool :=
  HasPrefix s substr ||
  match s with
  | EmptyString => false
  | String _ s' => Contains s' substr
  end.

(** [utf8.RuneCountInString]: every well-formed encoding counts as one rune,
    and so does every byte that does not start one. *)
Definition byteOf (a : ascii) : Z := Z.of_N (N_of_ascii a).

Definition between (lo hi : Z) (a : ascii) : bool :=
  (lo <=? byteOf a) && (byteOf a <=? hi).

(** The table [first] of [unicode/utf8], by ranges: for a leading byte, the size of the
    encoding and the range its second byte has to lie in; size 0 for the
    bytes that start no encoding. *)
Definition leading (b : Z) : nat * Z * Z :=
  if (194 <=? b) && (b <=? 223) then (2%nat, 128, 191)
  else if b =? 224 then (3%nat, 160, 191)
  else if (225 <=? b) && (b <=? 236) then (3%nat, 128, 191)
  else if b =? 237 then (3%nat, 128, 159)
  else if (238 <=? b) && (b <=? 239) then (3%nat, 128, 191)
  else if b =? 240 then (4%nat, 144, 191)
  else if (241 <=? b) && (b <=? 243) then (4%nat, 128, 191)
  else if b =? 244 then (4%nat, 128, 143)
  else (0%nat, 0, 0).

(** The number of bytes the rune at the head of [s] takes: 1 for ASCII and
    for a byte that is not the start of a well-formed encoding. *)
Definition runeSize (s : string) : nat :=
  match s with
  | EmptyString => 0%nat
  | String c rest =>
      if byteOf c <? 128 then 1%nat
      else
        let '(size, lo, hi) := leading (byteOf c) in
        match size, rest with
        | 2%nat, String c1 _ => if between lo hi c1 then 2%nat else 1%nat
        | 3%nat, String c1 (String c2 _) =>
            if between lo hi c1 && between 128 191 c2 then 3%nat else 1%nat
        | 4%nat, String c1 (String c2 (String c3 _)) =>
            if between lo hi c1 && between 128 191 c2 && between 128 191 c3
            then 4%nat else 1%nat
        | _, _ => 1%nat
        end
  end.

(** [skip] bytes of the rune being read are still to be passed over. *)
Fixpoint runeCountFrom (skip : nat) (s : string) : Z :=
  match s with
  | EmptyString => 0
  | String _ rest =>
      match skip with
      | S k => runeCountFrom k rest
      | O => 1 + runeCountFrom (Nat.pred (runeSize s)) rest
      end
  end.

Definition runeCount (s : string) : Z := runeCountFrom 0 s.

Fixpoint spaces (n : nat) : string :=
  match n with
  | O => ""
  | S n' => String " " (spaces n')
  end.

(** The verb [%3s] of [fmt]: right-justified in a field of at least 3 runes. *)
Definition pad3 (s : string) : string :=
  spaces (Z.to_nat (3 - runeCount s)) +:+ s.

(** *** float64 *)

Definition float64 := spec_float.

Definition prec64 : Z := 53.
Definition emax64 : Z := 1024.

(** The float nearest to [m * 2^e] (ties to even). *)
Definition float64_of (m e : Z) : float64 := binary_normalize prec64 emax64 m e false.

(** The conversion [float64(x)] of an [int64]. *)
Definition float64_of_int64 (x : Z) : float64 := float64_of x 0.

(** The integer part of a float (the fraction is discarded); [None] for an
    infinity or a NaN. *)
Definition trunc (f : float64) : option Z :=
  match f with
  | S754_zero _ => Some 0
  | S754_finite s m e =>
      let mag := if 0 <=? e then Z.pos m * 2 ^ e else Z.pos m / 2 ^ (- e) in
      Some (if s then - mag else mag)
  | S754_infinity _ | S754_nan => None
  end.

(** [math.Round]: nearest integer, halves away from zero; zeros, infinities
    and NaN are returned as they are. *)
Definition Round (f : float64) : float64 :=
  match f with
  | S754_finite s m e =>
      if 0 <=? e then f
      else
        let d := 2 ^ (- e) in
        let q := Z.pos m / d in
        let r := Z.pos m mod d in
        let n := if d <=? 2 * r then q + 1 else q in
        binary_normalize prec64 emax64 (if s then - n else n) 0 s
  | _ => f
  end.

(** The exact order between an integer and a float: [n < f]. *)
Definition Z_lt_float64 (n : Z) (f : float64) : bool :=
  match f with
  | S754_zero _ => n <? 0
  | S754_finite s m e =>
      let v := if s then Z.neg m else Z.pos m in
      if 0 <=? e then n <? v * 2 ^ e else n * 2 ^ (- e) <? v
  | S754_infinity s => negb s
  | S754_nan => false
  end.

End Go.
Export Go.

Notation "'let*' x ':=' r 'in' k" := (Go.bind r (fun x => k))
  (at level 10, x pattern, r at level 100, k at level 200).

(** ** What the two files take from the rest of the repository and from
       libraries *)

(** [ScalerConfig] of [pkg/scalers/scaler.go]: the fields the two files read. *)
Record ScalerConfig := {
  TriggerMetadata : gmap string string;
  AuthParams : gmap string string;
  ResolvedEnv : gmap string string;
  ScalerIndex : Z;
  MetricType : string;
}.

(** [v2beta2.MetricTargetType] *)
Definition MetricTargetType := string.

(** [gcpAuthorizationMetadata] of [pkg/scalers/gcp_common.go]: the fields
    [NewGcsScaler] reads. *)
Record gcpAuthorizationMetadata := {
  GoogleApplicationCredentials : string;
  GoogleApplicationCredentialsFile : string;
  podIdentityProviderEnabled : bool;
}.

Module timestamppb.
Record Timestamp := {
  Seconds : Z;
  Nanos : Z;
}.
End timestamppb.

(** The quantity of a metric value is built by [resource.NewQuantity] from an
    [int64]; the timestamp is what [metav1.Now()] reads. *)
Module external_metrics.
Record ExternalMetricValue := {
  MetricName : string;
  Value : Z;
  Timestamp : Z;
}.
End external_metrics.

(** The functions called by the two files and defined elsewhere: in other files
    of [pkg/scalers] and [pkg/util], in Go's [strconv], and in the libraries
    [str2duration], [validator], [predictkube-libs] and [grpc/status]. The last
    two fields are the results Go leaves to the implementation: the conversion
    of a float that the integer type cannot represent. *)
Class Externals := {
  AuthMeta : Type;
  GetMetricTargetType : ScalerConfig -> result MetricTargetType;
  GenerateMetricNameWithIndex : Z -> string -> string;
  getGcpAuthorization :
    ScalerConfig -> gmap string string -> result gcpAuthorizationMetadata;
  NormalizeString : string -> string;
  GetAuthConfigs : gmap string string -> gmap string string -> result AuthMeta;
  ParseInt : string -> Z -> Z -> result Z;
  Atoi : string -> result Z;
  ParseFloat : string -> Z -> result float64;
  ParseDuration : string -> result Z;
  (** [validator.New().Var(val, tag)] *)
  validateVar : string -> string -> option error;
  (** [tc.AdaptTimeToPbTimestamp(tc.TimeToTimePtr(t.Time()))] for a Prometheus
      [model.Time] [t], in milliseconds since the epoch *)
  AdaptTimeToPbTimestamp : Z -> result timestamppb.Timestamp;
  (** [status.Code(err)] as the verb [%v] prints it *)
  statusCode : error -> string;
  int64_of_unrepresentable : float64 -> Z;
  uint64_of_unrepresentable : float64 -> Z;
}.

Section Conversions.
Context `{Externals}.

(** The conversion [int64(f)]: the fraction is discarded. *)
Definition int64_of_float64 (f : float64) : Z :=
  match trunc f with
  | Some z =>
      if (min_int64 <=? z) && (z <=? max_int64) then z
      else int64_of_unrepresentable f
  | None => int64_of_unrepresentable f
  end.

(** The conversion [uint64(f)]. *)
Definition uint64_of_float64 (f : float64) : Z :=
  match trunc f with
  | Some z =>
      if (0 <=? z) && (z <=? max_uint64) then z
      else uint64_of_unrepresentable f
  | None => uint64_of_unrepresentable f
  end.

End Conversions.

(** ** The GCP storage scaler ([gcp_storage_scaler.go]) *)

Module Gcs.

(** *** The storage client library, as far as the scaler uses it *)

(** What one call of [it.Next()] gives when it is not [iterator.Done]: the
    attributes of the next object, or an error. *)
Inductive NextResult :=
| Object (name : string)
| Failure (err : error).

(** An [*storage.ObjectIterator]: what the coming calls of [Next] return; once
    the list is used up, [Next] returns [iterator.Done]. *)
Definition ObjectIterator := list NextResult.

Record Query := {
  Prefix : string;
  fieldSelection : list string;
}.

(** The attribute names [Query.SetAttrSelection] accepts. *)
Definition attrToFieldMap : list string :=
  ["Bucket"; "Name"; "ContentType"; "ContentLanguage"; "CacheControl";
   "EventBasedHold"; "TemporaryHold"; "RetentionExpirationTime"; "ACL";
   "Owner"; "ContentEncoding"; "ContentDisposition"; "Size"; "MD5"; "CRC32C";
   "MediaLink"; "Metadata"; "Generation"; "Metageneration"; "StorageClass";
   "CustomerKeySHA256"; "KMSKeyName"; "Created"; "Deleted"; "Updated"; "Etag";
   "CustomTime"].

(** [Query.SetAttrSelection]: fails on the first name that is no attribute. *)
Definition SetAttrSelection (q : Query) (attrs : list string) : Query * option error :=
  match List.find (fun a => negb (existsb (String.eqb a) attrToFieldMap)) attrs with
  | Some a => (q, Some ("storage: attr " +:+ a +:+ " is not valid"))
  | None => ({| Prefix := Prefix q; fieldSelection := attrs |}, None)
  end.

(** A [*storage.BucketHandle], by what listing it gives at the time of the
    call. *)
Record BucketHandle := {
  listing : ObjectIterator;
}.

(** [BucketHandle.Objects]: the query of the scaler has an empty prefix, so
    every object is listed. *)
Definition Objects (b : BucketHandle) (q : Query) : ObjectIterator := listing b.

(** The option [storage.NewClient] is given. *)
Inductive ClientOption :=
| NoOption
| WithCredentialsFile (file : string)
| WithCredentialsJSON (json : string).

Record Client := {
  createdWith : ClientOption;
}.

(** The Google Cloud side as the constructor meets it. *)
Record Cloud := {
  (** [storage.NewClient(ctx, opt)] *)
  NewClient : ClientOption -> option error;
  (** [client.Bucket(name)], [None] for a nil handle *)
  Bucket : string -> option BucketHandle;
}.

(** A call made to the backend while constructing. *)
Inductive Call :=
| CallNewClient (opt : ClientOption)
| CallBucket (name : string).

(** *** The scaler *)

Definition defaultTargetObjectCount : Z := 100.
Definition defaultMaxBucketItemsToScan : Z := 1000.

Record gcsMetadata := {
  bucketName : string;
  gcpAuthorization : gcpAuthorizationMetadata;
  maxBucketItemsToScan : Z;
  metricName : string;
  targetObjectCount : Z;
}.

Record gcsScaler := {
  client : Client;
  bucket : BucketHandle;
  metricType : MetricTargetType;
  metadata : gcsMetadata;
}.

Section WithExternals.
Context `{Externals}.

Definition parseGcsMetadata (config : ScalerConfig) : result gcsMetadata :=
  let* bucketName :=
    match TriggerMetadata config !! "bucketName" with
    | Some val => if String.eqb val "" then Err "no bucket name given" else Ok val
    | None => Err "no bucket name given"
    end in
  let* targetObjectCount :=
    match TriggerMetadata config !! "targetObjectCount" with
    | Some val =>
        wrapErr (fun e => "error parsing targetObjectCount: " +:+ e) (ParseInt val 10 64)
    | None => Ok defaultTargetObjectCount
    end in
  let* maxBucketItemsToScan :=
    match TriggerMetadata config !! "maxBucketItemsToScan" with
    | Some val =>
        wrapErr (fun e => "error parsing maxBucketItemsToScan: " +:+ e) (Atoi val)
    | None => Ok defaultMaxBucketItemsToScan
    end in
  let* auth := getGcpAuthorization config (ResolvedEnv config) in
  let metricName := NormalizeString ("gcp-storage-" +:+ bucketName) in
  Ok {| bucketName := bucketName;
        gcpAuthorization := auth;
        maxBucketItemsToScan := maxBucketItemsToScan;
        metricName := GenerateMetricNameWithIndex (ScalerIndex config) metricName;
        targetObjectCount := targetObjectCount |}.

(** [NewGcsScaler], with the calls it makes to the backend, in order. *)
Definition NewGcsScaler (cloud : Cloud) (config : ScalerConfig)
  : result gcsScaler * list Call :=
  match GetMetricTargetType config with
  | Err err => (Err ("error getting scaler metric type: " +:+ err), [])
  | Ok metricType =>
  match parseGcsMetadata config with
  | Err err => (Err ("error parsing GCP storage metadata: " +:+ err), [])
  | Ok meta =>
  let opt :=
    if podIdentityProviderEnabled (gcpAuthorization meta) then NoOption
    else if negb (String.eqb (GoogleApplicationCredentialsFile (gcpAuthorization meta)) "")
    then WithCredentialsFile (GoogleApplicationCredentialsFile (gcpAuthorization meta))
    else WithCredentialsJSON (GoogleApplicationCredentials (gcpAuthorization meta)) in
  match NewClient cloud opt with
  | Some err => (Err ("storage.NewClient: " +:+ err), [CallNewClient opt])
  | None =>
  match Bucket cloud (bucketName meta) with
  | None =>
      (Err ("failed to create a handle to bucket " +:+ bucketName meta),
       [CallNewClient opt; CallBucket (bucketName meta)])
  | Some bucket =>
      (Ok {| client := {| createdWith := opt |};
             bucket := bucket;
             metricType := metricType;
             metadata := meta |},
       [CallNewClient opt; CallBucket (bucketName meta)])
  end end end end.

End WithExternals.

(** The loop of [getItemCount]: [count] is the running count and [it] what
    the iterator still has to give. [count++] is an [int64] increment. *)
Fixpoint countItems (it : ObjectIterator) (maxCount count : Z) : Z * option error :=
  if count <? maxCount then
    match it with
    | [] => (count, None)
    | Failure err :: _ =>
        if Contains err "bucket doesn't exist" then (0, None)
        else (count, Some err)
    | Object _ :: it' => countItems it' maxCount (wrap64 (count + 1))
    end
  else (count, None).

(** [getItemCount]: the number of items in the bucket, up to [maxCount]. *)
Definition getItemCount (s : gcsScaler) (maxCount : Z) : Z * option error :=
  let query := {| Prefix := ""; fieldSelection := [] |} in
  match SetAttrSelection query ["Name"] with
  | (_, Some err) => (0, Some err)
  | (query, None) =>
      let it := Objects (bucket s) query in
      countItems it maxCount 0
  end.

Definition IsActive (s : gcsScaler) : bool * option error :=
  match getItemCount s 1 with
  | (_, Some err) => (false, Some err)
  | (items, None) => (0 <? items, None)
  end.

(** [GetMetrics]; [now] is what [metav1.Now()] reads. *)
Definition GetMetrics (now : Z) (s : gcsScaler) (metricName : string)
  : list external_metrics.ExternalMetricValue * option error :=
  match getItemCount s (maxBucketItemsToScan (metadata s)) with
  | (_, Some err) => ([], Some err)
  | (items, None) =>
      let metric :=
        {| external_metrics.MetricName := metricName;
           external_metrics.Value := items;
           external_metrics.Timestamp := now |} in
      (([] ++ [metric])%list, None)
  end.

End Gcs.

(** ** Prometheus' [model] package: the values a range query returns *)

Module model.

Module Sample.
Record t := {
  Metric : list (string * string);
  Value : float64;
  Timestamp : Z;
}.
End Sample.

Module SamplePair.
Record t := {
  Timestamp : Z;
  Value : float64;
}.
End SamplePair.

Module SampleStream.
Record t := {
  Metric : list (string * string);
  Values : list SamplePair.t;
}.
End SampleStream.

Module Scalar.
Record t := {
  Value : float64;
  Timestamp : Z;
}.
End Scalar.

Module String.
Record t := {
  Value : string;
  Timestamp : Z;
}.
End String.

Definition Vector := list Sample.t.
Definition Matrix := list SampleStream.t.

(** [type ValueType int] and its constants. *)
Definition ValueType := Z.
Definition ValNone : ValueType := 0.
Definition ValScalar : ValueType := 1.
Definition ValVector : ValueType := 2.
Definition ValMatrix : ValueType := 3.
Definition ValString : ValueType := 4.

(** The interface [Value]: the four types of the package that implement it,
    and any other type that does, by the tag its [Type()] reports. *)
Inductive Value :=
| OfVector (v : Vector)
| OfMatrix (m : Matrix)
| OfScalar (s : Scalar.t)
| OfString (s : String.t)
| Foreign (ty : ValueType).

Definition Type_ (v : Value) : ValueType :=
  match v with
  | OfVector _ => ValVector
  | OfMatrix _ => ValMatrix
  | OfScalar _ => ValScalar
  | OfString _ => ValString
  | Foreign ty => ty
  end.

End model.

(** ** The PredictKube scaler ([predictkube_scaler.go]) *)

Module PredictKube.

(** [commonproto.Item]: one observation sent to the engine. *)
Record Item := {
  Timestamp : timestamppb.Timestamp;
  Value : float64;
  MetricName : string;
}.

(** [pb.ReqGetPredictMetric] and [pb.ResGetPredictMetric] *)
Record ReqGetPredictMetric := {
  ForecastHorizon : Z;
  Observations : list Item;
}.

Record ResGetPredictMetric := {
  ResultMetric : Z;
}.

(** [health.HealthCheckResponse] *)
Record HealthCheckResponse := {
  Status : Z;
}.

(** [v1.Range] *)
Record Range := {
  Start : Z;
  End_ : Z;
  Step : Z;
}.

(** What is outside the process during one call of the scaler: the clock,
    Prometheus behind [s.api], the engine behind [s.grpcClient] and
    [s.healthClient]. *)
Record Remote := {
  (** [time.Now().UTC()], in nanoseconds *)
  now : Z;
  (** [metav1.Now()] *)
  metricNow : Z;
  QueryRange : string -> Range -> result model.Value;
  GetPredictMetric : ReqGetPredictMetric -> result ResGetPredictMetric;
  (** [s.healthClient.Check]: the response, [None] when nil, and the error *)
  Check : option HealthCheckResponse * option error;
}.

Definition predictKubeMetricPrefix : string := "predictkube_metric".
Definition invalidMetricTypeErr : string := "metric type is invalid".

Definition mlEngineHost : string := "api.predictkube.com".
Definition mlEnginePort : string := "443".

(** [time.Minute * 5], in nanoseconds *)
Definition defaultStep : Z := 60 * 1000000000 * 5.

(** [for _, val := range l] over a body that may return an error. *)
Fixpoint forRange {A S : Type} (body : S -> A -> result S) (l : list A) (st : S)
  : result S :=
  match l with
  | [] => Ok st
  | a :: l' => let* st' := body st a in forRange body l' st'
  end.

Section WithExternals.
Context `{Externals}.

Record predictKubeMetadata := {
  predictHorizon : Z;
  historyTimeWindow : Z;
  stepDuration : Z;
  apiKey : string;
  prometheusAddress : string;
  prometheusAuth : AuthMeta;
  query : string;
  threshold : Z;
  scalerIndex : Z;
}.

(** The connection handles of the Go struct are stood for by [Remote]. *)
Record PredictKubeScaler := {
  metricType : MetricTargetType;
  metadata : predictKubeMetadata;
}.

(** The Prometheus and engine side as the constructor meets it. *)
Record Backend := {
  CreateHTTPRoundTripper : AuthMeta -> option error;
  (** [api.NewClient] on the address *)
  NewClient : string -> option error;
  (** [s.api.Runtimeinfo], called by [ping] *)
  Runtimeinfo : option error;
  (** [pc.SetGrpcClientOptions], for the API key *)
  SetGrpcClientOptions : string -> option error;
  (** [grpc.Dial] on the target *)
  Dial : string -> option error;
}.

Inductive Call :=
| CallCreateHTTPRoundTripper
| CallNewClient (address : string)
| CallRuntimeinfo
| CallSetGrpcClientOptions
| CallDial (target : string).

Definition parsePredictKubeMetadata (config : ScalerConfig)
  : result predictKubeMetadata :=
  let* query :=
    match TriggerMetadata config !! "query" with
    | Some val => if (String.length val =? 0)%nat then Err "no query given" else Ok val
    | None => Err "no query given"
    end in
  let* prometheusAddress :=
    match TriggerMetadata config !! "prometheusAddress" with
    | Some val =>
        match validateVar val "url" with
        | Some _ => Err "invalid prometheusAddress"
        | None => Ok val
        end
    | None => Err "no prometheusAddress given"
    end in
  let* predictHorizon :=
    match TriggerMetadata config !! "predictHorizon" with
    | Some val =>
        wrapErr (fun e => "predictHorizon parsing error " +:+ e) (ParseDuration val)
    | None => Err "no predictHorizon given"
    end in
  let* stepDuration :=
    match TriggerMetadata config !! "queryStep" with
    | Some val =>
        wrapErr (fun e => "queryStep parsing error " +:+ e) (ParseDuration val)
    | None => Err "no queryStep given"
    end in
  let* historyTimeWindow :=
    match TriggerMetadata config !! "historyTimeWindow" with
    | Some val =>
        wrapErr (fun e => "historyTimeWindow parsing error " +:+ e) (ParseDuration val)
    | None => Err "no historyTimeWindow given"
    end in
  let* threshold :=
    match TriggerMetadata config !! "threshold" with
    | Some val =>
        wrapErr (fun e => "threshold parsing error " +:+ e) (ParseInt val 10 64)
    | None => Err "no threshold given"
    end in
  let scalerIndex := ScalerIndex config in
  let* apiKey :=
    match AuthParams config !! "apiKey" with
    | Some val =>
        match validateVar val "jwt" with
        | Some _ => Err "invalid apiKey"
        | None => Ok val
        end
    | None => Err "no api key given"
    end in
  let* prometheusAuth := GetAuthConfigs (TriggerMetadata config) (AuthParams config) in
  Ok {| predictHorizon := predictHorizon;
        historyTimeWindow := historyTimeWindow;
        stepDuration := stepDuration;
        apiKey := apiKey;
        prometheusAddress := prometheusAddress;
        prometheusAuth := prometheusAuth;
        query := query;
        threshold := threshold;
        scalerIndex := scalerIndex |}.

(** [initPredictKubePrometheusConn], with the calls it makes. *)
Definition initPredictKubePrometheusConn (b : Backend) (s : PredictKubeScaler)
  : option error * list Call :=
  match CreateHTTPRoundTripper b (prometheusAuth (metadata s)) with
  | Some err => (Some err, [CallCreateHTTPRoundTripper])
  | None =>
  match NewClient b (prometheusAddress (metadata s)) with
  | Some err =>
      (Some err,
       [CallCreateHTTPRoundTripper; CallNewClient (prometheusAddress (metadata s))])
  | None =>
      (Runtimeinfo b,
       [CallCreateHTTPRoundTripper; CallNewClient (prometheusAddress (metadata s));
        CallRuntimeinfo])
  end end.

(** [setupClientConn], with the calls it makes. *)
Definition setupClientConn (b : Backend) (s : PredictKubeScaler)
  : option error * list Call :=
  match SetGrpcClientOptions b (apiKey (metadata s)) with
  | Some err => (Some err, [CallSetGrpcClientOptions])
  | None =>
      let target := mlEngineHost +:+ ":" +:+ mlEnginePort in
      (Dial b target, [CallSetGrpcClientOptions; CallDial target])
  end.

(** [NewPredictKubeScaler], with the calls it makes to the backends. *)
Definition NewPredictKubeScaler (b : Backend) (config : ScalerConfig)
  : result PredictKubeScaler * list Call :=
  match GetMetricTargetType config with
  | Err err => (Err ("error getting scaler metric type: " +:+ err), [])
  | Ok metricType =>
  match parsePredictKubeMetadata config with
  | Err err => (Err ("error parsing PredictKube metadata: " +:+ pad3 err), [])
  | Ok meta =>
  let s := {| metricType := metricType; metadata := meta |} in
  match initPredictKubePrometheusConn b s with
  | (Some err, calls) =>
      (Err ("error create Prometheus client and API objects: " +:+ pad3 err), calls)
  | (None, calls) =>
  match setupClientConn b s with
  | (Some err, calls') => (Err ("error init GRPC client: " +:+ pad3 err), calls ++ calls')%list
  | (None, calls') => (Ok s, calls ++ calls')%list
  end end end end.

Definition metricName (s : PredictKubeScaler) : string :=
  GenerateMetricNameWithIndex (scalerIndex (metadata s))
    (NormalizeString ("predictkube-" +:+ predictKubeMetricPrefix)).

(** The body shared by the loops of [parsePrometheusResult]: convert the
    timestamp, append one item. *)
Definition appendItem (metricName : string) (out : list Item) (timestamp : Z)
  (value : float64) : result (list Item) :=
  let* t := AdaptTimeToPbTimestamp timestamp in
  Ok (out ++ [{| Timestamp := t; Value := value; MetricName := metricName |}])%list.

(** [parsePrometheusResult]: the switch is on [result.Type()], each case then
    asserts the dynamic type and leaves [out] nil when the assertion fails. *)
Definition parsePrometheusResult (s : PredictKubeScaler) (result : model.Value)
  : Go.result (list Item) :=
  let metricName := metricName s in
  let ty := model.Type_ result in
  if ty =? model.ValVector then
    match result with
    | model.OfVector res =>
        forRange (fun out val =>
          appendItem metricName out (model.Sample.Timestamp val) (model.Sample.Value val))
          res []
    | _ => Ok []
    end
  else if ty =? model.ValMatrix then
    match result with
    | model.OfMatrix res =>
        forRange (fun out val =>
          forRange (fun out v =>
            appendItem metricName out
              (model.SamplePair.Timestamp v) (model.SamplePair.Value v))
            (model.SampleStream.Values val) out)
          res []
    | _ => Ok []
    end
  else if ty =? model.ValScalar then
    match result with
    | model.OfScalar res =>
        appendItem metricName [] (model.Scalar.Timestamp res) (model.Scalar.Value res)
    | _ => Ok []
    end
  else if ty =? model.ValString then
    match result with
    | model.OfString res =>
        let* t := AdaptTimeToPbTimestamp (model.String.Timestamp res) in
        let* s := ParseFloat (model.String.Value res) 64 in
        Ok ([] ++ [{| Timestamp := t; Value := s; MetricName := metricName |}])%list
    | _ => Ok []
    end
  else Err invalidMetricTypeErr.

(** [doQuery]: fills in the default step, a write through the pointer
    [s.metadata] that later calls see. *)
Definition doQuery (w : Remote) (s : PredictKubeScaler)
  : result (list Item) * PredictKubeScaler :=
  let currentTime := now w in
  let s :=
    if stepDuration (metadata s) =? 0 then
      {| metricType := metricType s;
         metadata :=
           {| predictHorizon := predictHorizon (metadata s);
              historyTimeWindow := historyTimeWindow (metadata s);
              stepDuration := defaultStep;
              apiKey := apiKey (metadata s);
              prometheusAddress := prometheusAddress (metadata s);
              prometheusAuth := prometheusAuth (metadata s);
              query := query (metadata s);
              threshold := threshold (metadata s);
              scalerIndex := scalerIndex (metadata s) |} |}
    else s in
  let r := {| Start := currentTime - historyTimeWindow (metadata s);
              End_ := currentTime;
              Step := stepDuration (metadata s) |} in
  match QueryRange w (query (metadata s)) r with
  | Err err => (Err err, s)
  | Ok val => (parsePrometheusResult s val, s)
  end.

(** The request of [doPredictRequest]:
    [uint64(math.Round(float64(predictHorizon / stepDuration)))] steps. *)
Definition predictRequest (s : PredictKubeScaler) (results : list Item)
  : ReqGetPredictMetric :=
  {| ForecastHorizon :=
       uint64_of_float64
         (Round (float64_of_int64
                   (div64 (predictHorizon (metadata s)) (stepDuration (metadata s)))));
     Observations := results |}.

(** [int64(results[len(results)-1].Value)], and 0 for no result. *)
Definition lastValue (results : list Item) : Z :=
  match last results with
  | Some item => int64_of_float64 (Value item)
  | None => 0
  end.

Definition doPredictRequest (w : Remote) (s : PredictKubeScaler)
  : (Z * option error) * PredictKubeScaler :=
  match doQuery w s with
  | (Err err, s) => ((0, Some err), s)
  | (Ok results, s) =>
      match GetPredictMetric w (predictRequest s results) with
      | Err err => ((0, Some err), s)
      | Ok resp =>
          let y := lastValue results in
          let x := ResultMetric resp in
          ((if x <? y then y else x, None), s)
      end
  end.

Definition GetMetrics (w : Remote) (s : PredictKubeScaler) (metricName : string)
  : (list external_metrics.ExternalMetricValue * option error) * PredictKubeScaler :=
  match doPredictRequest w s with
  | ((_, Some err), s) => (([], Some err), s)
  | ((value, None), s) =>
      if value =? 0 then (([], Some "empty response after predict request"), s)
      else
        let metric :=
          {| external_metrics.MetricName := metricName;
             external_metrics.Value := value;
             external_metrics.Timestamp := metricNow w |} in
        ((([] ++ [metric])%list, None), s)
  end.

(** [IsActive]; [codes.Unknown] prints as [Unknown]. *)
Definition IsActive (w : Remote) (s : PredictKubeScaler)
  : (bool * option error) * PredictKubeScaler :=
  match doQuery w s with
  | (Err err, s) => ((false, Some err), s)
  | (Ok results, s) =>
      match Check w with
      | (None, _) =>
          (((0 <? length results)%nat,
            Some "can't connect grpc server: empty server response, code: Unknown"), s)
      | (Some _, Some err) =>
          (((0 <? length results)%nat,
            Some ("can't connect grpc server: " +:+ err +:+ ", code: " +:+ statusCode err)), s)
      | (Some _, None) =>
          let y := lastValue results in
          ((0 <? y, None), s)
      end
  end.

End WithExternals.

End PredictKube.

(** ** A reference instance of [Externals]

    The behaviour of the outside functions on everyday inputs, for running the
    scalers on examples: decimal integers, decimal numerals without exponent,
    durations written as a sequence of integers with units, URLs with a
    scheme, three-part tokens, the timestamp conversion that refuses the zero
    time only, and the conversions of amd64. *)

Module Reference.

Definition digit (a : ascii) : option Z :=
  let n := Z.of_N (N_of_ascii a) in
  if (48 <=? n) && (n <=? 57) then Some (n - 48) else None.

Fixpoint digits (s : string) (acc : Z) : option Z :=
  match s with
  | EmptyString => Some acc
  | String a s' =>
      match digit a with
      | Some d => digits s' (10 * acc + d)
      | None => None
      end
  end.

Definition decimal (s : string) : option Z :=
  match s with
  | EmptyString => None
  | _ => digits s 0
  end.

Definition signed (s : string) : option Z :=
  match s with
  | String "-" r => Z.opp <$> decimal r
  | String "+" r => decimal r
  | _ => decimal s
  end.

Definition quote (s : string) : string :=
  String (ascii_of_nat 34) (s +:+ String (ascii_of_nat 34) "").

(** [strconv.ParseInt(s, 10, 64)] and [strconv.Atoi(s)] *)
Definition parseInt (fn s : string) : result Z :=
  match signed s with
  | None => Err ("strconv." +:+ fn +:+ ": parsing " +:+ quote s +:+ ": invalid syntax")
  | Some z =>
      if (min_int64 <=? z) && (z <=? max_int64) then Ok z
      else Err ("strconv." +:+ fn +:+ ": parsing " +:+ quote s +:+ ": value out of range")
  end.

(** Split at the first dot. *)
Fixpoint cutDot (s : string) : string * option string :=
  match s with
  | EmptyString => ("", None)
  | String "." r => ("", Some r)
  | String a r => let '(i, f) := cutDot r in (String a i, f)
  end.

(** The float nearest to [z / 10^k], for [0 <= z]: the quotient is taken
    with more bits than a float holds and a sticky bit, and rounded once. *)
Definition nearest (z k : Z) (neg : bool) : float64 :=
  let den := 10 ^ k in
  let shift := 65 + Z.log2 den in
  let q := (z * 2 ^ shift) / den in
  let sticky := if (z * 2 ^ shift) mod den =? 0 then 0 else 1 in
  let m := 2 * q + sticky in
  binary_normalize prec64 emax64 (if neg then - m else m) (- (shift + 1)) neg.

(** [strconv.ParseFloat(s, 64)] on [digits] and [digits.digits], signed (no
    exponent, no hexadecimal or special values), for numerals within the
    range of [float64]. *)
Definition parseFloat (s : string) : result float64 :=
  let '(neg, body) :=
    match s with
    | String "-" r => (true, r)
    | String "+" r => (false, r)
    | _ => (false, s)
    end in
  let bad := Err ("strconv.ParseFloat: parsing " +:+ quote s +:+ ": invalid syntax") in
  match cutDot body with
  | (i, None) =>
      match decimal i with
      | Some z => Ok (nearest z 0 neg)
      | None => bad
      end
  | (i, Some f) =>
      match decimal (i +:+ f) with
      | Some z => Ok (nearest z (Z.of_nat (String.length f)) neg)
      | None => bad
      end
  end.

(** [str2duration.ParseDuration] on [0] and on signed sequences of whole
    numbers with units such as [1h30m] (no fractions): nanoseconds. *)
Fixpoint units (s : string) (total : Z) (num : option Z) : option Z :=
  match s with
  | EmptyString => match num with None => Some total | Some _ => None end
  | String a rest =>
      match digit a with
      | Some d => units rest total (Some (10 * default 0 num + d))
      | None =>
          match num with
          | None => None
          | Some n =>
              match a, rest with
              | "n"%char, String "s" rest' => units rest' (total + n) None
              | "u"%char, String "s" rest' => units rest' (total + n * 1000) None
              | "m"%char, String "s" rest' => units rest' (total + n * 1000000) None
              | "s"%char, _ => units rest (total + n * 1000000000) None
              | "m"%char, _ => units rest (total + n * 60000000000) None
              | "h"%char, _ => units rest (total + n * 3600000000000) None
              | "d"%char, _ => units rest (total + n * 86400000000000) None
              | "w"%char, _ => units rest (total + n * 604800000000000) None
              | _, _ => None
              end
          end
      end
  end.

Definition parseDuration (s : string) : result Z :=
  let bad := Err ("time: invalid duration " +:+ quote s) in
  let '(neg, body) :=
    match s with
    | String "-" r => (true, r)
    | String "+" r => (false, r)
    | _ => (false, s)
    end in
  if String.eqb body "0" then Ok 0
  else if String.eqb body "" then bad
  else
    match units body 0 None with
    | Some d => if d <=? max_int64 then Ok (if neg then - d else d) else bad
    | None => bad
    end.

(** The characters of base64url. *)
Definition tokenChar (a : ascii) : bool :=
  let n := Z.of_N (N_of_ascii a) in
  ((48 <=? n) && (n <=? 57)) || ((65 <=? n) && (n <=? 90)) ||
  ((97 <=? n) && (n <=? 122)) || (n =? 45) || (n =? 95).

(** Three dot-separated parts of base64url characters, the first two not
    empty: [seen] counts the dots read, [len] the part being read. *)
Fixpoint jwt (s : string) (seen len : nat) : bool :=
  match s with
  | EmptyString => (seen =? 2)%nat
  | String "." r => (seen <? 2)%nat && (0 <? len)%nat && jwt r (S seen) 0
  | String a r => tokenChar a && jwt r seen (S len)
  end.

(** The tags [url] and [jwt] of the validator, simplified: a URL is a text
    with a scheme before [://], a token is three parts of base64url. *)
Definition validate (val tag : string) : option error :=
  let ok :=
    if String.eqb tag "url" then Contains val "://" && negb (HasPrefix val "://")
    else if String.eqb tag "jwt" then jwt val 0 0
    else true in
  if ok then None
  else Some ("Key: '' Error:Field validation for '' failed on the '" +:+ tag +:+ "' tag").

(** The Prometheus time, in milliseconds since 1970, of the zero [time.Time]:
    midnight of 1 January of the year 1. *)
Definition zeroTime : Z := -62135596800000.

(** A Prometheus time in milliseconds as seconds and nanoseconds; the zero
    time is refused, every other time is converted. *)
Definition adaptTime (ms : Z) : result timestamppb.Timestamp :=
  if ms =? zeroTime then Err "time parameter is empty or zero"
  else
    Ok {| timestamppb.Seconds := ms / 1000; timestamppb.Nanos := (ms mod 1000) * 1000000 |}.

Definition normalize (s : string) : string :=
  string_of_list_ascii
    (List.map (fun a => if existsb (Ascii.eqb a) (list_ascii_of_string "/.:%()") then "-"%char else a)
       (list_ascii_of_string s)).

Definition metricTargetType (config : ScalerConfig) : result MetricTargetType :=
  if String.eqb (MetricType config) "Utilization" then
    Err "'Utilization' metric type is unsupported for external metrics, allowed values are 'Value' or 'AverageValue'"
  else if String.eqb (MetricType config) "" then Ok "AverageValue"
  else Ok (MetricType config).

Definition gcpAuthorization (config : ScalerConfig) (resolvedEnv : gmap string string)
  : result gcpAuthorizationMetadata :=
  match AuthParams config !! "GoogleApplicationCredentials" with
  | Some creds =>
      if String.eqb creds "" then Err "GoogleApplicationCredentials is empty"
      else Ok {| GoogleApplicationCredentials := creds;
                 GoogleApplicationCredentialsFile := "";
                 podIdentityProviderEnabled := false |}
  | None =>
      match TriggerMetadata config !! "credentialsFromEnv" with
      | Some name =>
          Ok {| GoogleApplicationCredentials := default "" (resolvedEnv !! name);
                GoogleApplicationCredentialsFile := "";
                podIdentityProviderEnabled := false |}
      | None => Err "GoogleApplicationCredentials not found"
      end
  end.

Definition externals : Externals :=
  {| AuthMeta := unit;
     GetMetricTargetType := metricTargetType;
     GenerateMetricNameWithIndex := fun i name => "s" +:+ pretty i +:+ "-" +:+ name;
     getGcpAuthorization := gcpAuthorization;
     NormalizeString := normalize;
     GetAuthConfigs := fun _ _ => Ok tt;
     ParseInt := fun s _ _ => parseInt "ParseInt" s;
     Atoi := parseInt "Atoi";
     ParseFloat := fun s _ => parseFloat s;
     ParseDuration := parseDuration;
     validateVar := validate;
     AdaptTimeToPbTimestamp := adaptTime;
     statusCode := fun _ => "Unknown";
     int64_of_unrepresentable := fun _ => min_int64;
     uint64_of_unrepresentable := fun f =>
       match trunc f with
       | Some z => if (min_int64 <=? z) && (z <? 0) then z + 2 ^ 64 else 2 ^ 63
       | None => 2 ^ 63
       end |}.

End Reference.

(** ** The required fields of a PredictKube trigger

    A view of [parsePredictKubeMetadata]: the fields it requires, in the order
    it checks them, where it reads each, the test it applies to a value that is
    present, and the error it returns when the field is absent. *)

Module Required.

Inductive Field :=
| Query
| PrometheusAddress
| PredictHorizon
| QueryStep
| HistoryTimeWindow
| Threshold
| ApiKey.

Definition lookup (config : ScalerConfig) (f : Field) : option string :=
  match f with
  | Query => TriggerMetadata config !! "query"
  | PrometheusAddress => TriggerMetadata config !! "prometheusAddress"
  | PredictHorizon => TriggerMetadata config !! "predictHorizon"
  | QueryStep => TriggerMetadata config !! "queryStep"
  | HistoryTimeWindow => TriggerMetadata config !! "historyTimeWindow"
  | Threshold => TriggerMetadata config !! "threshold"
  | ApiKey => AuthParams config !! "apiKey"
  end.

Definition absentError (f : Field) : error :=
  match f with
  | Query => "no query given"
  | PrometheusAddress => "no prometheusAddress given"
  | PredictHorizon => "no predictHorizon given"
  | QueryStep => "no queryStep given"
  | HistoryTimeWindow => "no historyTimeWindow given"
  | Threshold => "no threshold given"
  | ApiKey => "no api key given"
  end.

Definition checkedBefore (f : Field) : list Field :=
  match f with
  | Query => []
  | PrometheusAddress => [Query]
  | PredictHorizon => [Query; PrometheusAddress]
  | QueryStep => [Query; PrometheusAddress; PredictHorizon]
  | HistoryTimeWindow => [Query; PrometheusAddress; PredictHorizon; QueryStep]
  | Threshold => [Query; PrometheusAddress; PredictHorizon; QueryStep; HistoryTimeWindow]
  | ApiKey =>
      [Query; PrometheusAddress; PredictHorizon; QueryStep; HistoryTimeWindow; Threshold]
  end.

Definition accepted `{Externals} (f : Field) (val : string) : Prop :=
  match f with
  | Query => val <> ""
  | PrometheusAddress => validateVar val "url" = None
  | PredictHorizon | QueryStep | HistoryTimeWindow => exists d, ParseDuration val = Ok d
  | Threshold => exists n, ParseInt val 10 64 = Ok n
  | ApiKey => validateVar val "jwt" = None
  end.

End Required.

(** ** Samples and the observations made of them *)

Section Observations.
Context `{Externals}.

(** The item a sample becomes: its timestamp converted, its value kept. *)
Definition itemOf (metricName : string) (timestamp : Z) (value : float64)
  (item : PredictKube.Item) : Prop :=
  AdaptTimeToPbTimestamp timestamp = Ok (PredictKube.Timestamp item) /\
  PredictKube.Value item = value /\
  PredictKube.MetricName item = metricName.

Definition convertible (timestamp : Z) : Prop :=
  exists t, AdaptTimeToPbTimestamp timestamp = Ok t.

End Observations.

(** The samples of a matrix in the order of the source: series by series, each
    in its own order. *)
Definition samplesOf (m : model.Matrix) : list model.SamplePair.t :=
  concat (model.SampleStream.Values <$> m).

(** ** The forecast horizon in the words of the specification *)

Module Spec.

(** "round(predictHorizon / d)": the integer nearest to the exact quotient of
    the two durations, halves away from zero as [math.Round] has them. *)
Definition forecastHorizon (predictHorizon d : Z) : Z :=
  Z.sgn predictHorizon * Z.sgn d *
  ((2 * Z.abs predictHorizon + Z.abs d) / (2 * Z.abs d)).

End Spec.

(** ** Scalers to run the definitions on *)

Module Examples.

Definition gcsMeta (maxItems : Z) : Gcs.gcsMetadata :=
  {| Gcs.bucketName := "jobs";
     Gcs.gcpAuthorization :=
       {| GoogleApplicationCredentials := "{}";
          GoogleApplicationCredentialsFile := "";
          podIdentityProviderEnabled := false |};
     Gcs.maxBucketItemsToScan := maxItems;
     Gcs.metricName := "s0-gcp-storage-jobs";
     Gcs.targetObjectCount := 100 |}.

(** A GCS scaler on a bucket with the given listing. *)
Definition gcsOn (it : Gcs.ObjectIterator) (maxItems : Z) : Gcs.gcsScaler :=
  {| Gcs.client := {| Gcs.createdWith := Gcs.WithCredentialsJSON "{}" |};
     Gcs.bucket := {| Gcs.listing := it |};
     Gcs.metricType := "AverageValue";
     Gcs.metadata := gcsMeta maxItems |}.

Definition tenObjects : list string :=
  ["a"; "b"; "c"; "d"; "e"; "f"; "g"; "h"; "i"; "j"].

(** A trigger on the bucket [jobs] with the scan bound written as [bound]. *)
Definition gcsConfig (bound : string) : ScalerConfig :=
  {| TriggerMetadata :=
       <["bucketName" := "jobs"]> (<["maxBucketItemsToScan" := bound]> ∅);
     AuthParams := <["GoogleApplicationCredentials" := "{}"]> ∅;
     ResolvedEnv := ∅;
     ScalerIndex := 0;
     MetricType := "" |}.

(** A cloud where clients can be created and every bucket lists [it]. *)
Definition cloudOn (it : Gcs.ObjectIterator) : Gcs.Cloud :=
  {| Gcs.NewClient := fun _ => None;
     Gcs.Bucket := fun _ => Some {| Gcs.listing := it |} |}.

Definition minute : Z := 60 * 1000000000.

Definition pkMeta (horizon step : Z)
  : PredictKube.predictKubeMetadata (H := Reference.externals) :=
  {| PredictKube.predictHorizon := horizon;
     PredictKube.historyTimeWindow := 7 * 24 * 60 * minute;
     PredictKube.stepDuration := step;
     PredictKube.apiKey := "eyJh.eyJz.c2ln";
     PredictKube.prometheusAddress := "http://prometheus:9090";
     PredictKube.prometheusAuth := (tt : @AuthMeta Reference.externals);
     PredictKube.query := "sum(rate(http_requests_total[2m]))";
     PredictKube.threshold := 2000;
     PredictKube.scalerIndex := 0 |}.

(** A PredictKube scaler with the given horizon and step, in nanoseconds. *)
Definition pkScaler (horizon step : Z)
  : PredictKube.PredictKubeScaler (H := Reference.externals) :=
  {| PredictKube.metricType := "AverageValue";
     PredictKube.metadata := pkMeta horizon step |}.

(** An instant vector from pairs of a time in milliseconds and a value. *)
Definition vector (samples : list (Z * float64)) : model.Value :=
  model.OfVector
    (List.map (fun '(t, v) =>
       {| model.Sample.Metric := []; model.Sample.Value := v; model.Sample.Timestamp := t |})
       samples).

(** A range matrix from series of such pairs. *)
Definition matrix (series : list (list (Z * float64))) : model.Matrix :=
  List.map (fun samples =>
    {| model.SampleStream.Metric := [];
       model.SampleStream.Values :=
         List.map (fun '(t, v) =>
           {| model.SamplePair.Timestamp := t; model.SamplePair.Value := v |}) samples |})
    series.

(** Three series with two samples, none and one. *)
Definition threeSeries : model.Matrix :=
  matrix [[(1000, float64_of 5 0); (2000, float64_of 19 (-1))]; [];
          [(1000, float64_of 1 0)]].

Definition serving : PredictKube.HealthCheckResponse := {| PredictKube.Status := 1 |}.

(** Prometheus answers [answer], the engine predicts [predicted], the health
    probe gives [health]. *)
Definition remote (answer : model.Value) (predicted : Z)
  (health : option PredictKube.HealthCheckResponse * option error) : PredictKube.Remote :=
  {| PredictKube.now := 1700000000 * 1000000000;
     PredictKube.metricNow := 1700000001 * 1000000000;
     PredictKube.QueryRange := fun _ _ => Ok answer;
     PredictKube.GetPredictMetric := fun _ => Ok {| PredictKube.ResultMetric := predicted |};
     PredictKube.Check := health |}.

(** Prometheus answers [answer] and the engine answers with the horizon it was
    asked for, which makes the request visible in the result. *)
Definition echoRemote (answer : model.Value) : PredictKube.Remote :=
  {| PredictKube.now := 1700000000 * 1000000000;
     PredictKube.metricNow := 1700000001 * 1000000000;
     PredictKube.QueryRange := fun _ _ => Ok answer;
     PredictKube.GetPredictMetric := fun req =>
       Ok {| PredictKube.ResultMetric := PredictKube.ForecastHorizon req |};
     PredictKube.Check := (Some serving, None) |}.

(** Two observations, 5 and 9, a prediction of 7, a healthy engine. *)
Definition steady : PredictKube.Remote :=
  remote (vector [(1000, float64_of 5 0); (2000, float64_of 9 0)]) 7 (Some serving, None).

(** Two observations, 5 and 9.5, a prediction of 7, a healthy engine. *)
Definition fractional : PredictKube.Remote :=
  remote (vector [(1000, float64_of 5 0); (2000, float64_of 19 (-1))]) 7
    (Some serving, None).

(** One observation of value 0; the engine predicts 0. *)
Definition idle (health : option PredictKube.HealthCheckResponse * option error)
  : PredictKube.Remote :=
  remote (vector [(1000, float64_of 0 0)]) 0 health.

(** The observation made of a sample at [seconds] whole seconds. *)
Definition item (seconds : Z) (value : float64) : PredictKube.Item :=
  {| PredictKube.Timestamp :=
       {| timestamppb.Seconds := seconds; timestamppb.Nanos := 0 |};
     PredictKube.Value := value;
     PredictKube.MetricName := "s0-predictkube-predictkube_metric" |}.

(** A complete PredictKube trigger. *)
Definition pkTrigger : gmap string string :=
  <["query" := "sum(rate(http_requests_total[2m]))"]>
  (<["prometheusAddress" := "http://prometheus:9090"]>
  (<["predictHorizon" := "2h"]>
  (<["queryStep" := "2m"]>
  (<["historyTimeWindow" := "7d"]>
  (<["threshold" := "2000"]> ∅))))).

Definition pkConfig (trigger : gmap string string) : ScalerConfig :=
  {| TriggerMetadata := trigger;
     AuthParams := <["apiKey" := "eyJh.eyJz.c2ln"]> ∅;
     ResolvedEnv := ∅;
     ScalerIndex := 0;
     MetricType := "" |}.

(** Backends that accept every call of the constructor. *)
Definition backend : PredictKube.Backend (H := Reference.externals) :=
  {| PredictKube.CreateHTTPRoundTripper := fun _ => None;
     PredictKube.NewClient := fun _ => None;
     PredictKube.Runtimeinfo := None;
     PredictKube.SetGrpcClientOptions := fun _ => None;
     PredictKube.Dial := fun _ => None |}.

End Examples.

(** ** The metric specification ([GetMetricSpecForScaling])

    [GetMetricTarget] and the constant [externalMetricType] are defined in
    [pkg/scalers], outside the two files. *)

Class Targets := {
  (** [v2beta2.MetricTarget] *)
  MetricTarget : Type;
  GetMetricTarget : MetricTargetType -> Z -> MetricTarget;
  externalMetricType : string;
}.

Module v2beta2.
Section WithTargets.
Context `{Targets}.

Record MetricIdentifier := {
  Name : string;
}.

Record ExternalMetricSource := {
  Metric : MetricIdentifier;
  Target : MetricTarget;
}.

Record MetricSpec := {
  External : ExternalMetricSource;
  Type_ : string;
}.

End WithTargets.
End v2beta2.

Module GcsScaling.
Section WithTargets.
Context `{Targets}.

(** [gcsScaler.GetMetricSpecForScaling] *)
Definition GetMetricSpecForScaling (s : Gcs.gcsScaler) : list v2beta2.MetricSpec :=
  let externalMetric :=
    {| v2beta2.Metric := {| v2beta2.Name := Gcs.metricName (Gcs.metadata s) |};
       v2beta2.Target :=
         GetMetricTarget (Gcs.metricType s) (Gcs.targetObjectCount (Gcs.metadata s)) |} in
  let metricSpec :=
    {| v2beta2.External := externalMetric; v2beta2.Type_ := externalMetricType |} in
  [metricSpec].

End WithTargets.
End GcsScaling.

Module PredictKubeScaling.
Section WithTargets.
Context `{Externals} `{Targets}.

Definition predictKubeMetricType : string := "External".

(** [PredictKubeScaler.GetMetricSpecForScaling] *)
Definition GetMetricSpecForScaling (s : PredictKube.PredictKubeScaler)
  : list v2beta2.MetricSpec :=
  let metricName :=
    NormalizeString ("predictkube-" +:+ PredictKube.predictKubeMetricPrefix) in
  let externalMetric :=
    {| v2beta2.Metric :=
         {| v2beta2.Name :=
              GenerateMetricNameWithIndex
                (PredictKube.scalerIndex (PredictKube.metadata s)) metricName |};
       v2beta2.Target :=
         GetMetricTarget (PredictKube.metricType s)
           (PredictKube.threshold (PredictKube.metadata s)) |} in
  let metricSpec :=
    {| v2beta2.External := externalMetric; v2beta2.Type_ := predictKubeMetricType |} in
  [metricSpec].

End WithTargets.
End PredictKubeScaling.

(** [GetMetricTarget] as [pkg/scalers/scaler.go] has it: the quantity goes to
    [AverageValue] for the target type [AverageValue], to [Value] otherwise. *)
Module ReferenceTargets.

Record target := {
  kind : MetricTargetType;
  Value : option Z;
  AverageValue : option Z;
}.

Definition metricTarget (metricType : MetricTargetType) (metricValue : Z) : target :=
  if String.eqb metricType "AverageValue"
  then {| kind := metricType; Value := None; AverageValue := Some metricValue |}
  else {| kind := metricType; Value := Some metricValue; AverageValue := None |}.

Definition targets : Targets :=
  {| MetricTarget := target;
     GetMetricTarget := metricTarget;
     externalMetricType := "External" |}.

End ReferenceTargets.

(** ** More triggers to run the definitions on *)

Module Cases.

(** A GCS trigger with JSON credentials. *)
Definition gcsTrigger (trigger : gmap string string) : ScalerConfig :=
  {| TriggerMetadata := trigger;
     AuthParams := <["GoogleApplicationCredentials" := "{}"]> ∅;
     ResolvedEnv := ∅;
     ScalerIndex := 2;
     MetricType := "Value" |}.

(** A GCS trigger without any credentials. *)
Definition gcsAnonymous (trigger : gmap string string) : ScalerConfig :=
  {| TriggerMetadata := trigger;
     AuthParams := ∅;
     ResolvedEnv := ∅;
     ScalerIndex := 2;
     MetricType := "Value" |}.

(** The scaler the constructor makes of [gcsTrigger] for the bucket [jobs]
    with 50 objects per replica. *)
Definition gcsJobs (it : Gcs.ObjectIterator) : Gcs.gcsScaler :=
  {| Gcs.client := {| Gcs.createdWith := Gcs.WithCredentialsJSON "{}" |};
     Gcs.bucket := {| Gcs.listing := it |};
     Gcs.metricType := "Value";
     Gcs.metadata :=
       {| Gcs.bucketName := "jobs";
          Gcs.gcpAuthorization :=
            {| GoogleApplicationCredentials := "{}";
               GoogleApplicationCredentialsFile := "";
               podIdentityProviderEnabled := false |};
          Gcs.maxBucketItemsToScan := 1000;
          Gcs.metricName := "s2-gcp-storage-jobs";
          Gcs.targetObjectCount := 50 |} |}.

End Cases.

(** ** More remote sides to run the predictive scaler against *)

Module Worlds.

(** Prometheus refuses the query with [e]. *)
Definition unreachable (e : error) : PredictKube.Remote :=
  {| PredictKube.now := 1700000000 * 1000000000;
     PredictKube.metricNow := 1700000001 * 1000000000;
     PredictKube.QueryRange := fun _ _ => Err e;
     PredictKube.GetPredictMetric := fun _ => Ok {| PredictKube.ResultMetric := 7 |};
     PredictKube.Check := (Some Examples.serving, None) |}.

(** Prometheus answers [answer], the engine refuses with [e]. *)
Definition refused (answer : model.Value) (e : error) : PredictKube.Remote :=
  {| PredictKube.now := 1700000000 * 1000000000;
     PredictKube.metricNow := 1700000001 * 1000000000;
     PredictKube.QueryRange := fun _ _ => Ok answer;
     PredictKube.GetPredictMetric := fun _ => Err e;
     PredictKube.Check := (Some Examples.serving, None) |}.

(** A vector whose second sample carries the zero time. *)
Definition yearOne : model.Value :=
  Examples.vector
    [(1000, float64_of 5 0); (Reference.zeroTime, float64_of 9 0); (3000, float64_of 7 0)].

(** Two series of three samples in all, the second sample carrying the zero
    time. *)
Definition yearOneSeries : model.Matrix :=
  Examples.matrix
    [[(1000, float64_of 5 0); (Reference.zeroTime, float64_of 9 0)]; [(3000, float64_of 7 0)]].

(** Backends where Prometheus does not answer the ping. *)
Definition silentPrometheus : PredictKube.Backend (H := Reference.externals) :=
  {| PredictKube.CreateHTTPRoundTripper := fun _ => None;
     PredictKube.NewClient := fun _ => None;
     PredictKube.Runtimeinfo := Some "connection refused";
     PredictKube.SetGrpcClientOptions := fun _ => None;
     PredictKube.Dial := fun _ => None |}.

End Worlds.

(** ** Notions used to state what the scalers do *)

(** The objects a listing holds, errors left aside. *)
Definition objectCount (it : Gcs.ObjectIterator) : Z :=
  Z.of_nat
    (length (List.filter (fun r => match r with Gcs.Object _ => true | _ => false end) it)).

(** The timestamps of the samples of a result, in the order of the source. *)
Definition timesOf (v : model.Value) : list Z :=
  match v with
  | model.OfVector res => model.Sample.Timestamp <$> res
  | model.OfMatrix res => model.SamplePair.Timestamp <$> samplesOf res
  | model.OfScalar res => [model.Scalar.Timestamp res]
  | model.OfString res => [model.String.Timestamp res]
  | model.Foreign _ => []
  end.

Module Rejected.
Section WithExternals.
Context `{Externals}.

(** The test [parsePredictKubeMetadata] applies to a field that is present
    fails on [val], and [e] is the error it then returns. *)
Definition by_check (f : Required.Field) (val : string) (e : error) : Prop :=
  match f with
  | Required.Query => val = "" /\ e = "no query given"
  | Required.PrometheusAddress =>
      (exists x, validateVar val "url" = Some x) /\ e = "invalid prometheusAddress"
  | Required.PredictHorizon =>
      exists x, ParseDuration val = Err x /\ e = "predictHorizon parsing error " +:+ x
  | Required.QueryStep =>
      exists x, ParseDuration val = Err x /\ e = "queryStep parsing error " +:+ x
  | Required.HistoryTimeWindow =>
      exists x, ParseDuration val = Err x /\ e = "historyTimeWindow parsing error " +:+ x
  | Required.Threshold =>
      exists x, ParseInt val 10 64 = Err x /\ e = "threshold parsing error " +:+ x
  | Required.ApiKey =>
      (exists x, validateVar val "jwt" = Some x) /\ e = "invalid apiKey"
  end.

End WithExternals.
End Rejected.

(** * Properties *)

(** ** Integers *)

Lemma wrap64_id (z : Z) : in_int64 z -> wrap64 z = z.
Proof.
  unfold in_int64, wrap64, min_int64, max_int64. intros Hz.
  rewrite Z.mod_small; lia.
Qed.

(** ** Integers as floats

    An integer below 2^53 is a float, [math.Round] leaves it as it is, and the
    conversion back gives the integer. *)

(** A positive number has at least the value its number of bits implies. *)
Lemma digits2_pos_lower (p : positive) : 2 ^ (Z.pos (digits2_pos p) - 1) <= Z.pos p.
Proof.
  induction p as [p IH|p IH|]; cbn [digits2_pos].
  - rewrite Pos2Z.inj_succ. replace (Z.succ (Z.pos (digits2_pos p)) - 1)
      with (Z.succ (Z.pos (digits2_pos p) - 1)) by lia.
    rewrite Z.pow_succ_r by lia. lia.
  - rewrite Pos2Z.inj_succ. replace (Z.succ (Z.pos (digits2_pos p)) - 1)
      with (Z.succ (Z.pos (digits2_pos p) - 1)) by lia.
    rewrite Z.pow_succ_r by lia. lia.
  - cbn. lia.
Qed.

Lemma digits2_pos_bound (p : positive) :
  Z.pos p < 2 ^ 53 -> Z.pos (digits2_pos p) <= 53.
Proof.
  intros Hlt. destruct (Z_le_gt_dec (Z.pos (digits2_pos p)) 53) as [|Hgt]; [assumption|].
  pose proof (digits2_pos_lower p) as Hlow.
  assert (2 ^ 53 <= 2 ^ (Z.pos (digits2_pos p) - 1)) by (apply Z.pow_le_mono_r; lia).
  lia.
Qed.

Lemma iter_xO_digits (p k : positive) :
  digits2_pos (Pos.iter xO p k) = (digits2_pos p + k)%positive.
Proof.
  induction k as [|k IH] using Pos.peano_ind.
  - cbn. lia.
  - rewrite Pos.iter_succ. cbn [digits2_pos]. rewrite IH. lia.
Qed.

Lemma iter_xO_value (p k : positive) :
  Z.pos (Pos.iter xO p k) = Z.pos p * 2 ^ Z.pos k.
Proof.
  induction k as [|k IH] using Pos.peano_ind.
  - cbn. lia.
  - rewrite Pos.iter_succ, Pos2Z.inj_succ, Z.pow_succ_r by lia.
    rewrite Pos2Z.inj_xO, IH. lia.
Qed.

Lemma binary_round_aux_canonical (sx : bool) (m : positive) (e : Z) :
  fexp prec64 emax64 (Z.pos (digits2_pos m) + e) = e ->
  e <= emax64 - prec64 ->
  binary_round_aux prec64 emax64 sx (Z.pos m) e loc_Exact = S754_finite sx m e.
Proof.
  intros Hcanon Hle. unfold binary_round_aux, shr_fexp.
  cbn [Zdigits2 shr_record_of_loc]. rewrite Hcanon, Z.sub_diag.
  cbn [shr shr_m loc_of_shr_record round_nearest_even Zdigits2 shr_record_of_loc].
  rewrite Hcanon, Z.sub_diag. cbn [shr shr_m].
  apply Z.leb_le in Hle. rewrite Hle. reflexivity.
Qed.

(** The float of a positive integer below 2^53: the integer itself, shifted so
    that the mantissa has 53 bits. *)
Lemma float64_of_int64_pos (p : positive) :
  Z.pos p < 2 ^ 53 ->
  exists (m : positive) (e : Z),
    float64_of_int64 (Z.pos p) = S754_finite false m e /\
    -52 <= e <= 0 /\ Z.pos m = Z.pos p * 2 ^ (- e).
Proof.
  intros Hlt. pose proof (digits2_pos_bound p Hlt) as Hd.
  unfold float64_of_int64, float64_of, binary_normalize, binary_round, shl_align.
  rewrite Z.add_0_r, Z.sub_0_r.
  assert (Hfexp : fexp prec64 emax64 (Z.pos (digits2_pos p)) = Z.pos (digits2_pos p) - 53).
  { unfold fexp, emin, prec64, emax64. lia. }
  rewrite Hfexp.
  destruct (Z.pos (digits2_pos p) - 53) as [|k|k] eqn:Hk; [|lia|].
  - exists p, 0. rewrite binary_round_aux_canonical.
    + split; [reflexivity|]. split; [lia|]. cbn. lia.
    + rewrite Z.add_0_r. exact Hfexp.
    + unfold emax64, prec64. lia.
  - exists (Pos.iter xO p k), (Z.neg k). rewrite binary_round_aux_canonical.
    + split; [reflexivity|]. split; [lia|]. rewrite iter_xO_value. reflexivity.
    + rewrite iter_xO_digits. unfold fexp, emin, prec64, emax64. lia.
    + unfold emax64, prec64. lia.
Qed.

Lemma Round_float64_of_int64 (q : Z) :
  0 <= q < 2 ^ 53 ->
  Round (float64_of_int64 q) = float64_of_int64 q /\ trunc (float64_of_int64 q) = Some q.
Proof.
  intros [Hlo Hhi]. destruct q as [|p|p]; [split; reflexivity| |lia].
  destruct (float64_of_int64_pos p Hhi) as (m & e & Hfloat & He & Hm).
  rewrite Hfloat. unfold Round, trunc.
  destruct (0 <=? e) eqn:Hsign.
  - apply Z.leb_le in Hsign. assert (e = 0) as -> by lia.
    split; [reflexivity|]. f_equal. cbn in Hm. lia.
  - assert (Hpow : 0 < 2 ^ (- e)) by (apply Z.pow_pos_nonneg; lia).
    rewrite Hm, Z.div_mul, Z.mod_mul by lia.
    replace (2 ^ (- e) <=? 2 * 0) with false by (symmetry; apply Z.leb_gt; lia).
    split; [exact Hfloat | reflexivity].
Qed.

(** ** The bounded object counter *)

(** The loop on a listing that starts with objects: either the objects run out
    first and the loop goes on with the rest, or the bound is reached and the
    rest is never asked for. *)
Lemma countItems_objects (names : list string) :
  forall (rest : Gcs.ObjectIterator) (maxCount count : Z),
    0 <= count -> maxCount <= max_int64 ->
    Gcs.countItems ((Gcs.Object <$> names) ++ rest) maxCount count =
    if count + Z.of_nat (length names) <? maxCount
    then Gcs.countItems rest maxCount (count + Z.of_nat (length names))
    else (Z.max count maxCount, None).
Proof.
  induction names as [|name names IH]; intros rest maxCount count Hcount Hmax.
  - cbn [fmap list_fmap app length Z.of_nat]. rewrite Z.add_0_r.
    destruct (count <? maxCount) eqn:Hlt; [reflexivity|].
    apply Z.ltb_ge in Hlt.
    destruct rest as [|[]]; cbn [Gcs.countItems];
      (replace (count <? maxCount) with false by (symmetry; apply Z.ltb_ge; lia));
      f_equal; lia.
  - cbn [fmap list_fmap app Gcs.countItems].
    destruct (count <? maxCount) eqn:Hlt.
    + apply Z.ltb_lt in Hlt.
      rewrite wrap64_id by (unfold in_int64, min_int64, max_int64 in *; lia).
      rewrite IH by lia.
      replace (count + 1 + Z.of_nat (length names))
        with (count + Z.of_nat (length (name :: names))) by (cbn [length]; lia).
      destruct (count + Z.of_nat (length (name :: names)) <? maxCount); [reflexivity|].
      f_equal; lia.
    + apply Z.ltb_ge in Hlt.
      replace (count + Z.of_nat (length (name :: names)) <? maxCount) with false
        by (symmetry; apply Z.ltb_ge; lia).
      f_equal; lia.
Qed.

(** Nothing left to ask: [iterator.Done], or the bound already reached. *)
Lemma countItems_done (maxCount count : Z) :
  Gcs.countItems [] maxCount count = (count, None).
Proof. cbn. destruct (count <? maxCount); reflexivity. Qed.

(** A bound that is not above the running count stops the loop at once. *)
Lemma countItems_stop (it : Gcs.ObjectIterator) (maxCount count : Z) :
  maxCount <= count -> Gcs.countItems it maxCount count = (count, None).
Proof.
  intros Hle. destruct it as [|[]]; cbn [Gcs.countItems];
    (replace (count <? maxCount) with false by (symmetry; apply Z.ltb_ge; lia));
    reflexivity.
Qed.

(** An error met below the bound ends the loop. *)
Lemma countItems_failure (err : error) (rest : Gcs.ObjectIterator) (maxCount count : Z) :
  count < maxCount ->
  Gcs.countItems (Gcs.Failure err :: rest) maxCount count =
  if Contains err "bucket doesn't exist" then (0, None) else (count, Some err).
Proof.
  intros Hlt. cbn [Gcs.countItems].
  replace (count <? maxCount) with true by (symmetry; apply Z.ltb_lt; lia).
  reflexivity.
Qed.

(** [getItemCount] is the loop started at 0 on the listing of the bucket: the
    attribute selection of the query always succeeds. *)
Lemma getItemCount_loop (s : Gcs.gcsScaler) (maxCount : Z) :
  Gcs.getItemCount s maxCount =
  Gcs.countItems (Gcs.listing (Gcs.bucket s)) maxCount 0.
Proof. reflexivity. Qed.

(** C5 (as amended). On a bucket that lists [names] without error,
    [getItemCount] returns [min (number of items) (max bound 0)] and no error,
    also when the listing goes on after the bound is reached (the loop stops
    there). So for a bound that is not negative the count never exceeds the
    bound and equals it when the bucket holds at least that many items; for a
    negative bound the count is 0. *)
Theorem getItemCount_saturates
  (s : Gcs.gcsScaler) (names : list string) (rest : Gcs.ObjectIterator) (maxCount : Z) :
  in_int64 maxCount ->
  Gcs.listing (Gcs.bucket s) = (Gcs.Object <$> names) ++ rest ->
  rest = [] \/ maxCount <= Z.of_nat (length names) ->
  exists count : Z,
    Gcs.getItemCount s maxCount = (count, None) /\
    count = Z.min (Z.of_nat (length names)) (Z.max maxCount 0) /\
    (0 <= maxCount -> count <= maxCount) /\
    (0 <= maxCount <= Z.of_nat (length names) -> count = maxCount) /\
    (maxCount < 0 -> count = 0).
Proof.
  intros [_ Hmax] Hlist Hrest.
  exists (Z.min (Z.of_nat (length names)) (Z.max maxCount 0)).
  split; [|lia].
  rewrite getItemCount_loop, Hlist, countItems_objects by (assumption || lia).
  rewrite Z.add_0_l.
  destruct (Z.of_nat (length names) <? maxCount) eqn:Hlt.
  - apply Z.ltb_lt in Hlt. destruct Hrest as [-> | Hle]; [|lia].
    rewrite countItems_done. f_equal. lia.
  - apply Z.ltb_ge in Hlt. f_equal. lia.
Qed.

(** A bucket of ten objects counted with the bound 3: the fourth scenario of
    the specification. *)
Lemma getItemCount_saturates_witness :
  exists count : Z,
    Gcs.getItemCount (Examples.gcsOn (Gcs.Object <$> Examples.tenObjects) 3) 3
      = (count, None) /\
    count = Z.min 10 (Z.max 3 0) /\
    (0 <= 3 -> count <= 3) /\
    (0 <= 3 <= 10 -> count = 3) /\
    (3 < 0 -> count = 0).
Proof.
  apply (getItemCount_saturates
           (Examples.gcsOn (Gcs.Object <$> Examples.tenObjects) 3)
           Examples.tenObjects [] 3).
  - unfold in_int64, min_int64, max_int64. lia.
  - reflexivity.
  - left. reflexivity.
Defined.

(** C5, as stated, fails on a negative bound: with the bound -1 on a bucket of
    ten objects the count returned is 0, which exceeds the bound, and is not the
    bound although the bucket holds more than that many items. *)
Lemma getItemCount_negative_bound :
  Gcs.getItemCount (Examples.gcsOn (Gcs.Object <$> Examples.tenObjects) (-1)) (-1)
    = (0, None) /\
  in_int64 (-1) /\ -1 < 0 /\ -1 <= Z.of_nat (length Examples.tenObjects).
Proof.
  split; [reflexivity|].
  unfold in_int64, min_int64, max_int64. cbn. lia.
Qed.

(** C6. When the enumeration gives an error after [names] objects, below the
    bound: an error whose text contains "bucket doesn't exist" makes
    [getItemCount] return 0 and no error, whatever was counted; any other error
    makes it return the number of objects counted so far and that error. *)
Theorem getItemCount_enumeration_error
  (s : Gcs.gcsScaler) (names : list string) (err : error) (rest : Gcs.ObjectIterator)
  (maxCount : Z) :
  maxCount <= max_int64 ->
  Z.of_nat (length names) < maxCount ->
  Gcs.listing (Gcs.bucket s) = (Gcs.Object <$> names) ++ Gcs.Failure err :: rest ->
  (Contains err "bucket doesn't exist" = true ->
   Gcs.getItemCount s maxCount = (0, None)) /\
  (Contains err "bucket doesn't exist" = false ->
   Gcs.getItemCount s maxCount = (Z.of_nat (length names), Some err)).
Proof.
  intros Hmax Hlt Hlist.
  rewrite getItemCount_loop, Hlist, countItems_objects by (assumption || lia).
  rewrite Z.add_0_l.
  replace (Z.of_nat (length names) <? maxCount) with true
    by (symmetry; apply Z.ltb_lt; lia).
  rewrite countItems_failure by lia.
  split; intros ->; reflexivity.
Qed.

(** Two objects, then an error: the absent bucket gives 0, a timeout gives the
    two objects counted and the timeout. *)
Lemma getItemCount_enumeration_error_witness :
  Gcs.getItemCount
    (Examples.gcsOn
       [Gcs.Object "a"; Gcs.Object "b";
        Gcs.Failure "googleapi: Error 404: storage: bucket doesn't exist"] 1000)
    1000 = (0, None) /\
  Gcs.getItemCount
    (Examples.gcsOn
       [Gcs.Object "a"; Gcs.Object "b"; Gcs.Failure "context deadline exceeded"] 1000)
    1000 = (2, Some "context deadline exceeded").
Proof.
  split.
  - apply (getItemCount_enumeration_error
             (Examples.gcsOn
                [Gcs.Object "a"; Gcs.Object "b";
                 Gcs.Failure "googleapi: Error 404: storage: bucket doesn't exist"] 1000)
             ["a"; "b"] "googleapi: Error 404: storage: bucket doesn't exist" [] 1000);
      [unfold max_int64; lia | cbn; lia | reflexivity | reflexivity].
  - apply (getItemCount_enumeration_error
             (Examples.gcsOn
                [Gcs.Object "a"; Gcs.Object "b"; Gcs.Failure "context deadline exceeded"]
                1000)
             ["a"; "b"] "context deadline exceeded" [] 1000);
      [unfold max_int64; lia | cbn; lia | reflexivity | reflexivity].
Defined.

(** C9. [IsActive] of the GCS scaler counts with the bound 1. On a bucket that
    lists [names] without error it returns true exactly when there is an
    object, and no error; the answer depends on the bucket only, not on
    [maxBucketItemsToScan] or [targetObjectCount]; on a bucket that does not
    exist (the first [Next] gives the error "bucket doesn't exist") it returns
    false and no error. *)
Theorem gcs_IsActive_any_object :
  (forall s : Gcs.gcsScaler,
     Gcs.IsActive s =
     match Gcs.getItemCount s 1 with
     | (_, Some err) => (false, Some err)
     | (items, None) => (0 <? items, None)
     end) /\
  (forall (s : Gcs.gcsScaler) (names : list string),
     Gcs.listing (Gcs.bucket s) = Gcs.Object <$> names ->
     Gcs.IsActive s = (negb (bool_decide (names = [])), None)) /\
  (forall s1 s2 : Gcs.gcsScaler,
     Gcs.bucket s1 = Gcs.bucket s2 -> Gcs.IsActive s1 = Gcs.IsActive s2) /\
  (forall (s : Gcs.gcsScaler) (err : error) (rest : Gcs.ObjectIterator),
     Gcs.listing (Gcs.bucket s) = Gcs.Failure err :: rest ->
     Contains err "bucket doesn't exist" = true ->
     Gcs.IsActive s = (false, None)).
Proof.
  split; [reflexivity|]. split; [|split].
  - intros s names Hlist. unfold Gcs.IsActive.
    rewrite getItemCount_loop, Hlist.
    destruct names as [|name [|name' names]]; reflexivity.
  - intros s1 s2 Hb. unfold Gcs.IsActive.
    rewrite !getItemCount_loop, Hb. reflexivity.
  - intros s err rest Hlist Herr. unfold Gcs.IsActive.
    rewrite getItemCount_loop, Hlist. cbn. rewrite Herr. reflexivity.
Qed.

(** Ten objects, no object, two scan bounds, an absent bucket. *)
Lemma gcs_IsActive_any_object_witness :
  Gcs.IsActive (Examples.gcsOn (Gcs.Object <$> Examples.tenObjects) 0) = (true, None) /\
  Gcs.IsActive (Examples.gcsOn [] 1000) = (false, None) /\
  Gcs.IsActive (Examples.gcsOn (Gcs.Object <$> Examples.tenObjects) 0)
    = Gcs.IsActive (Examples.gcsOn (Gcs.Object <$> Examples.tenObjects) 1000) /\
  Gcs.IsActive (Examples.gcsOn [Gcs.Failure "storage: bucket doesn't exist"] 1000)
    = (false, None).
Proof.
  destruct gcs_IsActive_any_object as (_ & Hobjects & Hbucket & Habsent).
  split; [|split; [|split]].
  - apply (Hobjects (Examples.gcsOn (Gcs.Object <$> Examples.tenObjects) 0)
             Examples.tenObjects). reflexivity.
  - apply (Hobjects (Examples.gcsOn [] 1000) []). reflexivity.
  - apply Hbucket. reflexivity.
  - apply (Habsent _ "storage: bucket doesn't exist" []); reflexivity.
Defined.

(** ** Non-positive scan bounds *)

Section GcsBounds.
Context `{Externals}.

(** [parseGcsMetadata] when the bucket name, the optional target and the
    authorization are in order: the scan bound is whatever [Atoi] reads. *)
Lemma parseGcsMetadata_bound
  (config : ScalerConfig) (b val : string) (n : Z) (auth : gcpAuthorizationMetadata) :
  TriggerMetadata config !! "bucketName" = Some b -> b <> "" ->
  (forall v, TriggerMetadata config !! "targetObjectCount" = Some v ->
             exists t, ParseInt v 10 64 = Ok t) ->
  TriggerMetadata config !! "maxBucketItemsToScan" = Some val ->
  Atoi val = Ok n ->
  getGcpAuthorization config (ResolvedEnv config) = Ok auth ->
  exists meta : Gcs.gcsMetadata,
    Gcs.parseGcsMetadata config = Ok meta /\
    Gcs.maxBucketItemsToScan meta = n /\
    Gcs.bucketName meta = b /\
    Gcs.gcpAuthorization meta = auth.
Proof.
  intros Hb Hne Htarget Hval Hn Hauth.
  unfold Gcs.parseGcsMetadata. rewrite Hb, Hval, Hn, Hauth.
  apply String.eqb_neq in Hne. rewrite Hne.
  destruct (TriggerMetadata config !! "targetObjectCount") as [v|] eqn:Hv.
  - destruct (Htarget v eq_refl) as [t Ht]. rewrite Ht. cbn.
    eexists. repeat split.
  - cbn. eexists. repeat split.
Qed.

(** C10. [parseGcsMetadata] takes for [maxBucketItemsToScan] any integer
    [Atoi] reads, zero and negative ones too; with a bound that is not
    positive [getItemCount] returns 0 and no error on every bucket, whatever
    its listing holds; so a trigger with such a bound constructs and its
    [GetMetrics] reports a zero count, whatever the bucket holds. *)
Theorem gcs_nonpositive_bound :
  (forall (config : ScalerConfig) (b val : string) (n : Z)
          (auth : gcpAuthorizationMetadata),
     TriggerMetadata config !! "bucketName" = Some b -> b <> "" ->
     (forall v, TriggerMetadata config !! "targetObjectCount" = Some v ->
                exists t, ParseInt v 10 64 = Ok t) ->
     TriggerMetadata config !! "maxBucketItemsToScan" = Some val ->
     Atoi val = Ok n ->
     getGcpAuthorization config (ResolvedEnv config) = Ok auth ->
     exists meta : Gcs.gcsMetadata,
       Gcs.parseGcsMetadata config = Ok meta /\ Gcs.maxBucketItemsToScan meta = n) /\
  (forall (s : Gcs.gcsScaler) (maxCount : Z),
     maxCount <= 0 -> Gcs.getItemCount s maxCount = (0, None)) /\
  (forall (s : Gcs.gcsScaler) (now : Z) (name : string),
     Gcs.maxBucketItemsToScan (Gcs.metadata s) <= 0 ->
     Gcs.GetMetrics now s name =
     ([{| external_metrics.MetricName := name;
          external_metrics.Value := 0;
          external_metrics.Timestamp := now |}], None)) /\
  (forall (cloud : Gcs.Cloud) (config : ScalerConfig) (b val : string) (n : Z)
          (ty : MetricTargetType) (auth : gcpAuthorizationMetadata)
          (handle : Gcs.BucketHandle),
     GetMetricTargetType config = Ok ty ->
     TriggerMetadata config !! "bucketName" = Some b -> b <> "" ->
     (forall v, TriggerMetadata config !! "targetObjectCount" = Some v ->
                exists t, ParseInt v 10 64 = Ok t) ->
     TriggerMetadata config !! "maxBucketItemsToScan" = Some val ->
     Atoi val = Ok n -> n <= 0 ->
     getGcpAuthorization config (ResolvedEnv config) = Ok auth ->
     (forall opt, Gcs.NewClient cloud opt = None) ->
     Gcs.Bucket cloud b = Some handle ->
     exists (s : Gcs.gcsScaler) (calls : list Gcs.Call),
       Gcs.NewGcsScaler cloud config = (Ok s, calls) /\
       Gcs.maxBucketItemsToScan (Gcs.metadata s) = n /\
       Gcs.bucket s = handle /\
       forall (now : Z) (name : string),
         Gcs.GetMetrics now s name =
         ([{| external_metrics.MetricName := name;
              external_metrics.Value := 0;
              external_metrics.Timestamp := now |}], None)).
Proof.
  assert (Hcount : forall (s : Gcs.gcsScaler) (maxCount : Z),
             maxCount <= 0 -> Gcs.getItemCount s maxCount = (0, None)).
  { intros s maxCount Hle. rewrite getItemCount_loop. apply countItems_stop. lia. }
  assert (Hmetrics : forall (s : Gcs.gcsScaler) (now : Z) (name : string),
             Gcs.maxBucketItemsToScan (Gcs.metadata s) <= 0 ->
             Gcs.GetMetrics now s name =
             ([{| external_metrics.MetricName := name;
                  external_metrics.Value := 0;
                  external_metrics.Timestamp := now |}], None)).
  { intros s now name Hle. unfold Gcs.GetMetrics. rewrite Hcount by assumption.
    reflexivity. }
  split; [|split; [exact Hcount|split; [exact Hmetrics|]]].
  - intros config b val n auth Hb Hne Htarget Hval Hn Hauth.
    destruct (parseGcsMetadata_bound config b val n auth) as (meta & Hmeta & Hbound & _);
      try assumption.
    exists meta. split; assumption.
  - intros cloud config b val n ty auth handle Hty Hb Hne Htarget Hval Hn Hle Hauth
      Hclient Hbucket.
    destruct (parseGcsMetadata_bound config b val n auth)
      as (meta & Hmeta & Hbound & Hname & _); try assumption.
    unfold Gcs.NewGcsScaler. rewrite Hty, Hmeta, Hclient, Hname, Hbucket.
    eexists _, _. split; [reflexivity|]. cbn [Gcs.metadata Gcs.bucket].
    split; [assumption|]. split; [reflexivity|].
    intros now name. apply Hmetrics. cbn [Gcs.metadata]. lia.
Qed.

End GcsBounds.

(** The bounds written "-5" and "0". *)
Lemma gcs_nonpositive_bound_witness :
  (exists meta : Gcs.gcsMetadata,
     Gcs.parseGcsMetadata (H := Reference.externals) (Examples.gcsConfig "-5") = Ok meta /\
     Gcs.maxBucketItemsToScan meta = -5) /\
  Gcs.getItemCount (Examples.gcsOn (Gcs.Object <$> Examples.tenObjects) (-5)) (-5)
    = (0, None) /\
  (exists (s : Gcs.gcsScaler) (calls : list Gcs.Call),
     Gcs.NewGcsScaler (H := Reference.externals)
       (Examples.cloudOn (Gcs.Object <$> Examples.tenObjects)) (Examples.gcsConfig "0")
       = (Ok s, calls) /\
     Gcs.maxBucketItemsToScan (Gcs.metadata s) = 0 /\
     Gcs.bucket s = {| Gcs.listing := Gcs.Object <$> Examples.tenObjects |} /\
     forall (now : Z) (name : string),
       Gcs.GetMetrics now s name =
       ([{| external_metrics.MetricName := name;
            external_metrics.Value := 0;
            external_metrics.Timestamp := now |}], None)).
Proof.
  destruct (gcs_nonpositive_bound (H := Reference.externals))
    as (Hparse & Hcount & _ & Hnew).
  split; [|split].
  - apply (Hparse (Examples.gcsConfig "-5") "jobs" "-5" (-5)
             {| GoogleApplicationCredentials := "{}";
                GoogleApplicationCredentialsFile := "";
                podIdentityProviderEnabled := false |});
      [reflexivity | discriminate | intros v Hv; vm_compute in Hv; discriminate
      | reflexivity | reflexivity | reflexivity].
  - apply Hcount. lia.
  - apply (Hnew (Examples.cloudOn (Gcs.Object <$> Examples.tenObjects))
             (Examples.gcsConfig "0") "jobs" "0" 0 "AverageValue"
             {| GoogleApplicationCredentials := "{}";
                GoogleApplicationCredentialsFile := "";
                podIdentityProviderEnabled := false |}
             {| Gcs.listing := Gcs.Object <$> Examples.tenObjects |});
      [reflexivity | reflexivity | discriminate
      | intros v Hv; vm_compute in Hv; discriminate
      | reflexivity | reflexivity | lia | reflexivity | reflexivity | reflexivity].
Defined.

(** ** The predictive scaler: queries, predictions and the metric *)

Section Predict.
Context `{Externals}.

(** The conversion [int64(f)] discards the fraction of a float in range. *)
Lemma int64_of_float64_trunc (f : float64) (z : Z) :
  trunc f = Some z -> in_int64 z -> int64_of_float64 f = z.
Proof.
  unfold int64_of_float64, in_int64. intros -> [Hlo Hhi].
  apply Z.leb_le in Hlo, Hhi. rewrite Hlo, Hhi. reflexivity.
Qed.

Lemma lastValue_nil : PredictKube.lastValue [] = 0.
Proof. reflexivity. Qed.

Lemma lastValue_snoc (results : list PredictKube.Item) (item : PredictKube.Item) :
  PredictKube.lastValue (results ++ [item]) = int64_of_float64 (PredictKube.Value item).
Proof. unfold PredictKube.lastValue. rewrite last_snoc. reflexivity. Qed.

(** After [doQuery] the step is never 0: the division in [doPredictRequest]
    cannot panic. *)
Lemma doQuery_step (w : PredictKube.Remote) (s : PredictKube.PredictKubeScaler) :
  PredictKube.stepDuration (PredictKube.metadata (snd (PredictKube.doQuery w s))) =
  if PredictKube.stepDuration (PredictKube.metadata s) =? 0
  then PredictKube.defaultStep
  else PredictKube.stepDuration (PredictKube.metadata s).
Proof.
  unfold PredictKube.doQuery.
  destruct (PredictKube.stepDuration (PredictKube.metadata s) =? 0) eqn:Hstep;
    cbn [PredictKube.metadata PredictKube.stepDuration PredictKube.query];
    match goal with |- context [PredictKube.QueryRange ?w ?q ?r] =>
      destruct (PredictKube.QueryRange w q r) end;
    cbn [snd PredictKube.metadata PredictKube.stepDuration]; reflexivity.
Qed.

(** The forecast horizon of the request is the quotient of the integer division
    of the horizon by the step (here for a quotient from 0 up to 2^53, which
    [float64] holds exactly): the rounding comes after the truncation. *)
Lemma forecastHorizon_quotient
  (s : PredictKube.PredictKubeScaler) (results : list PredictKube.Item) :
  0 <= Z.quot (PredictKube.predictHorizon (PredictKube.metadata s))
              (PredictKube.stepDuration (PredictKube.metadata s)) < 2 ^ 53 ->
  PredictKube.ForecastHorizon (PredictKube.predictRequest s results) =
  Z.quot (PredictKube.predictHorizon (PredictKube.metadata s))
         (PredictKube.stepDuration (PredictKube.metadata s)).
Proof.
  intros Hq. unfold PredictKube.predictRequest. cbn [PredictKube.ForecastHorizon].
  unfold div64. rewrite wrap64_id by (unfold in_int64, min_int64, max_int64; lia).
  destruct (Round_float64_of_int64 _ Hq) as [Hround Htrunc].
  unfold uint64_of_float64. rewrite Hround, Htrunc.
  replace (0 <=? _) with true by (symmetry; apply Z.leb_le; lia).
  replace (_ <=? max_uint64) with true
    by (symmetry; apply Z.leb_le; unfold max_uint64; lia).
  reflexivity.
Qed.

(** [doPredictRequest] when the query and the prediction succeed: the larger of
    the prediction and the last value. *)
Lemma doPredictRequest_max
  (w : PredictKube.Remote) (s s' : PredictKube.PredictKubeScaler)
  (results : list PredictKube.Item) (resp : PredictKube.ResGetPredictMetric) :
  PredictKube.doQuery w s = (Ok results, s') ->
  PredictKube.GetPredictMetric w (PredictKube.predictRequest s' results) = Ok resp ->
  PredictKube.doPredictRequest w s =
  ((Z.max (PredictKube.ResultMetric resp) (PredictKube.lastValue results), None), s').
Proof.
  intros Hquery Hpredict. unfold PredictKube.doPredictRequest.
  rewrite Hquery, Hpredict.
  destruct (PredictKube.ResultMetric resp <? PredictKube.lastValue results) eqn:Hlt;
    [apply Z.ltb_lt in Hlt | apply Z.ltb_ge in Hlt]; do 2 f_equal; lia.
Qed.

(** C1 (as amended). When the query and the prediction succeed, let [value] be
    the larger of the predicted value and the last observation converted to
    [int64] (its fraction discarded; 0 when the window has no observation).
    [value] is never below that converted observation nor below the
    prediction. [GetMetrics] returns one metric carrying [value], except that
    for [value = 0] it returns an error and no metric. *)
Theorem GetMetrics_max_of_prediction_and_last
  (w : PredictKube.Remote) (s s' : PredictKube.PredictKubeScaler) (name : string)
  (results : list PredictKube.Item) (resp : PredictKube.ResGetPredictMetric) :
  PredictKube.doQuery w s = (Ok results, s') ->
  PredictKube.GetPredictMetric w (PredictKube.predictRequest s' results) = Ok resp ->
  exists value : Z,
    value = Z.max (PredictKube.ResultMetric resp) (PredictKube.lastValue results) /\
    PredictKube.lastValue results =
      match last results with
      | Some item => int64_of_float64 (PredictKube.Value item)
      | None => 0
      end /\
    PredictKube.lastValue results <= value /\
    PredictKube.ResultMetric resp <= value /\
    PredictKube.GetMetrics w s name =
      if value =? 0
      then (([], Some "empty response after predict request"), s')
      else (([{| external_metrics.MetricName := name;
                 external_metrics.Value := value;
                 external_metrics.Timestamp := PredictKube.metricNow w |}], None), s').
Proof.
  intros Hquery Hpredict.
  exists (Z.max (PredictKube.ResultMetric resp) (PredictKube.lastValue results)).
  repeat split; try lia.
  unfold PredictKube.GetMetrics.
  rewrite (doPredictRequest_max w s s' results resp Hquery Hpredict).
  destruct (Z.max _ _ =? 0); reflexivity.
Qed.

(** C2 (as amended). When the query succeeds, [IsActive] with a healthy probe
    returns whether the last value is positive, and no error; with a probe that
    fails or gives no response it returns whether the query gave any
    observation at all, whatever its value, and an error that reports the
    probe. *)
Theorem predictkube_IsActive_probe
  (w : PredictKube.Remote) (s s' : PredictKube.PredictKubeScaler)
  (results : list PredictKube.Item) :
  PredictKube.doQuery w s = (Ok results, s') ->
  match PredictKube.Check w with
  | (Some _, None) =>
      PredictKube.IsActive w s = ((0 <? PredictKube.lastValue results, None), s')
  | (None, _) =>
      PredictKube.IsActive w s =
      ((negb (bool_decide (results = [])),
        Some "can't connect grpc server: empty server response, code: Unknown"), s')
  | (Some _, Some err) =>
      PredictKube.IsActive w s =
      ((negb (bool_decide (results = [])),
        Some ("can't connect grpc server: " +:+ err +:+ ", code: " +:+ statusCode err)), s')
  end.
Proof.
  intros Hquery. unfold PredictKube.IsActive. rewrite Hquery.
  destruct (PredictKube.Check w) as [[resp|] [err|]], results; reflexivity.
Qed.

(** The zero check of the predictive [GetMetrics]. *)
Lemma predictkube_GetMetrics_zero
  (w : PredictKube.Remote) (s s' : PredictKube.PredictKubeScaler) (name : string) :
  PredictKube.doPredictRequest w s = ((0, None), s') ->
  PredictKube.GetMetrics w s name =
  (([], Some "empty response after predict request"), s').
Proof. intros Hvalue. unfold PredictKube.GetMetrics. rewrite Hvalue. reflexivity. Qed.

(** C4 (as amended). When the predictive scaler computes exactly 0 without
    error, its [GetMetrics] returns an error and an empty list. The GCS scaler
    has no such check: a count of 0 without error is returned as one metric of
    value 0, without error. *)
Theorem GetMetrics_on_zero :
  (forall (w : PredictKube.Remote) (s s' : PredictKube.PredictKubeScaler) (name : string),
     PredictKube.doPredictRequest w s = ((0, None), s') ->
     PredictKube.GetMetrics w s name =
     (([], Some "empty response after predict request"), s')) /\
  (forall (now : Z) (s : Gcs.gcsScaler) (name : string),
     Gcs.getItemCount s (Gcs.maxBucketItemsToScan (Gcs.metadata s)) = (0, None) ->
     Gcs.GetMetrics now s name =
     ([{| external_metrics.MetricName := name;
          external_metrics.Value := 0;
          external_metrics.Timestamp := now |}], None)).
Proof.
  split.
  - exact predictkube_GetMetrics_zero.
  - intros now s name Hcount. unfold Gcs.GetMetrics. rewrite Hcount. reflexivity.
Qed.

End Predict.

(** ** The predictive scaler on examples *)

(** Observations 5 and 9 with a prediction of 7 give the metric 9: the third
    scenario of the specification. *)
Lemma GetMetrics_max_of_prediction_and_last_witness :
  exists value : Z,
    value = 9 /\
    fst (PredictKube.GetMetrics (H := Reference.externals) Examples.steady
           (Examples.pkScaler (120 * Examples.minute) (2 * Examples.minute)) "m") =
    ([{| external_metrics.MetricName := "m";
         external_metrics.Value := value;
         external_metrics.Timestamp := PredictKube.metricNow Examples.steady |}], None).
Proof.
  destruct (GetMetrics_max_of_prediction_and_last (H := Reference.externals)
              Examples.steady
              (Examples.pkScaler (120 * Examples.minute) (2 * Examples.minute))
              (Examples.pkScaler (120 * Examples.minute) (2 * Examples.minute))
              "m"
              [Examples.item 1 (float64_of 5 0); Examples.item 2 (float64_of 9 0)]
              {| PredictKube.ResultMetric := 7 |})
    as (value & Hvalue & _ & _ & _ & Hmetrics);
    [reflexivity | reflexivity |].
  exists value. split.
  - rewrite Hvalue. reflexivity.
  - rewrite Hmetrics, Hvalue. reflexivity.
Defined.

(** C1, as stated, fails on an observation with a fraction: with the
    observations 5 and 9.5 and a prediction of 7, [GetMetrics] returns the
    metric 9, which is below the last observation 9.5 (and so is not the larger
    of 7 and 9.5). And with one observation of 0 and a prediction of 0 no
    metric is returned at all. *)
Lemma GetMetrics_below_last_observation :
  PredictKube.doQuery (H := Reference.externals) Examples.fractional
    (Examples.pkScaler (120 * Examples.minute) (2 * Examples.minute)) =
  (Ok [Examples.item 1 (float64_of 5 0); Examples.item 2 (float64_of 19 (-1))],
   Examples.pkScaler (120 * Examples.minute) (2 * Examples.minute)) /\
  PredictKube.GetMetrics (H := Reference.externals) Examples.fractional
    (Examples.pkScaler (120 * Examples.minute) (2 * Examples.minute)) "m" =
  (([{| external_metrics.MetricName := "m";
        external_metrics.Value := 9;
        external_metrics.Timestamp := PredictKube.metricNow Examples.fractional |}], None),
   Examples.pkScaler (120 * Examples.minute) (2 * Examples.minute)) /\
  Z_lt_float64 9 (float64_of 19 (-1)) = true /\
  PredictKube.GetMetrics (H := Reference.externals)
    (Examples.idle (Some Examples.serving, None))
    (Examples.pkScaler (120 * Examples.minute) (2 * Examples.minute)) "m" =
  (([], Some "empty response after predict request"),
   Examples.pkScaler (120 * Examples.minute) (2 * Examples.minute)).
Proof. repeat split; reflexivity. Qed.

(** A probe without response on one observation. *)
Lemma predictkube_IsActive_probe_witness :
  PredictKube.IsActive (H := Reference.externals) (Examples.idle (None, None))
    (Examples.pkScaler (120 * Examples.minute) (2 * Examples.minute)) =
  ((negb (bool_decide ([Examples.item 1 (float64_of 0 0)] = [])),
    Some "can't connect grpc server: empty server response, code: Unknown"),
   Examples.pkScaler (120 * Examples.minute) (2 * Examples.minute)).
Proof.
  apply (predictkube_IsActive_probe (H := Reference.externals)
           (Examples.idle (None, None))
           (Examples.pkScaler (120 * Examples.minute) (2 * Examples.minute))).
  reflexivity.
Defined.

(** C2, as stated, fails on a last observation of 0: with a healthy probe
    [IsActive] is false; with a probe that gives no response, or one that
    fails, it is true on the same observations (and carries an error). The
    degraded answer is not derived as the healthy one is. *)
Lemma predictkube_IsActive_degraded_differs :
  PredictKube.IsActive (H := Reference.externals)
    (Examples.idle (Some Examples.serving, None))
    (Examples.pkScaler (120 * Examples.minute) (2 * Examples.minute)) =
  ((false, None), Examples.pkScaler (120 * Examples.minute) (2 * Examples.minute)) /\
  PredictKube.IsActive (H := Reference.externals) (Examples.idle (None, None))
    (Examples.pkScaler (120 * Examples.minute) (2 * Examples.minute)) =
  ((true, Some "can't connect grpc server: empty server response, code: Unknown"),
   Examples.pkScaler (120 * Examples.minute) (2 * Examples.minute)) /\
  PredictKube.IsActive (H := Reference.externals)
    (Examples.idle (Some Examples.serving, Some "connection refused"))
    (Examples.pkScaler (120 * Examples.minute) (2 * Examples.minute)) =
  ((true, Some "can't connect grpc server: connection refused, code: Unknown"),
   Examples.pkScaler (120 * Examples.minute) (2 * Examples.minute)).
Proof. repeat split; reflexivity. Qed.

(** An observation of 0 with a prediction of 0, and an empty bucket. *)
Lemma GetMetrics_on_zero_witness :
  PredictKube.GetMetrics (H := Reference.externals)
    (Examples.idle (Some Examples.serving, None))
    (Examples.pkScaler (120 * Examples.minute) (2 * Examples.minute)) "m" =
  (([], Some "empty response after predict request"),
   Examples.pkScaler (120 * Examples.minute) (2 * Examples.minute)) /\
  Gcs.GetMetrics 1700000001 (Examples.gcsOn [] 1000) "m" =
  ([{| external_metrics.MetricName := "m";
       external_metrics.Value := 0;
       external_metrics.Timestamp := 1700000001 |}], None).
Proof.
  destruct (GetMetrics_on_zero (H := Reference.externals)) as [Hpredict Hgcs].
  split.
  - apply Hpredict. reflexivity.
  - apply Hgcs. reflexivity.
Defined.

(** C4, as stated, fails for the GCS scaler: on an empty bucket the count is 0
    without error, and [GetMetrics] returns one metric of value 0 and no
    error. *)
Lemma gcs_GetMetrics_reports_zero :
  Gcs.getItemCount (Examples.gcsOn [] 1000) 1000 = (0, None) /\
  Gcs.GetMetrics 1700000001 (Examples.gcsOn [] 1000) "m" =
  ([{| external_metrics.MetricName := "m";
       external_metrics.Value := 0;
       external_metrics.Timestamp := 1700000001 |}], None).
Proof. split; reflexivity. Qed.

(** C3, on the code. With a horizon of 5 minutes and a step of 3 minutes the
    request carries a forecast horizon of 1 (the engine of [echoRemote]
    answers with the horizon it receives): the division of the two durations is
    an integer division, made before the conversion to [float64], and
    [math.Round] has nothing left to round. The rounded quotient is 2. With a
    step of 0 the division is by the default step of 5 minutes. *)
Theorem forecastHorizon_is_truncated :
  (forall (H : Externals) (w : PredictKube.Remote) (s : PredictKube.PredictKubeScaler),
     PredictKube.stepDuration (PredictKube.metadata (snd (PredictKube.doQuery w s))) =
     if PredictKube.stepDuration (PredictKube.metadata s) =? 0
     then PredictKube.defaultStep
     else PredictKube.stepDuration (PredictKube.metadata s)) /\
  PredictKube.ForecastHorizon
    (PredictKube.predictRequest
       (Examples.pkScaler (5 * Examples.minute) (3 * Examples.minute)) []) = 1 /\
  PredictKube.doPredictRequest (Examples.echoRemote (Examples.vector []))
    (Examples.pkScaler (5 * Examples.minute) (3 * Examples.minute)) =
  ((1, None), Examples.pkScaler (5 * Examples.minute) (3 * Examples.minute)) /\
  Spec.forecastHorizon (5 * Examples.minute) (3 * Examples.minute) = 2 /\
  PredictKube.doPredictRequest (Examples.echoRemote (Examples.vector []))
    (Examples.pkScaler (12 * Examples.minute) 0) =
  ((2, None), Examples.pkScaler (12 * Examples.minute) PredictKube.defaultStep).
Proof.
  split; [intros H w s; apply doQuery_step|].
  repeat split; reflexivity.
Qed.

(** ** The result normalizer *)

Section Normalizer.
Context `{Externals}.

(** One loop over samples whose timestamps convert: one item is appended per
    sample, in order. *)
Lemma forRange_appendItem {A : Type} (time : A -> Z) (value : A -> float64)
  (metricName : string) (samples : list A) :
  forall out : list PredictKube.Item,
    Forall (fun a => convertible (time a)) samples ->
    exists items : list PredictKube.Item,
      PredictKube.forRange
        (fun out a => PredictKube.appendItem metricName out (time a) (value a))
        samples out = Ok (out ++ items) /\
      Forall2 (fun a item => itemOf metricName (time a) (value a) item) samples items.
Proof.
  induction samples as [|a samples IH]; intros out Hconv.
  - exists []. cbn. rewrite app_nil_r. split; constructor.
  - inversion Hconv as [|? ? [t Ht] Hrest]; subst.
    cbn [PredictKube.forRange]. unfold PredictKube.appendItem at 1.
    rewrite Ht. cbn [bind].
    destruct (IH (out ++ [{| PredictKube.Timestamp := t;
                             PredictKube.Value := value a;
                             PredictKube.MetricName := metricName |}]) Hrest)
      as (items & Hrun & Hitems).
    eexists (_ :: items). rewrite Hrun, <- app_assoc. split; [reflexivity|].
    constructor; [|assumption]. repeat split. assumption.
Qed.

Lemma forRange_matrix (metricName : string) (m : model.Matrix) :
  forall out : list PredictKube.Item,
    Forall (fun v => convertible (model.SamplePair.Timestamp v)) (samplesOf m) ->
    exists items : list PredictKube.Item,
      PredictKube.forRange
        (fun out val =>
           PredictKube.forRange
             (fun out v =>
                PredictKube.appendItem metricName out
                  (model.SamplePair.Timestamp v) (model.SamplePair.Value v))
             (model.SampleStream.Values val) out)
        m out = Ok (out ++ items) /\
      Forall2
        (fun v item =>
           itemOf metricName (model.SamplePair.Timestamp v) (model.SamplePair.Value v) item)
        (samplesOf m) items.
Proof.
  induction m as [|val m IH]; intros out Hconv.
  - exists []. cbn. rewrite app_nil_r. split; constructor.
  - unfold samplesOf in Hconv. cbn [fmap list_fmap concat] in Hconv.
    apply Forall_app in Hconv as [Hhere Hrest].
    destruct (forRange_appendItem model.SamplePair.Timestamp model.SamplePair.Value
                metricName (model.SampleStream.Values val) out Hhere)
      as (here & Hrun & Hitems).
    destruct (IH (out ++ here) Hrest) as (rest & Hrun' & Hitems').
    exists (here ++ rest). cbn [PredictKube.forRange].
    rewrite Hrun. cbn [bind]. rewrite Hrun', <- app_assoc. split; [reflexivity|].
    unfold samplesOf. cbn [fmap list_fmap concat].
    apply Forall2_app; assumption.
Qed.

Lemma forRange_app {A S : Type} (body : S -> A -> result S) (l1 l2 : list A) :
  forall st : S,
    PredictKube.forRange body (l1 ++ l2) st =
    let* st' := PredictKube.forRange body l1 st in PredictKube.forRange body l2 st'.
Proof.
  induction l1 as [|a l1 IH]; intros st; cbn [app PredictKube.forRange bind].
  - reflexivity.
  - destruct (body st a) as [st'|e]; cbn [bind]; [apply IH | reflexivity].
Qed.

(** The two nested loops over a matrix are one loop over its samples. *)
Lemma forRange_flatten (metricName : string) (m : model.Matrix) :
  forall out : list PredictKube.Item,
    PredictKube.forRange
      (fun out val =>
         PredictKube.forRange
           (fun out v =>
              PredictKube.appendItem metricName out
                (model.SamplePair.Timestamp v) (model.SamplePair.Value v))
           (model.SampleStream.Values val) out)
      m out =
    PredictKube.forRange
      (fun out v =>
         PredictKube.appendItem metricName out
           (model.SamplePair.Timestamp v) (model.SamplePair.Value v))
      (samplesOf m) out.
Proof.
  induction m as [|val m IH]; intros out; [reflexivity|].
  unfold samplesOf. cbn [fmap list_fmap concat PredictKube.forRange].
  rewrite forRange_app. fold (samplesOf m).
  destruct (PredictKube.forRange _ (model.SampleStream.Values val) out) as [out'|e];
    cbn [bind]; [apply IH | reflexivity].
Qed.

(** A loop stops at the first sample whose timestamp does not convert, with
    the error of the conversion. *)
Lemma forRange_appendItem_fail {A : Type} (time : A -> Z) (value : A -> float64)
  (metricName : string) (pre : list Z) (t : Z) (rest : list Z) (e : error) :
  Forall convertible pre ->
  AdaptTimeToPbTimestamp t = Err e ->
  forall (samples : list A) (out : list PredictKube.Item),
    time <$> samples = pre ++ t :: rest ->
    PredictKube.forRange
      (fun out a => PredictKube.appendItem metricName out (time a) (value a))
      samples out = Err e.
Proof.
  intros Hpre Hbad. induction Hpre as [|p pre [tp Hp] _ IH]; intros samples out Htimes.
  - destruct samples as [|a samples]; [discriminate Htimes|].
    cbn in Htimes. injection Htimes as Ha _.
    cbn [PredictKube.forRange]. unfold PredictKube.appendItem. rewrite Ha, Hbad.
    reflexivity.
  - destruct samples as [|a samples]; [discriminate Htimes|].
    cbn in Htimes. injection Htimes as Ha Htimes.
    cbn [PredictKube.forRange]. unfold PredictKube.appendItem at 1. rewrite Ha, Hp.
    cbn [bind]. apply IH. exact Htimes.
Qed.

(** C7 (as amended). A matrix whose samples all have timestamps that convert
    is normalized to as many observations as it has samples in all its series,
    in the order series by series and sample by sample, each with the
    converted timestamp and the value of its sample; a matrix with a sample
    whose timestamp does not convert makes the whole call fail, with the error
    of the first such conversion and without any observation; a result whose
    type tag is none of vector, matrix, scalar and string gives the error
    "metric type is invalid"; a string sample that [ParseFloat] rejects makes
    the whole call fail. *)
Theorem parsePrometheusResult_shapes (s : PredictKube.PredictKubeScaler) :
  (forall m : model.Matrix,
     Forall (fun v => convertible (model.SamplePair.Timestamp v)) (samplesOf m) ->
     exists out : list PredictKube.Item,
       PredictKube.parsePrometheusResult s (model.OfMatrix m) = Ok out /\
       length out = length (samplesOf m) /\
       Forall2
         (fun v item =>
            itemOf (PredictKube.metricName s)
              (model.SamplePair.Timestamp v) (model.SamplePair.Value v) item)
         (samplesOf m) out) /\
  (forall (m : model.Matrix) (pre : list Z) (t : Z) (rest : list Z) (e : error),
     model.SamplePair.Timestamp <$> samplesOf m = pre ++ t :: rest ->
     Forall convertible pre ->
     AdaptTimeToPbTimestamp t = Err e ->
     PredictKube.parsePrometheusResult s (model.OfMatrix m) = Err e) /\
  (forall result : model.Value,
     model.Type_ result <> model.ValVector ->
     model.Type_ result <> model.ValMatrix ->
     model.Type_ result <> model.ValScalar ->
     model.Type_ result <> model.ValString ->
     PredictKube.parsePrometheusResult s result = Err PredictKube.invalidMetricTypeErr) /\
  (forall (str : model.String.t) (e : error),
     ParseFloat (model.String.Value str) 64 = Err e ->
     PredictKube.parsePrometheusResult s (model.OfString str) =
     match AdaptTimeToPbTimestamp (model.String.Timestamp str) with
     | Ok _ => Err e
     | Err e' => Err e'
     end).
Proof.
  split; [|split; [|split]].
  - intros m Hconv.
    destruct (forRange_matrix (PredictKube.metricName s) m [] Hconv)
      as (items & Hrun & Hitems).
    exists items. split; [exact Hrun|]. split; [|assumption].
    symmetry. eapply Forall2_length. eassumption.
  - intros m pre t rest e Htimes Hpre Hbad.
    unfold PredictKube.parsePrometheusResult. cbn [model.Type_].
    change (model.ValMatrix =? model.ValVector) with false.
    change (model.ValMatrix =? model.ValMatrix) with true. cbv iota.
    rewrite forRange_flatten. eapply forRange_appendItem_fail; eassumption.
  - intros result Hvector Hmatrix Hscalar Hstring.
    unfold PredictKube.parsePrometheusResult.
    apply Z.eqb_neq in Hvector, Hmatrix, Hscalar, Hstring.
    rewrite Hvector, Hmatrix, Hscalar, Hstring. reflexivity.
  - intros str e Hparse. cbn.
    destruct (AdaptTimeToPbTimestamp (model.String.Timestamp str)); cbn; [|reflexivity].
    rewrite Hparse. reflexivity.
Qed.

End Normalizer.

(** Three series of two, no and one sample; two series whose second sample
    carries the zero time; a value of no known type; a string that is no
    number. *)
Lemma parsePrometheusResult_shapes_witness :
  (exists out : list PredictKube.Item,
     PredictKube.parsePrometheusResult (H := Reference.externals)
       (Examples.pkScaler (120 * Examples.minute) (2 * Examples.minute))
       (model.OfMatrix Examples.threeSeries) = Ok out /\
     length out = 3%nat /\
     out = [Examples.item 1 (float64_of 5 0); Examples.item 2 (float64_of 19 (-1));
            Examples.item 1 (float64_of 1 0)]) /\
  PredictKube.parsePrometheusResult (H := Reference.externals)
    (Examples.pkScaler (120 * Examples.minute) (2 * Examples.minute))
    (model.OfMatrix Worlds.yearOneSeries) = Err "time parameter is empty or zero" /\
  PredictKube.parsePrometheusResult (H := Reference.externals)
    (Examples.pkScaler (120 * Examples.minute) (2 * Examples.minute))
    (model.Foreign model.ValNone) = Err "metric type is invalid" /\
  PredictKube.parsePrometheusResult (H := Reference.externals)
    (Examples.pkScaler (120 * Examples.minute) (2 * Examples.minute))
    (model.OfString {| model.String.Value := "n/a"; model.String.Timestamp := 1000 |}) =
  Err ("strconv.ParseFloat: parsing " +:+ Reference.quote "n/a" +:+ ": invalid syntax").
Proof.
  destruct (parsePrometheusResult_shapes (H := Reference.externals)
              (Examples.pkScaler (120 * Examples.minute) (2 * Examples.minute)))
    as (Hmatrix & Hstops & Hforeign & Hstring).
  split; [|split; [|split]].
  - destruct (Hmatrix Examples.threeSeries) as (out & Hout & Hlength & _).
    + repeat constructor; eexists; reflexivity.
    + exists out. split; [exact Hout|]. split; [exact Hlength|].
      assert (Hrun : PredictKube.parsePrometheusResult (H := Reference.externals)
                (Examples.pkScaler (120 * Examples.minute) (2 * Examples.minute))
                (model.OfMatrix Examples.threeSeries) =
              Ok [Examples.item 1 (float64_of 5 0); Examples.item 2 (float64_of 19 (-1));
                  Examples.item 1 (float64_of 1 0)]) by reflexivity.
      rewrite Hrun in Hout. injection Hout as <-. reflexivity.
  - apply (Hstops Worlds.yearOneSeries [1000] Reference.zeroTime [3000]).
    + reflexivity.
    + repeat constructor. eexists. reflexivity.
    + reflexivity.
  - apply Hforeign; discriminate.
  - apply (Hstring {| model.String.Value := "n/a"; model.String.Timestamp := 1000 |}).
    reflexivity.
Defined.

(** C7, as stated, fails on a matrix with a sample whose timestamp does not
    convert: of the three samples of these two series the second carries the
    zero time, which the conversion refuses, and the normalizer returns that
    error and no observation at all. *)
Lemma matrix_with_zero_time_fails :
  length (samplesOf Worlds.yearOneSeries) = 3%nat /\
  AdaptTimeToPbTimestamp (Externals := Reference.externals) Reference.zeroTime =
  Err "time parameter is empty or zero" /\
  PredictKube.parsePrometheusResult (H := Reference.externals)
    (Examples.pkScaler (120 * Examples.minute) (2 * Examples.minute))
    (model.OfMatrix Worlds.yearOneSeries) = Err "time parameter is empty or zero".
Proof. repeat split; reflexivity. Qed.

(** ** Metadata validation *)

Section Validation.
Context `{Externals}.

Ltac step_parse :=
  cbn [bind wrapErr];
  match goal with
  | H : _ !! _ = _ |- _ => rewrite H; clear H
  | H : validateVar _ _ = _ |- _ => rewrite H; clear H
  | H : exists _, _ |- _ => let x := fresh "x" in destruct H as [x H]; rewrite H; clear H
  | H : ?val <> "" |- _ => destruct val; [contradiction|]; clear H; cbn [String.length Nat.eqb]
  end.

(** The first required field that is absent decides the error, when every
    field checked before it is present and accepted. *)
Lemma parsePredictKubeMetadata_first_absent (config : ScalerConfig) (f : Required.Field) :
  Required.lookup config f = None ->
  Forall (fun g => exists val,
            Required.lookup config g = Some val /\ Required.accepted g val)
    (Required.checkedBefore f) ->
  PredictKube.parsePredictKubeMetadata config = Err (Required.absentError f).
Proof.
  intros Habsent Hbefore. unfold PredictKube.parsePredictKubeMetadata.
  destruct f; cbn [Required.checkedBefore] in Hbefore; cbn [Required.lookup] in Habsent;
    repeat (apply Forall_cons in Hbefore as [(? & ? & ?) Hbefore]);
    clear Hbefore; cbn [Required.lookup Required.accepted] in *;
    repeat step_parse; reflexivity.
Qed.

(** Split on whatever the parser inspects next, until it has failed. *)
Ltac run_parse :=
  repeat first
    [ progress cbn [bind wrapErr]
    | match goal with
      | |- exists e, Err _ = Err e => eexists; reflexivity
      | |- context [match ?x with _ => _ end] => destruct x
      | |- context [wrapErr _ ?r] => destruct r
      end ].

(** An absent required field makes the validation fail, whatever else the
    trigger holds. *)
Lemma parsePredictKubeMetadata_absent_fails (config : ScalerConfig) (f : Required.Field) :
  Required.lookup config f = None ->
  exists e, PredictKube.parsePredictKubeMetadata config = Err e.
Proof.
  intros Habsent. unfold PredictKube.parsePredictKubeMetadata.
  destruct f; cbn [Required.lookup] in Habsent; rewrite Habsent; run_parse.
Qed.

Lemma absentError_injective (f g : Required.Field) :
  Required.absentError f = Required.absentError g -> f = g.
Proof. destruct f, g; cbn; intros Heq; (reflexivity || discriminate Heq). Qed.

(** A failed validation ends the constructor before any call to a backend. *)
Lemma NewPredictKubeScaler_invalid
  (b : PredictKube.Backend) (config : ScalerConfig) (e : error) :
  PredictKube.parsePredictKubeMetadata config = Err e ->
  exists e', PredictKube.NewPredictKubeScaler b config = (Err e', []).
Proof.
  intros Hparse. unfold PredictKube.NewPredictKubeScaler. rewrite Hparse.
  destruct (GetMetricTargetType config); eexists; reflexivity.
Qed.

Lemma NewGcsScaler_invalid (cloud : Gcs.Cloud) (config : ScalerConfig) (e : error) :
  Gcs.parseGcsMetadata config = Err e ->
  exists e', Gcs.NewGcsScaler cloud config = (Err e', []).
Proof.
  intros Hparse. unfold Gcs.NewGcsScaler. rewrite Hparse.
  destruct (GetMetricTargetType config); eexists; reflexivity.
Qed.

Lemma parseGcsMetadata_no_bucket (config : ScalerConfig) :
  TriggerMetadata config !! "bucketName" = None ->
  Gcs.parseGcsMetadata config = Err "no bucket name given".
Proof. intros Habsent. unfold Gcs.parseGcsMetadata. rewrite Habsent. reflexivity. Qed.

(** The first required field that is present but fails its check decides the
    error, when every field checked before it is present and accepted. *)
Lemma parsePredictKubeMetadata_stops_at_rejected
  (config : ScalerConfig) (f : Required.Field) (val : string) (e : error) :
  Required.lookup config f = Some val ->
  Rejected.by_check f val e ->
  Forall (fun g => exists v,
            Required.lookup config g = Some v /\ Required.accepted g v)
    (Required.checkedBefore f) ->
  PredictKube.parsePredictKubeMetadata config = Err e.
Proof.
  intros Hpresent Hrejected Hbefore. unfold PredictKube.parsePredictKubeMetadata.
  destruct f; cbn [Required.checkedBefore] in Hbefore; cbn [Required.lookup] in Hpresent;
    cbn [Rejected.by_check] in Hrejected;
    repeat (apply Forall_cons in Hbefore as [(? & ? & ?) Hbefore]);
    clear Hbefore; cbn [Required.lookup Required.accepted] in *;
    [ destruct Hrejected as [-> ->]
    | destruct Hrejected as [[why Hwhy] ->]
    | destruct Hrejected as (why & Hwhy & ->)
    | destruct Hrejected as (why & Hwhy & ->)
    | destruct Hrejected as (why & Hwhy & ->)
    | destruct Hrejected as (why & Hwhy & ->)
    | destruct Hrejected as [[why Hwhy] ->] ];
    rewrite Hpresent; try revert Hwhy; repeat step_parse; cbn [bind wrapErr];
    try (intros Hwhy; rewrite Hwhy); reflexivity.
Qed.

(** A required field is absent, or present and accepted, or present and
    rejected by its check with some error. *)
Lemma field_status (config : ScalerConfig) (g : Required.Field) :
  Required.lookup config g = None \/
  (exists val, Required.lookup config g = Some val /\ Required.accepted g val) \/
  (exists val e, Required.lookup config g = Some val /\ Rejected.by_check g val e).
Proof.
  destruct (Required.lookup config g) as [val|]; [right | left; reflexivity].
  destruct g; cbn [Required.accepted Rejected.by_check].
  - destruct val as [|a val].
    + right. exists "", "no query given". repeat split.
    + left. eexists. split; [reflexivity | discriminate].
  - destruct (validateVar val "url") as [x|] eqn:Hcheck.
    + right. exists val, "invalid prometheusAddress". repeat split. exists x. exact Hcheck.
    + left. exists val. split; [reflexivity | exact Hcheck].
  - destruct (ParseDuration val) as [d|x] eqn:Hcheck.
    + left. exists val. split; [reflexivity | exists d; exact Hcheck].
    + right. do 2 eexists. split; [reflexivity|]. exists x. split; [exact Hcheck | reflexivity].
  - destruct (ParseDuration val) as [d|x] eqn:Hcheck.
    + left. exists val. split; [reflexivity | exists d; exact Hcheck].
    + right. do 2 eexists. split; [reflexivity|]. exists x. split; [exact Hcheck | reflexivity].
  - destruct (ParseDuration val) as [d|x] eqn:Hcheck.
    + left. exists val. split; [reflexivity | exists d; exact Hcheck].
    + right. do 2 eexists. split; [reflexivity|]. exists x. split; [exact Hcheck | reflexivity].
  - destruct (ParseInt val 10 64) as [n|x] eqn:Hcheck.
    + left. exists val. split; [reflexivity | exists n; exact Hcheck].
    + right. do 2 eexists. split; [reflexivity|]. exists x. split; [exact Hcheck | reflexivity].
  - destruct (validateVar val "jwt") as [x|] eqn:Hcheck.
    + right. exists val, "invalid apiKey". repeat split. exists x. exact Hcheck.
    + left. exists val. split; [reflexivity | exact Hcheck].
Qed.

(** Among fields, either all are present and accepted or there is a first one
    that is not. *)
Lemma first_failing_field (config : ScalerConfig) (fields : list Required.Field) :
  Forall (fun g => exists val,
            Required.lookup config g = Some val /\ Required.accepted g val) fields \/
  exists (before : list Required.Field) (g : Required.Field) (after : list Required.Field),
    fields = before ++ g :: after /\
    Forall (fun g => exists val,
              Required.lookup config g = Some val /\ Required.accepted g val) before /\
    (Required.lookup config g = None \/
     exists val e, Required.lookup config g = Some val /\ Rejected.by_check g val e).
Proof.
  induction fields as [|g fields IH]; [left; constructor|].
  destruct (field_status config g) as [Habsent | [Haccepted | Hrejected]].
  - right. exists [], g, fields. repeat split; [constructor | left; exact Habsent].
  - destruct IH as [Hall | (before & g' & after & -> & Hbefore & Hfails)].
    + left. constructor; assumption.
    + right. exists (g :: before), g', after. repeat split; [constructor|]; assumption.
  - right. exists [], g, fields. repeat split; [constructor | right; exact Hrejected].
Qed.

(** The fields checked before a field are checked in the same order before
    every later field. *)
Lemma checkedBefore_prefix
  (f g : Required.Field) (before after : list Required.Field) :
  Required.checkedBefore f = before ++ g :: after ->
  Required.checkedBefore g = before.
Proof.
  destruct f; cbn [Required.checkedBefore]; intros Hsplit;
    repeat (destruct before as [|? before]; cbn [app] in Hsplit;
            [ injection Hsplit as <-; reflexivity
            | try discriminate Hsplit;
              let Hhead := fresh "Hhead" in injection Hsplit as Hhead Hsplit; subst ]);
    destruct before; discriminate Hsplit.
Qed.

(** With a required field absent, the validation returns the error of the
    first field, in the order of the checks, that is absent or rejected. *)
Lemma parsePredictKubeMetadata_deciding_field (config : ScalerConfig) (f : Required.Field) :
  Required.lookup config f = None ->
  exists g : Required.Field,
    (g = f \/ In g (Required.checkedBefore f)) /\
    Forall (fun g' => exists val,
              Required.lookup config g' = Some val /\ Required.accepted g' val)
      (Required.checkedBefore g) /\
    ((Required.lookup config g = None /\
      PredictKube.parsePredictKubeMetadata config = Err (Required.absentError g)) \/
     (exists val e,
        Required.lookup config g = Some val /\ Rejected.by_check g val e /\
        PredictKube.parsePredictKubeMetadata config = Err e)).
Proof.
  intros Habsent.
  destruct (first_failing_field config (Required.checkedBefore f))
    as [Hall | (before & g & after & Hsplit & Hbefore & Hfails)].
  - exists f. split; [left; reflexivity|]. split; [exact Hall|]. left.
    split; [exact Habsent|]. apply parsePredictKubeMetadata_first_absent; assumption.
  - pose proof (checkedBefore_prefix _ _ _ _ Hsplit) as Hprefix.
    exists g. split; [right; rewrite Hsplit; apply in_elt|].
    rewrite Hprefix. split; [exact Hbefore|].
    destruct Hfails as [Hnone | (val & e & Hsome & Hrejected)].
    + left. split; [exact Hnone|].
      apply parsePredictKubeMetadata_first_absent; [exact Hnone|].
      rewrite Hprefix. exact Hbefore.
    + right. exists val, e. split; [exact Hsome|]. split; [exact Hrejected|].
      apply (parsePredictKubeMetadata_stops_at_rejected config g val e Hsome Hrejected).
      rewrite Hprefix. exact Hbefore.
Qed.

(** C8 (as amended). A trigger that lacks a required field is rejected by the
    validation, and the constructor then returns an error without having called
    any backend. The checks run in a fixed order and stop at the first
    failure: the error is the one naming the absent field when every field
    checked before it is present and accepted; otherwise it is the error of
    the first field, among those checked before it, that is absent or
    rejected by its check (the error naming that field as absent, or the
    error of its check). The errors naming absent fields are pairwise
    distinct. For the GCS scaler the required field is the bucket name. *)
Theorem missing_required_field :
  (forall (config : ScalerConfig) (f : Required.Field),
     Required.lookup config f = None ->
     (exists e, PredictKube.parsePredictKubeMetadata config = Err e) /\
     (forall b : PredictKube.Backend,
        exists e', PredictKube.NewPredictKubeScaler b config = (Err e', []))) /\
  (forall (config : ScalerConfig) (f : Required.Field),
     Required.lookup config f = None ->
     Forall (fun g => exists val,
               Required.lookup config g = Some val /\ Required.accepted g val)
       (Required.checkedBefore f) ->
     PredictKube.parsePredictKubeMetadata config = Err (Required.absentError f)) /\
  (forall (config : ScalerConfig) (f : Required.Field),
     Required.lookup config f = None ->
     exists g : Required.Field,
       (g = f \/ In g (Required.checkedBefore f)) /\
       Forall (fun g' => exists val,
                 Required.lookup config g' = Some val /\ Required.accepted g' val)
         (Required.checkedBefore g) /\
       ((Required.lookup config g = None /\
         PredictKube.parsePredictKubeMetadata config = Err (Required.absentError g)) \/
        (exists val e,
           Required.lookup config g = Some val /\ Rejected.by_check g val e /\
           PredictKube.parsePredictKubeMetadata config = Err e))) /\
  (forall (config : ScalerConfig) (g : Required.Field) (val : string) (e : error),
     Required.lookup config g = Some val ->
     Rejected.by_check g val e ->
     Forall (fun g' => exists v,
               Required.lookup config g' = Some v /\ Required.accepted g' v)
       (Required.checkedBefore g) ->
     PredictKube.parsePredictKubeMetadata config = Err e) /\
  (forall f g : Required.Field,
     Required.absentError f = Required.absentError g -> f = g) /\
  (forall config : ScalerConfig,
     TriggerMetadata config !! "bucketName" = None ->
     Gcs.parseGcsMetadata config = Err "no bucket name given" /\
     (forall cloud : Gcs.Cloud,
        exists e', Gcs.NewGcsScaler cloud config = (Err e', []))).
Proof.
  split; [|split; [|split; [|split; [|split]]]].
  - intros config f Habsent.
    destruct (parsePredictKubeMetadata_absent_fails config f Habsent) as [e He].
    split; [exists e; exact He|].
    intros b. exact (NewPredictKubeScaler_invalid b config e He).
  - exact parsePredictKubeMetadata_first_absent.
  - exact parsePredictKubeMetadata_deciding_field.
  - exact parsePredictKubeMetadata_stops_at_rejected.
  - exact absentError_injective.
  - intros config Habsent.
    pose proof (parseGcsMetadata_no_bucket config Habsent) as Hparse.
    split; [exact Hparse|].
    intros cloud. exact (NewGcsScaler_invalid cloud config _ Hparse).
Qed.

End Validation.

(** A complete trigger without its threshold; the same with an empty query;
    a trigger without bucket name. *)
Lemma missing_required_field_witness :
  PredictKube.parsePredictKubeMetadata (H := Reference.externals)
    (Examples.pkConfig (delete "threshold" Examples.pkTrigger)) =
  Err "no threshold given" /\
  (exists e',
     PredictKube.NewPredictKubeScaler (H := Reference.externals) Examples.backend
       (Examples.pkConfig (delete "threshold" Examples.pkTrigger)) = (Err e', [])) /\
  PredictKube.parsePredictKubeMetadata (H := Reference.externals)
    (Examples.pkConfig (<["query" := ""]> (delete "threshold" Examples.pkTrigger))) =
  Err "no query given" /\
  Gcs.parseGcsMetadata (H := Reference.externals) (Examples.pkConfig Examples.pkTrigger) =
  Err "no bucket name given".
Proof.
  destruct (missing_required_field (H := Reference.externals))
    as (Hfails & Hfirst & _ & Hrejected & _ & Hgcs).
  split; [|split; [|split]].
  - apply (Hfirst (Examples.pkConfig (delete "threshold" Examples.pkTrigger))
             Required.Threshold); [reflexivity|].
    repeat constructor; eexists; (split; [reflexivity|]); cbn;
      first [discriminate | reflexivity | eexists; reflexivity].
  - apply (Hfails (Examples.pkConfig (delete "threshold" Examples.pkTrigger))
             Required.Threshold). reflexivity.
  - apply (Hrejected
             (Examples.pkConfig (<["query" := ""]> (delete "threshold" Examples.pkTrigger)))
             Required.Query "").
    + reflexivity.
    + split; reflexivity.
    + constructor.
  - apply (Hgcs (Examples.pkConfig Examples.pkTrigger)). reflexivity.
Defined.

(** C8, as stated, fails when a field checked earlier is rejected: a trigger
    without [threshold] whose [query] is empty is refused with "no query
    given", and one whose [prometheusAddress] is no URL with "invalid
    prometheusAddress"; neither error names the absent field. *)
Lemma absent_field_not_named :
  Required.lookup (Examples.pkConfig (<["query" := ""]> (delete "threshold" Examples.pkTrigger)))
    Required.Threshold = None /\
  PredictKube.parsePredictKubeMetadata (H := Reference.externals)
    (Examples.pkConfig (<["query" := ""]> (delete "threshold" Examples.pkTrigger))) =
  Err "no query given" /\
  Required.lookup
    (Examples.pkConfig
       (<["prometheusAddress" := "prometheus"]> (delete "threshold" Examples.pkTrigger)))
    Required.Threshold = None /\
  PredictKube.parsePredictKubeMetadata (H := Reference.externals)
    (Examples.pkConfig
       (<["prometheusAddress" := "prometheus"]> (delete "threshold" Examples.pkTrigger))) =
  Err "invalid prometheusAddress" /\
  Required.absentError Required.Threshold = "no threshold given".
Proof. repeat split; reflexivity. Qed.

(** * Further properties of the GCS scaler *)

(** ** Substrings *)

Lemma HasPrefix_spec (prefix : string) :
  forall s : string, HasPrefix s prefix = true <-> exists post, s = prefix +:+ post.
Proof.
  induction prefix as [|a prefix IH]; intros s.
  - split; [intros _; exists s; reflexivity | intros _; destruct s; reflexivity].
  - destruct s as [|b s]; cbn [HasPrefix].
    + split; [discriminate | intros [post Hpost]; discriminate Hpost].
    + rewrite andb_true_iff, Ascii.eqb_eq, IH. split.
      * intros [-> [post ->]]. exists post. reflexivity.
      * intros [post Hpost]. cbn in Hpost. injection Hpost as -> ->.
        split; [reflexivity | exists post; reflexivity].
Qed.

(** [strings.Contains]: the substring stands somewhere in the string. *)
Lemma Contains_spec (substr : string) :
  forall s : string,
    Contains s substr = true <-> exists pre post, s = pre +:+ substr +:+ post.
Proof.
  induction s as [|a s IH].
  - cbn [Contains]. rewrite orb_false_r, HasPrefix_spec. split.
    + intros [post Hpost]. exists "", post. exact Hpost.
    + intros (pre & post & Hs). destruct pre; [|discriminate Hs].
      exists post. exact Hs.
  - cbn [Contains]. rewrite orb_true_iff, HasPrefix_spec, IH. split.
    + intros [[post Hpost] | (pre & post & ->)].
      * exists "", post. exact Hpost.
      * exists (String a pre), post. reflexivity.
    + intros (pre & post & Hs). destruct pre as [|b pre].
      * left. exists post. exact Hs.
      * right. cbn in Hs. injection Hs as -> ->. exists pre, post. reflexivity.
Qed.

(** ** The counter on any listing *)

Lemma objectCount_nonneg (it : Gcs.ObjectIterator) : 0 <= objectCount it.
Proof. unfold objectCount. lia. Qed.

Lemma objectCount_object (name : string) (it : Gcs.ObjectIterator) :
  objectCount (Gcs.Object name :: it) = 1 + objectCount it.
Proof. unfold objectCount. cbn [List.filter length]. lia. Qed.

Lemma objectCount_failure (err : error) (it : Gcs.ObjectIterator) :
  objectCount (Gcs.Failure err :: it) = objectCount it.
Proof. reflexivity. Qed.

(** What the loop returns from a running count [count]: 0 after an absent
    bucket, and otherwise a count that has grown by no more than the objects
    of the listing and has not passed the bound; an error returned is an error
    of the listing that does not say the bucket is absent. *)
Lemma countItems_range (it : Gcs.ObjectIterator) :
  forall maxCount count : Z,
    0 <= count -> maxCount <= max_int64 ->
    exists (c : Z) (err : option error),
      Gcs.countItems it maxCount count = (c, err) /\
      (c = 0 \/ (count <= c <= count + objectCount it /\ c <= Z.max maxCount count)) /\
      (forall e, err = Some e ->
         In (Gcs.Failure e) it /\ Contains e "bucket doesn't exist" = false).
Proof.
  induction it as [|[name|e0] it IH]; intros maxCount count Hcount Hmax.
  - exists count, None. rewrite countItems_done.
    split; [reflexivity|]. split; [|discriminate].
    right. pose proof (objectCount_nonneg []). lia.
  - destruct (Z_lt_le_dec count maxCount) as [Hlt|Hge].
    + cbn [Gcs.countItems].
      replace (count <? maxCount) with true by (symmetry; apply Z.ltb_lt; lia).
      rewrite wrap64_id by (unfold in_int64, min_int64, max_int64 in *; lia).
      destruct (IH maxCount (count + 1)) as (c & err & Hrun & Hc & Herr); [lia|lia|].
      exists c, err. split; [exact Hrun|]. split.
      * rewrite objectCount_object. destruct Hc as [-> | Hc]; [left; reflexivity|].
        right. lia.
      * intros e He. destruct (Herr e He) as [Hin Hno]. split; [right; exact Hin|exact Hno].
    + exists count, None. rewrite countItems_stop by lia.
      split; [reflexivity|]. split; [|discriminate].
      right. pose proof (objectCount_nonneg (Gcs.Object name :: it)). lia.
  - destruct (Z_lt_le_dec count maxCount) as [Hlt|Hge].
    + rewrite countItems_failure by lia.
      destruct (Contains e0 "bucket doesn't exist") eqn:Hno.
      * exists 0, None. split; [reflexivity|]. split; [left; reflexivity|discriminate].
      * exists count, (Some e0). split; [reflexivity|]. split.
        -- right. pose proof (objectCount_nonneg (Gcs.Failure e0 :: it)). lia.
        -- intros e He. injection He as <-. split; [left; reflexivity|exact Hno].
    + exists count, None. rewrite countItems_stop by lia.
      split; [reflexivity|]. split; [|discriminate].
      right. pose proof (objectCount_nonneg (Gcs.Failure e0 :: it)). lia.
Qed.

(** X1. On every listing, errors included, [getItemCount] returns a count from
    0 to the bound (0 for a negative bound) that does not exceed the number of
    objects of the listing; an error it returns is one the listing gave and
    does not contain "bucket doesn't exist". *)
Theorem getItemCount_within_bounds (s : Gcs.gcsScaler) (maxCount : Z) :
  maxCount <= max_int64 ->
  exists (count : Z) (err : option error),
    Gcs.getItemCount s maxCount = (count, err) /\
    0 <= count <= Z.max maxCount 0 /\
    count <= objectCount (Gcs.listing (Gcs.bucket s)) /\
    (forall e, err = Some e ->
       In (Gcs.Failure e) (Gcs.listing (Gcs.bucket s)) /\
       Contains e "bucket doesn't exist" = false).
Proof.
  intros Hmax. rewrite getItemCount_loop.
  destruct (countItems_range (Gcs.listing (Gcs.bucket s)) maxCount 0)
    as (c & err & Hrun & Hc & Herr); [lia|exact Hmax|].
  exists c, err. split; [exact Hrun|].
  pose proof (objectCount_nonneg (Gcs.listing (Gcs.bucket s))).
  split; [lia|]. split; [lia|exact Herr].
Qed.

(** Four objects and a timeout after the second, bound 3. *)
Lemma getItemCount_within_bounds_witness :
  exists (count : Z) (err : option error),
    Gcs.getItemCount
      (Examples.gcsOn
         [Gcs.Object "a"; Gcs.Object "b"; Gcs.Failure "context deadline exceeded";
          Gcs.Object "c"; Gcs.Object "d"] 3) 3 = (count, err) /\
    0 <= count <= Z.max 3 0 /\
    count <= objectCount
               [Gcs.Object "a"; Gcs.Object "b"; Gcs.Failure "context deadline exceeded";
                Gcs.Object "c"; Gcs.Object "d"] /\
    (forall e, err = Some e ->
       In (Gcs.Failure e)
          [Gcs.Object "a"; Gcs.Object "b"; Gcs.Failure "context deadline exceeded";
           Gcs.Object "c"; Gcs.Object "d"] /\
       Contains e "bucket doesn't exist" = false).
Proof.
  apply (getItemCount_within_bounds
           (Examples.gcsOn
              [Gcs.Object "a"; Gcs.Object "b"; Gcs.Failure "context deadline exceeded";
               Gcs.Object "c"; Gcs.Object "d"] 3) 3).
  unfold max_int64. lia.
Defined.

(** The loop never asks for more entries than the bound leaves room for. *)
Lemma countItems_take (it : Gcs.ObjectIterator) :
  forall maxCount count : Z,
    0 <= count -> maxCount <= max_int64 ->
    Gcs.countItems it maxCount count =
    Gcs.countItems (take (Z.to_nat (maxCount - count)) it) maxCount count.
Proof.
  induction it as [|r it IH]; intros maxCount count Hcount Hmax.
  - rewrite take_nil. reflexivity.
  - destruct (Z_lt_le_dec count maxCount) as [Hlt|Hge].
    + replace (Z.to_nat (maxCount - count)) with (S (Z.to_nat (maxCount - (count + 1))))
        by lia.
      cbn [take]. destruct r as [name|e]; cbn [Gcs.countItems].
      * replace (count <? maxCount) with true by (symmetry; apply Z.ltb_lt; lia).
        rewrite wrap64_id by (unfold in_int64, min_int64, max_int64 in *; lia).
        apply IH; lia.
      * reflexivity.
    + rewrite !countItems_stop by lia. reflexivity.
Qed.

(** X2. [getItemCount] reads at most [maxCount] entries of the listing: two
    buckets whose listings agree on their first [maxCount] entries give the
    same count and the same error. *)
Theorem getItemCount_reads_prefix (s1 s2 : Gcs.gcsScaler) (maxCount : Z) :
  maxCount <= max_int64 ->
  take (Z.to_nat maxCount) (Gcs.listing (Gcs.bucket s1)) =
  take (Z.to_nat maxCount) (Gcs.listing (Gcs.bucket s2)) ->
  Gcs.getItemCount s1 maxCount = Gcs.getItemCount s2 maxCount.
Proof.
  intros Hmax Htake. rewrite !getItemCount_loop.
  rewrite (countItems_take (Gcs.listing (Gcs.bucket s1))) by (lia || assumption).
  rewrite (countItems_take (Gcs.listing (Gcs.bucket s2))) by (lia || assumption).
  rewrite Z.sub_0_r, Htake. reflexivity.
Qed.

(** Bound 2: what follows the second object, here an error, is not seen. *)
Lemma getItemCount_reads_prefix_witness :
  Gcs.getItemCount
    (Examples.gcsOn [Gcs.Object "a"; Gcs.Object "b"; Gcs.Failure "connection reset"] 2) 2 =
  Gcs.getItemCount
    (Examples.gcsOn [Gcs.Object "a"; Gcs.Object "b"; Gcs.Object "c"] 2) 2.
Proof.
  apply getItemCount_reads_prefix; [unfold max_int64; lia | reflexivity].
Defined.

(** X3. An error met during the enumeration is taken for an absent bucket,
    and answered with a zero count and no error, exactly when its text has
    "bucket doesn't exist" somewhere inside. *)
Theorem getItemCount_absent_bucket_iff
  (s : Gcs.gcsScaler) (names : list string) (err : error) (rest : Gcs.ObjectIterator)
  (maxCount : Z) :
  maxCount <= max_int64 ->
  Z.of_nat (length names) < maxCount ->
  Gcs.listing (Gcs.bucket s) = (Gcs.Object <$> names) ++ Gcs.Failure err :: rest ->
  Gcs.getItemCount s maxCount = (0, None) <->
  exists pre post : string, err = pre +:+ "bucket doesn't exist" +:+ post.
Proof.
  intros Hmax Hlt Hlist. rewrite <- Contains_spec.
  rewrite getItemCount_loop, Hlist, countItems_objects by (assumption || lia).
  rewrite Z.add_0_l.
  replace (Z.of_nat (length names) <? maxCount) with true
    by (symmetry; apply Z.ltb_lt; lia).
  rewrite countItems_failure by lia.
  destruct (Contains err "bucket doesn't exist"); split; intros Heq;
    try reflexivity; discriminate Heq.
Qed.

Lemma getItemCount_absent_bucket_iff_witness :
  Gcs.getItemCount
    (Examples.gcsOn
       [Gcs.Object "a"; Gcs.Failure "googleapi: Error 404: bucket doesn't exist, notFound"]
       1000) 1000 = (0, None) <->
  exists pre post : string,
    "googleapi: Error 404: bucket doesn't exist, notFound" =
    pre +:+ "bucket doesn't exist" +:+ post.
Proof.
  apply (getItemCount_absent_bucket_iff
           (Examples.gcsOn
              [Gcs.Object "a";
               Gcs.Failure "googleapi: Error 404: bucket doesn't exist, notFound"] 1000)
           ["a"] "googleapi: Error 404: bucket doesn't exist, notFound" [] 1000);
    [unfold max_int64; lia | cbn; lia | reflexivity].
Defined.

(** X4. [GetMetrics] of the GCS scaler returns either an error with an empty
    list, or no error with exactly one metric: it has the name asked for, the
    time of the call, and a value from 0 to the configured bound (0 when the
    bound is negative). *)
Theorem gcs_GetMetrics_shape (now : Z) (s : Gcs.gcsScaler) (name : string) :
  Gcs.maxBucketItemsToScan (Gcs.metadata s) <= max_int64 ->
  (exists e, Gcs.GetMetrics now s name = ([], Some e)) \/
  (exists value : Z,
     Gcs.GetMetrics now s name =
     ([{| external_metrics.MetricName := name;
          external_metrics.Value := value;
          external_metrics.Timestamp := now |}], None) /\
     0 <= value <= Z.max (Gcs.maxBucketItemsToScan (Gcs.metadata s)) 0 /\
     value <= objectCount (Gcs.listing (Gcs.bucket s))).
Proof.
  intros Hmax. unfold Gcs.GetMetrics. rewrite getItemCount_loop.
  destruct (countItems_range (Gcs.listing (Gcs.bucket s))
              (Gcs.maxBucketItemsToScan (Gcs.metadata s)) 0)
    as (c & err & Hrun & Hc & _); [lia|exact Hmax|].
  pose proof (objectCount_nonneg (Gcs.listing (Gcs.bucket s))).
  rewrite Hrun. destruct err as [e|].
  - left. exists e. reflexivity.
  - right. exists c. split; [reflexivity|]. lia.
Qed.

(** Ten objects scanned with the bound 3. *)
Lemma gcs_GetMetrics_shape_witness :
  (exists e,
     Gcs.GetMetrics 1700000001 (Examples.gcsOn (Gcs.Object <$> Examples.tenObjects) 3) "m"
     = ([], Some e)) \/
  (exists value : Z,
     Gcs.GetMetrics 1700000001 (Examples.gcsOn (Gcs.Object <$> Examples.tenObjects) 3) "m" =
     ([{| external_metrics.MetricName := "m";
          external_metrics.Value := value;
          external_metrics.Timestamp := 1700000001 |}], None) /\
     0 <= value <= Z.max 3 0 /\
     value <= objectCount (Gcs.Object <$> Examples.tenObjects)).
Proof.
  assert (Hbound : Gcs.maxBucketItemsToScan
                     (Gcs.metadata (Examples.gcsOn (Gcs.Object <$> Examples.tenObjects) 3))
                   <= max_int64) by (cbn; unfold max_int64; lia).
  exact (gcs_GetMetrics_shape 1700000001
           (Examples.gcsOn (Gcs.Object <$> Examples.tenObjects) 3) "m" Hbound).
Defined.

(** X5. The two operations of the GCS scaler agree: whenever [GetMetrics]
    reports a positive count, [IsActive] on the same bucket answers true,
    without error. *)
Theorem gcs_positive_metric_is_active
  (now : Z) (s : Gcs.gcsScaler) (name : string) (m : external_metrics.ExternalMetricValue) :
  Gcs.GetMetrics now s name = ([m], None) ->
  0 < external_metrics.Value m ->
  Gcs.IsActive s = (true, None).
Proof.
  unfold Gcs.GetMetrics, Gcs.IsActive. rewrite !getItemCount_loop.
  destruct (Gcs.listing (Gcs.bucket s)) as [|[n|e] rest]; intros Hmetrics Hpos.
  - rewrite countItems_done in Hmetrics. injection Hmetrics as <-. cbn in Hpos. lia.
  - cbn [Gcs.countItems].
    replace (0 <? 1) with true by reflexivity.
    rewrite wrap64_id by (unfold in_int64, min_int64, max_int64; lia).
    rewrite countItems_stop by lia. reflexivity.
  - cbn [Gcs.countItems] in Hmetrics.
    destruct (0 <? Gcs.maxBucketItemsToScan (Gcs.metadata s));
      [destruct (Contains e "bucket doesn't exist")|];
      try discriminate Hmetrics; injection Hmetrics as <-; cbn in Hpos; lia.
Qed.

Lemma gcs_positive_metric_is_active_witness :
  Gcs.IsActive (Examples.gcsOn (Gcs.Object <$> Examples.tenObjects) 3) = (true, None).
Proof.
  apply (gcs_positive_metric_is_active 1700000001
           (Examples.gcsOn (Gcs.Object <$> Examples.tenObjects) 3) "m"
           {| external_metrics.MetricName := "m";
              external_metrics.Value := 3;
              external_metrics.Timestamp := 1700000001 |});
    [reflexivity | cbn; lia].
Defined.

(** ** The metadata and the constructor of the GCS scaler *)

Section GcsMetadata.
Context `{Externals}.

(** What a successful [parseGcsMetadata] tells about the trigger. *)
Lemma parseGcsMetadata_inv (config : ScalerConfig) (meta : Gcs.gcsMetadata) :
  Gcs.parseGcsMetadata config = Ok meta ->
  TriggerMetadata config !! "bucketName" = Some (Gcs.bucketName meta) /\
  Gcs.bucketName meta <> "" /\
  Gcs.metricName meta =
    GenerateMetricNameWithIndex (ScalerIndex config)
      (NormalizeString ("gcp-storage-" +:+ Gcs.bucketName meta)) /\
  match TriggerMetadata config !! "targetObjectCount" with
  | Some val => ParseInt val 10 64 = Ok (Gcs.targetObjectCount meta)
  | None => Gcs.targetObjectCount meta = 100
  end /\
  match TriggerMetadata config !! "maxBucketItemsToScan" with
  | Some val => Atoi val = Ok (Gcs.maxBucketItemsToScan meta)
  | None => Gcs.maxBucketItemsToScan meta = 1000
  end /\
  getGcpAuthorization config (ResolvedEnv config) = Ok (Gcs.gcpAuthorization meta).
Proof.
  unfold Gcs.parseGcsMetadata.
  destruct (TriggerMetadata config !! "bucketName") as [b|]; [|discriminate].
  destruct (String.eqb b "") eqn:Hb; [discriminate|]. apply String.eqb_neq in Hb.
  cbn [bind].
  destruct (TriggerMetadata config !! "targetObjectCount") as [t|];
    [destruct (ParseInt t 10 64) as [target|]; [|discriminate]|];
    (destruct (TriggerMetadata config !! "maxBucketItemsToScan") as [x|];
     [destruct (Atoi x) as [bound|]; [|discriminate]|]);
    cbn [bind wrapErr];
    (destruct (getGcpAuthorization config (ResolvedEnv config)) as [auth|]; [|discriminate]);
    cbn [bind]; intros Hmeta; injection Hmeta as <-; cbn; repeat split; assumption.
Qed.

(** What a successful [NewGcsScaler] tells about its steps. *)
Lemma NewGcsScaler_inv
  (cloud : Gcs.Cloud) (config : ScalerConfig) (s : Gcs.gcsScaler) (calls : list Gcs.Call) :
  Gcs.NewGcsScaler cloud config = (Ok s, calls) ->
  GetMetricTargetType config = Ok (Gcs.metricType s) /\
  Gcs.parseGcsMetadata config = Ok (Gcs.metadata s).
Proof.
  unfold Gcs.NewGcsScaler.
  destruct (GetMetricTargetType config) as [ty|]; [|discriminate].
  destruct (Gcs.parseGcsMetadata config) as [meta|]; [|discriminate].
  match goal with |- context [Gcs.NewClient cloud ?o] =>
    destruct (Gcs.NewClient cloud o) end; [discriminate|].
  destruct (Gcs.Bucket cloud (Gcs.bucketName meta)); [|discriminate].
  intros Hs. injection Hs as <- _. split; reflexivity.
Qed.

(** X6. [parseGcsMetadata] succeeds exactly when the bucket name is present
    and not empty, each of the two optional integers is absent or readable,
    and the authorization resolves. The metadata then holds the bucket name,
    the metric name made of the trigger index and of "gcp-storage-" followed by
    the bucket name, for each integer the value read or else its default (100
    objects per replica, 1000 items to scan), and the authorization. *)
Theorem parseGcsMetadata_ok_iff (config : ScalerConfig) (meta : Gcs.gcsMetadata) :
  Gcs.parseGcsMetadata config = Ok meta <->
  TriggerMetadata config !! "bucketName" = Some (Gcs.bucketName meta) /\
  Gcs.bucketName meta <> "" /\
  Gcs.metricName meta =
    GenerateMetricNameWithIndex (ScalerIndex config)
      (NormalizeString ("gcp-storage-" +:+ Gcs.bucketName meta)) /\
  match TriggerMetadata config !! "targetObjectCount" with
  | Some val => ParseInt val 10 64 = Ok (Gcs.targetObjectCount meta)
  | None => Gcs.targetObjectCount meta = 100
  end /\
  match TriggerMetadata config !! "maxBucketItemsToScan" with
  | Some val => Atoi val = Ok (Gcs.maxBucketItemsToScan meta)
  | None => Gcs.maxBucketItemsToScan meta = 1000
  end /\
  getGcpAuthorization config (ResolvedEnv config) = Ok (Gcs.gcpAuthorization meta).
Proof.
  split; [apply parseGcsMetadata_inv|].
  unfold Gcs.parseGcsMetadata.
  destruct meta as [b auth bound name target]. cbn.
  intros (Hb & Hne & -> & Htarget & Hbound & Hauth).
  rewrite Hb. apply String.eqb_neq in Hne. rewrite Hne. cbn [bind].
  destruct (TriggerMetadata config !! "targetObjectCount") as [t|];
    [rewrite Htarget | rewrite Htarget];
    (destruct (TriggerMetadata config !! "maxBucketItemsToScan") as [x|];
     [rewrite Hbound | rewrite Hbound]);
    cbn [bind wrapErr]; rewrite Hauth; reflexivity.
Qed.

(** X7. The errors of [parseGcsMetadata], in the order of its checks: an empty
    bucket name is refused like an absent one; then a target count that
    [ParseInt] rejects gives an error naming [targetObjectCount] with the
    reason, whatever the scan bound is; then a scan bound that [Atoi] rejects
    gives an error naming [maxBucketItemsToScan]; then an error of the
    authorization is returned as it is. *)
Theorem parseGcsMetadata_errors (config : ScalerConfig) :
  (TriggerMetadata config !! "bucketName" = Some "" ->
   Gcs.parseGcsMetadata config = Err "no bucket name given") /\
  (forall b val e,
     TriggerMetadata config !! "bucketName" = Some b -> b <> "" ->
     TriggerMetadata config !! "targetObjectCount" = Some val ->
     ParseInt val 10 64 = Err e ->
     Gcs.parseGcsMetadata config = Err ("error parsing targetObjectCount: " +:+ e)) /\
  (forall b val e,
     TriggerMetadata config !! "bucketName" = Some b -> b <> "" ->
     (forall v, TriggerMetadata config !! "targetObjectCount" = Some v ->
                exists t, ParseInt v 10 64 = Ok t) ->
     TriggerMetadata config !! "maxBucketItemsToScan" = Some val ->
     Atoi val = Err e ->
     Gcs.parseGcsMetadata config = Err ("error parsing maxBucketItemsToScan: " +:+ e)) /\
  (forall b e,
     TriggerMetadata config !! "bucketName" = Some b -> b <> "" ->
     (forall v, TriggerMetadata config !! "targetObjectCount" = Some v ->
                exists t, ParseInt v 10 64 = Ok t) ->
     (forall v, TriggerMetadata config !! "maxBucketItemsToScan" = Some v ->
                exists n, Atoi v = Ok n) ->
     getGcpAuthorization config (ResolvedEnv config) = Err e ->
     Gcs.parseGcsMetadata config = Err e).
Proof.
  unfold Gcs.parseGcsMetadata. split; [|split; [|split]].
  - intros ->. reflexivity.
  - intros b val e -> Hne -> ->. apply String.eqb_neq in Hne. rewrite Hne. reflexivity.
  - intros b val e -> Hne Htarget -> ->. apply String.eqb_neq in Hne. rewrite Hne.
    cbn [bind].
    destruct (TriggerMetadata config !! "targetObjectCount") as [t|];
      [destruct (Htarget t eq_refl) as [n ->]|]; reflexivity.
  - intros b e -> Hne Htarget Hbound ->. apply String.eqb_neq in Hne. rewrite Hne.
    cbn [bind].
    destruct (TriggerMetadata config !! "targetObjectCount") as [t|];
      [destruct (Htarget t eq_refl) as [n ->]|];
      (destruct (TriggerMetadata config !! "maxBucketItemsToScan") as [x|];
       [destruct (Hbound x eq_refl) as [k ->]|]); reflexivity.
Qed.

(** X8. A scaler that [NewGcsScaler] returns was made from validated metadata
    and an accepted metric type, after exactly two calls: one creation of the
    client and one request of the bucket handle under the validated bucket name.
    The client is created without credentials when the pod identity is
    enabled, whatever else is configured; otherwise with the credentials file
    when one is named; otherwise with the JSON credentials. *)
Theorem NewGcsScaler_ok
  (cloud : Gcs.Cloud) (config : ScalerConfig) (s : Gcs.gcsScaler) (calls : list Gcs.Call) :
  Gcs.NewGcsScaler cloud config = (Ok s, calls) ->
  GetMetricTargetType config = Ok (Gcs.metricType s) /\
  Gcs.parseGcsMetadata config = Ok (Gcs.metadata s) /\
  Gcs.NewClient cloud (Gcs.createdWith (Gcs.client s)) = None /\
  Gcs.Bucket cloud (Gcs.bucketName (Gcs.metadata s)) = Some (Gcs.bucket s) /\
  calls = [Gcs.CallNewClient (Gcs.createdWith (Gcs.client s));
           Gcs.CallBucket (Gcs.bucketName (Gcs.metadata s))] /\
  Gcs.createdWith (Gcs.client s) =
    (let auth := Gcs.gcpAuthorization (Gcs.metadata s) in
     if podIdentityProviderEnabled auth then Gcs.NoOption
     else if bool_decide (GoogleApplicationCredentialsFile auth = "")
          then Gcs.WithCredentialsJSON (GoogleApplicationCredentials auth)
          else Gcs.WithCredentialsFile (GoogleApplicationCredentialsFile auth)).
Proof.
  unfold Gcs.NewGcsScaler.
  destruct (GetMetricTargetType config) as [ty|]; [|discriminate].
  destruct (Gcs.parseGcsMetadata config) as [meta|]; [|discriminate].
  match goal with |- context [Gcs.NewClient cloud ?o] =>
    set (opt := o); destruct (Gcs.NewClient cloud opt) eqn:Hclient end; [discriminate|].
  destruct (Gcs.Bucket cloud (Gcs.bucketName meta)) as [handle|] eqn:Hbucket;
    [|discriminate].
  intros Hs. injection Hs as <- <-. cbn [Gcs.metricType Gcs.metadata Gcs.client Gcs.bucket
                                            Gcs.createdWith].
  repeat split; try assumption.
  subst opt. destruct (podIdentityProviderEnabled (Gcs.gcpAuthorization meta));
    [reflexivity|].
  destruct (GoogleApplicationCredentialsFile (Gcs.gcpAuthorization meta)); reflexivity.
Qed.

End GcsMetadata.

(** An empty bucket name; a target count and a scan bound that are no numbers;
    a scan bound that is no number; no credentials. *)
Lemma parseGcsMetadata_errors_witness :
  Gcs.parseGcsMetadata (H := Reference.externals)
    (Cases.gcsTrigger (<["bucketName" := ""]> ∅)) = Err "no bucket name given" /\
  Gcs.parseGcsMetadata (H := Reference.externals)
    (Cases.gcsTrigger
       (<["bucketName" := "jobs"]>
          (<["targetObjectCount" := "many"]> (<["maxBucketItemsToScan" := "lots"]> ∅)))) =
  Err ("error parsing targetObjectCount: " +:+
       "strconv.ParseInt: parsing " +:+ Reference.quote "many" +:+ ": invalid syntax") /\
  Gcs.parseGcsMetadata (H := Reference.externals)
    (Cases.gcsTrigger
       (<["bucketName" := "jobs"]> (<["maxBucketItemsToScan" := "lots"]> ∅))) =
  Err ("error parsing maxBucketItemsToScan: " +:+
       "strconv.Atoi: parsing " +:+ Reference.quote "lots" +:+ ": invalid syntax") /\
  Gcs.parseGcsMetadata (H := Reference.externals)
    (Cases.gcsAnonymous (<["bucketName" := "jobs"]> ∅)) =
  Err "GoogleApplicationCredentials not found".
Proof.
  split; [|split; [|split]].
  - destruct (parseGcsMetadata_errors (H := Reference.externals)
                (Cases.gcsTrigger (<["bucketName" := ""]> ∅))) as (Hempty & _).
    apply Hempty. reflexivity.
  - destruct (parseGcsMetadata_errors (H := Reference.externals)
                (Cases.gcsTrigger
                   (<["bucketName" := "jobs"]>
                      (<["targetObjectCount" := "many"]>
                         (<["maxBucketItemsToScan" := "lots"]> ∅)))))
      as (_ & Htarget & _).
    apply (Htarget "jobs" "many"); [reflexivity | discriminate | reflexivity | reflexivity].
  - destruct (parseGcsMetadata_errors (H := Reference.externals)
                (Cases.gcsTrigger
                   (<["bucketName" := "jobs"]> (<["maxBucketItemsToScan" := "lots"]> ∅))))
      as (_ & _ & Hbound & _).
    apply (Hbound "jobs" "lots");
      [reflexivity | discriminate | intros v Hv; discriminate Hv | reflexivity | reflexivity].
  - destruct (parseGcsMetadata_errors (H := Reference.externals)
                (Cases.gcsAnonymous (<["bucketName" := "jobs"]> ∅)))
      as (_ & _ & _ & Hauth).
    apply (Hauth "jobs");
      [reflexivity | discriminate | intros v Hv; discriminate Hv
      | intros v Hv; discriminate Hv | reflexivity].
Defined.

Lemma NewGcsScaler_ok_witness :
  GetMetricTargetType (Externals := Reference.externals)
    (Cases.gcsTrigger (<["bucketName" := "jobs"]> (<["targetObjectCount" := "50"]> ∅))) =
  Ok "Value" /\
  Gcs.parseGcsMetadata (H := Reference.externals)
    (Cases.gcsTrigger (<["bucketName" := "jobs"]> (<["targetObjectCount" := "50"]> ∅))) =
  Ok (Gcs.metadata (Cases.gcsJobs [])) /\
  Gcs.NewClient (Examples.cloudOn []) (Gcs.WithCredentialsJSON "{}") = None /\
  Gcs.Bucket (Examples.cloudOn []) "jobs" = Some {| Gcs.listing := [] |} /\
  [Gcs.CallNewClient (Gcs.WithCredentialsJSON "{}"); Gcs.CallBucket "jobs"] =
  [Gcs.CallNewClient (Gcs.WithCredentialsJSON "{}"); Gcs.CallBucket "jobs"] /\
  Gcs.WithCredentialsJSON "{}" = Gcs.WithCredentialsJSON "{}".
Proof.
  exact (NewGcsScaler_ok (H := Reference.externals) (Examples.cloudOn [])
           (Cases.gcsTrigger
              (<["bucketName" := "jobs"]> (<["targetObjectCount" := "50"]> ∅)))
           (Cases.gcsJobs [])
           [Gcs.CallNewClient (Gcs.WithCredentialsJSON "{}"); Gcs.CallBucket "jobs"]
           eq_refl).
Defined.

(** ** The metric specification of the GCS scaler *)

Section GcsSpecification.
Context `{Externals} `{Targets}.

(** X9. The specification of a scaler that [NewGcsScaler] returns is one
    external metric: its name is made of the trigger index and of
    "gcp-storage-" followed by the bucket name of the trigger, and its target is
    built, for the accepted metric type, from the target count read in the
    trigger or from the default of 100 when the trigger has none. The scan
    bound and the content of the bucket play no part. *)
Theorem gcs_spec_of_constructed
  (cloud : Gcs.Cloud) (config : ScalerConfig) (s : Gcs.gcsScaler) (calls : list Gcs.Call) :
  Gcs.NewGcsScaler cloud config = (Ok s, calls) ->
  exists (b : string) (ty : MetricTargetType) (target : Z),
    TriggerMetadata config !! "bucketName" = Some b /\
    GetMetricTargetType config = Ok ty /\
    match TriggerMetadata config !! "targetObjectCount" with
    | Some val => ParseInt val 10 64 = Ok target
    | None => target = 100
    end /\
    GcsScaling.GetMetricSpecForScaling s =
    [{| v2beta2.External :=
          {| v2beta2.Metric :=
               {| v2beta2.Name :=
                    GenerateMetricNameWithIndex (ScalerIndex config)
                      (NormalizeString ("gcp-storage-" +:+ b)) |};
             v2beta2.Target := GetMetricTarget ty target |};
        v2beta2.Type_ := externalMetricType |}].
Proof.
  intros Hnew. destruct (NewGcsScaler_inv cloud config s calls Hnew) as [Hty Hmeta].
  destruct (parseGcsMetadata_inv config (Gcs.metadata s) Hmeta)
    as (Hb & _ & Hname & Htarget & _).
  exists (Gcs.bucketName (Gcs.metadata s)), (Gcs.metricType s),
    (Gcs.targetObjectCount (Gcs.metadata s)).
  split; [exact Hb|]. split; [exact Hty|]. split; [exact Htarget|].
  unfold GcsScaling.GetMetricSpecForScaling. rewrite Hname. reflexivity.
Qed.

End GcsSpecification.

Lemma gcs_spec_of_constructed_witness :
  GcsScaling.GetMetricSpecForScaling (H := ReferenceTargets.targets) (Cases.gcsJobs []) =
  [{| v2beta2.External :=
        {| v2beta2.Metric := {| v2beta2.Name := "s2-gcp-storage-jobs" |};
           v2beta2.Target :=
             ReferenceTargets.metricTarget "Value" 50
             : MetricTarget (Targets := ReferenceTargets.targets) |};
      v2beta2.Type_ := "External" |}].
Proof.
  assert (Hnew : Gcs.NewGcsScaler (H := Reference.externals) (Examples.cloudOn [])
                   (Cases.gcsTrigger
                      (<["bucketName" := "jobs"]> (<["targetObjectCount" := "50"]> ∅))) =
                 (Ok (Cases.gcsJobs []),
                  [Gcs.CallNewClient (Gcs.WithCredentialsJSON "{}"); Gcs.CallBucket "jobs"]))
    by reflexivity.
  destruct (gcs_spec_of_constructed (H := Reference.externals)
              (H0 := ReferenceTargets.targets) _ _ _ _ Hnew)
    as (b & ty & target & Hb & Hty & Htarget & Hspec).
  change (Some "jobs" = Some b) in Hb.
  change (Ok "Value" = Ok ty) in Hty.
  change (Ok 50 = Ok target) in Htarget.
  injection Hb as <-. injection Hty as <-. injection Htarget as <-.
  rewrite Hspec. reflexivity.
Defined.

(** * Further properties of the PredictKube scaler *)

(** ** The metadata *)

Section PredictKubeMetadata.
Context `{Externals}.

(** What a successful [parsePredictKubeMetadata] tells about the trigger. *)
Lemma parsePredictKubeMetadata_inv
  (config : ScalerConfig) (meta : PredictKube.predictKubeMetadata) :
  PredictKube.parsePredictKubeMetadata config = Ok meta ->
  (TriggerMetadata config !! "query" = Some (PredictKube.query meta) /\
   PredictKube.query meta <> "") /\
  (TriggerMetadata config !! "prometheusAddress" = Some (PredictKube.prometheusAddress meta) /\
   validateVar (PredictKube.prometheusAddress meta) "url" = None) /\
  (exists val, TriggerMetadata config !! "predictHorizon" = Some val /\
               ParseDuration val = Ok (PredictKube.predictHorizon meta)) /\
  (exists val, TriggerMetadata config !! "queryStep" = Some val /\
               ParseDuration val = Ok (PredictKube.stepDuration meta)) /\
  (exists val, TriggerMetadata config !! "historyTimeWindow" = Some val /\
               ParseDuration val = Ok (PredictKube.historyTimeWindow meta)) /\
  (exists val, TriggerMetadata config !! "threshold" = Some val /\
               ParseInt val 10 64 = Ok (PredictKube.threshold meta)) /\
  PredictKube.scalerIndex meta = ScalerIndex config /\
  (AuthParams config !! "apiKey" = Some (PredictKube.apiKey meta) /\
   validateVar (PredictKube.apiKey meta) "jwt" = None) /\
  GetAuthConfigs (TriggerMetadata config) (AuthParams config) =
    Ok (PredictKube.prometheusAuth meta).
Proof.
  unfold PredictKube.parsePredictKubeMetadata.
  destruct (TriggerMetadata config !! "query") as [q|]; [|discriminate].
  destruct q as [|c q]; [discriminate|]. cbn [String.length Nat.eqb bind].
  destruct (TriggerMetadata config !! "prometheusAddress") as [a|]; [|discriminate].
  destruct (validateVar a "url") eqn:Hurl; [discriminate|]. cbn [bind].
  destruct (TriggerMetadata config !! "predictHorizon") as [h|]; [|discriminate].
  destruct (ParseDuration h) as [horizon|] eqn:Hh; [|discriminate]. cbn [bind wrapErr].
  destruct (TriggerMetadata config !! "queryStep") as [st|]; [|discriminate].
  destruct (ParseDuration st) as [step|] eqn:Hst; [|discriminate]. cbn [bind wrapErr].
  destruct (TriggerMetadata config !! "historyTimeWindow") as [w|]; [|discriminate].
  destruct (ParseDuration w) as [window|] eqn:Hw; [|discriminate]. cbn [bind wrapErr].
  destruct (TriggerMetadata config !! "threshold") as [t|]; [|discriminate].
  destruct (ParseInt t 10 64) as [thr|] eqn:Ht; [|discriminate]. cbn [bind wrapErr].
  destruct (AuthParams config !! "apiKey") as [k|]; [|discriminate].
  destruct (validateVar k "jwt") eqn:Hjwt; [discriminate|]. cbn [bind].
  destruct (GetAuthConfigs (TriggerMetadata config) (AuthParams config)) as [auth|];
    [|discriminate].
  cbn [bind]. intros Hmeta. injection Hmeta as <-. cbn.
  repeat split; try assumption; try discriminate; eexists; split; (reflexivity || eassumption).
Qed.

(** X10. [parsePredictKubeMetadata] succeeds exactly when the query is present
    and not empty, the Prometheus address is present and passes the URL check,
    the three durations and the threshold are present and readable, the API
    key is present and passes the token check, and the authentication of
    Prometheus resolves; the metadata holds these values and the trigger
    index. Nothing else is checked: a zero or negative duration or threshold
    that the parsers read is accepted. *)
Theorem parsePredictKubeMetadata_ok_iff
  (config : ScalerConfig) (meta : PredictKube.predictKubeMetadata) :
  PredictKube.parsePredictKubeMetadata config = Ok meta <->
  (TriggerMetadata config !! "query" = Some (PredictKube.query meta) /\
   PredictKube.query meta <> "") /\
  (TriggerMetadata config !! "prometheusAddress" = Some (PredictKube.prometheusAddress meta) /\
   validateVar (PredictKube.prometheusAddress meta) "url" = None) /\
  (exists val, TriggerMetadata config !! "predictHorizon" = Some val /\
               ParseDuration val = Ok (PredictKube.predictHorizon meta)) /\
  (exists val, TriggerMetadata config !! "queryStep" = Some val /\
               ParseDuration val = Ok (PredictKube.stepDuration meta)) /\
  (exists val, TriggerMetadata config !! "historyTimeWindow" = Some val /\
               ParseDuration val = Ok (PredictKube.historyTimeWindow meta)) /\
  (exists val, TriggerMetadata config !! "threshold" = Some val /\
               ParseInt val 10 64 = Ok (PredictKube.threshold meta)) /\
  PredictKube.scalerIndex meta = ScalerIndex config /\
  (AuthParams config !! "apiKey" = Some (PredictKube.apiKey meta) /\
   validateVar (PredictKube.apiKey meta) "jwt" = None) /\
  GetAuthConfigs (TriggerMetadata config) (AuthParams config) =
    Ok (PredictKube.prometheusAuth meta).
Proof.
  split; [apply parsePredictKubeMetadata_inv|].
  destruct meta as [horizon window step key address auth q thr index]. cbn.
  intros ((Hq & Hqne) & (Ha & Hurl) & (h & Hh & Hhorizon) & (st & Hst & Hstep) &
          (w & Hw & Hwindow) & (t & Ht & Hthr) & -> & (Hk & Hjwt) & Hauth).
  unfold PredictKube.parsePredictKubeMetadata.
  rewrite Hq, Ha, Hh, Hst, Hw, Ht, Hk.
  destruct q as [|c q]; [contradiction|]. cbn [String.length Nat.eqb bind].
  rewrite Hurl. cbn [bind]. rewrite Hhorizon. cbn [bind wrapErr].
  rewrite Hstep. cbn [bind wrapErr]. rewrite Hwindow. cbn [bind wrapErr].
  rewrite Hthr. cbn [bind wrapErr]. rewrite Hjwt. cbn [bind]. rewrite Hauth.
  reflexivity.
Qed.

Ltac accept_field :=
  cbn [bind wrapErr];
  match goal with
  | H : _ !! _ = _ |- _ => rewrite H; clear H
  | H : validateVar _ _ = _ |- _ => rewrite H; clear H
  | H : exists _, _ |- _ => let x := fresh "x" in destruct H as [x H]; rewrite H; clear H
  | H : ?val <> "" |- _ => destruct val; [contradiction|]; clear H; cbn [String.length Nat.eqb]
  end.

(** X11. A required field that is present but fails its check decides the
    error when every field checked before it is present and accepted: an
    empty query is refused like an absent one, a bad address or API key gives
    "invalid prometheusAddress" or "invalid apiKey", and a duration or a
    threshold that cannot be read gives an error naming the field followed by
    the reason of the parser. What comes after the failing field is not
    looked at. *)
Theorem parsePredictKubeMetadata_first_rejected
  (config : ScalerConfig) (f : Required.Field) (val : string) (e : error) :
  Required.lookup config f = Some val ->
  Rejected.by_check f val e ->
  Forall (fun g => exists v,
            Required.lookup config g = Some v /\ Required.accepted g v)
    (Required.checkedBefore f) ->
  PredictKube.parsePredictKubeMetadata config = Err e.
Proof.
  intros Hpresent Hrejected Hbefore. unfold PredictKube.parsePredictKubeMetadata.
  destruct f; cbn [Required.checkedBefore] in Hbefore; cbn [Required.lookup] in Hpresent;
    cbn [Rejected.by_check] in Hrejected;
    repeat (apply Forall_cons in Hbefore as [(? & ? & ?) Hbefore]);
    clear Hbefore; cbn [Required.lookup Required.accepted] in *.
  - destruct Hrejected as [-> ->]. rewrite Hpresent. reflexivity.
  - destruct Hrejected as [[why Hwhy] ->]. rewrite Hpresent. revert Hwhy.
    repeat accept_field. cbn [bind wrapErr]. intros Hwhy. rewrite Hwhy. reflexivity.
  - destruct Hrejected as (why & Hwhy & ->). rewrite Hpresent. revert Hwhy.
    repeat accept_field. cbn [bind wrapErr]. intros Hwhy. rewrite Hwhy. reflexivity.
  - destruct Hrejected as (why & Hwhy & ->). rewrite Hpresent. revert Hwhy.
    repeat accept_field. cbn [bind wrapErr]. intros Hwhy. rewrite Hwhy. reflexivity.
  - destruct Hrejected as (why & Hwhy & ->). rewrite Hpresent. revert Hwhy.
    repeat accept_field. cbn [bind wrapErr]. intros Hwhy. rewrite Hwhy. reflexivity.
  - destruct Hrejected as (why & Hwhy & ->). rewrite Hpresent. revert Hwhy.
    repeat accept_field. cbn [bind wrapErr]. intros Hwhy. rewrite Hwhy. reflexivity.
  - destruct Hrejected as [[why Hwhy] ->]. rewrite Hpresent. revert Hwhy.
    repeat accept_field. cbn [bind wrapErr]. intros Hwhy. rewrite Hwhy. reflexivity.
Qed.

End PredictKubeMetadata.

(** A step that is no duration, in an otherwise complete trigger. *)
Lemma parsePredictKubeMetadata_first_rejected_witness :
  PredictKube.parsePredictKubeMetadata (H := Reference.externals)
    (Examples.pkConfig (<["queryStep" := "soon"]> Examples.pkTrigger)) =
  Err ("queryStep parsing error " +:+
       "time: invalid duration " +:+ Reference.quote "soon").
Proof.
  apply (parsePredictKubeMetadata_first_rejected (H := Reference.externals)
           (Examples.pkConfig (<["queryStep" := "soon"]> Examples.pkTrigger))
           Required.QueryStep "soon").
  - reflexivity.
  - exists ("time: invalid duration " +:+ Reference.quote "soon"). split; reflexivity.
  - repeat constructor; eexists; (split; [reflexivity|]); cbn;
      first [discriminate | reflexivity | eexists; reflexivity].
Defined.

(** ** The constructor *)

Section PredictKubeConstructor.
Context `{Externals}.

(** What a successful [NewPredictKubeScaler] tells about its first steps. *)
Lemma NewPredictKubeScaler_inv
  (b : PredictKube.Backend) (config : ScalerConfig) (s : PredictKube.PredictKubeScaler)
  (calls : list PredictKube.Call) :
  PredictKube.NewPredictKubeScaler b config = (Ok s, calls) ->
  GetMetricTargetType config = Ok (PredictKube.metricType s) /\
  PredictKube.parsePredictKubeMetadata config = Ok (PredictKube.metadata s).
Proof.
  unfold PredictKube.NewPredictKubeScaler.
  destruct (GetMetricTargetType config) as [ty|]; [|discriminate].
  destruct (PredictKube.parsePredictKubeMetadata config) as [meta|]; [|discriminate].
  destruct (PredictKube.initPredictKubePrometheusConn b _) as [[?|] ?]; [discriminate|].
  destruct (PredictKube.setupClientConn b _) as [[?|] ?]; [discriminate|].
  intros Hs. injection Hs as <- _. split; reflexivity.
Qed.

(** X12. A scaler that [NewPredictKubeScaler] returns was made from validated
    metadata and an accepted metric type, after exactly five calls that all
    succeeded, in this order: the HTTP transport for the Prometheus
    authentication, the Prometheus client for the validated address, the
    runtime-info ping, the gRPC options for the API key, and the dial of
    api.predictkube.com:443, whatever the trigger says. *)
Theorem NewPredictKubeScaler_ok
  (b : PredictKube.Backend) (config : ScalerConfig) (s : PredictKube.PredictKubeScaler)
  (calls : list PredictKube.Call) :
  PredictKube.NewPredictKubeScaler b config = (Ok s, calls) ->
  GetMetricTargetType config = Ok (PredictKube.metricType s) /\
  PredictKube.parsePredictKubeMetadata config = Ok (PredictKube.metadata s) /\
  PredictKube.CreateHTTPRoundTripper b (PredictKube.prometheusAuth (PredictKube.metadata s))
    = None /\
  PredictKube.NewClient b (PredictKube.prometheusAddress (PredictKube.metadata s)) = None /\
  PredictKube.Runtimeinfo b = None /\
  PredictKube.SetGrpcClientOptions b (PredictKube.apiKey (PredictKube.metadata s)) = None /\
  PredictKube.Dial b "api.predictkube.com:443" = None /\
  calls =
    [PredictKube.CallCreateHTTPRoundTripper;
     PredictKube.CallNewClient (PredictKube.prometheusAddress (PredictKube.metadata s));
     PredictKube.CallRuntimeinfo;
     PredictKube.CallSetGrpcClientOptions;
     PredictKube.CallDial "api.predictkube.com:443"].
Proof.
  intros Hnew. destruct (NewPredictKubeScaler_inv b config s calls Hnew) as [Hty Hmeta].
  revert Hnew. unfold PredictKube.NewPredictKubeScaler. rewrite Hty, Hmeta.
  unfold PredictKube.initPredictKubePrometheusConn, PredictKube.setupClientConn.
  cbn [PredictKube.metadata].
  destruct (PredictKube.CreateHTTPRoundTripper b _) eqn:Htransport; [discriminate|].
  destruct (PredictKube.NewClient b _) eqn:Hclient; [discriminate|].
  destruct (PredictKube.Runtimeinfo b) eqn:Hping; [discriminate|].
  destruct (PredictKube.SetGrpcClientOptions b _) eqn:Hoptions; [discriminate|].
  destruct (PredictKube.Dial b _) eqn:Hdial; [discriminate|].
  intros Hs. injection Hs as _ <-.
  repeat split; try assumption; reflexivity.
Qed.

(** X13. Whatever [NewPredictKubeScaler] returns, it has dialled the engine
    only after the transport, the client and the ping of Prometheus and the
    gRPC options all succeeded, and only at api.predictkube.com:443; and it
    has called a backend only after the metric type and the metadata were
    accepted. *)
Theorem NewPredictKubeScaler_dials_last
  (b : PredictKube.Backend) (config : ScalerConfig)
  (r : result PredictKube.PredictKubeScaler) (calls : list PredictKube.Call) :
  PredictKube.NewPredictKubeScaler b config = (r, calls) ->
  (calls <> [] ->
   exists ty meta,
     GetMetricTargetType config = Ok ty /\
     PredictKube.parsePredictKubeMetadata config = Ok meta) /\
  (forall target, In (PredictKube.CallDial target) calls ->
     target = "api.predictkube.com:443" /\
     PredictKube.Runtimeinfo b = None /\
     exists meta,
       PredictKube.parsePredictKubeMetadata config = Ok meta /\
       PredictKube.CreateHTTPRoundTripper b (PredictKube.prometheusAuth meta) = None /\
       PredictKube.NewClient b (PredictKube.prometheusAddress meta) = None /\
       PredictKube.SetGrpcClientOptions b (PredictKube.apiKey meta) = None).
Proof.
  unfold PredictKube.NewPredictKubeScaler.
  destruct (GetMetricTargetType config) as [ty|].
  2: { intros Hr. injection Hr as _ <-. split; [congruence | intros t []]. }
  destruct (PredictKube.parsePredictKubeMetadata config) as [meta|].
  2: { intros Hr. injection Hr as _ <-. split; [congruence | intros t []]. }
  unfold PredictKube.initPredictKubePrometheusConn, PredictKube.setupClientConn.
  cbn [PredictKube.metadata].
  destruct (PredictKube.CreateHTTPRoundTripper b _) eqn:Htransport;
    [|destruct (PredictKube.NewClient b _) eqn:Hclient;
      [|destruct (PredictKube.Runtimeinfo b) eqn:Hping;
        [|destruct (PredictKube.SetGrpcClientOptions b _) eqn:Hoptions;
          [|destruct (PredictKube.Dial b _) eqn:Hdial]]]];
    intros Hr; injection Hr as _ <-;
    (split; [intros _; exists ty, meta; split; reflexivity|]);
    intros target Hin; cbn in Hin;
    repeat (destruct Hin as [Hin|Hin]; [try discriminate Hin|]); try contradiction;
    injection Hin as <-;
    (split; [reflexivity|]); (split; [reflexivity|]);
    exists meta; repeat split; assumption.
Qed.

End PredictKubeConstructor.

Lemma NewPredictKubeScaler_ok_witness :
  GetMetricTargetType (Externals := Reference.externals)
    (Examples.pkConfig Examples.pkTrigger) = Ok "AverageValue" /\
  PredictKube.parsePredictKubeMetadata (H := Reference.externals)
    (Examples.pkConfig Examples.pkTrigger) =
  Ok (PredictKube.metadata (Examples.pkScaler (120 * Examples.minute) (2 * Examples.minute))).
Proof.
  assert (Hnew : PredictKube.NewPredictKubeScaler (H := Reference.externals)
                   Examples.backend (Examples.pkConfig Examples.pkTrigger) =
                 (Ok (Examples.pkScaler (120 * Examples.minute) (2 * Examples.minute)),
                  [PredictKube.CallCreateHTTPRoundTripper;
                   PredictKube.CallNewClient "http://prometheus:9090";
                   PredictKube.CallRuntimeinfo;
                   PredictKube.CallSetGrpcClientOptions;
                   PredictKube.CallDial "api.predictkube.com:443"])) by reflexivity.
  destruct (NewPredictKubeScaler_ok (H := Reference.externals) _ _ _ _ Hnew)
    as (Hty & Hmeta & _).
  split; [exact Hty | exact Hmeta].
Defined.

(** Prometheus does not answer the ping: three calls, the metadata accepted,
    no dial. *)
Lemma NewPredictKubeScaler_dials_last_witness :
  exists ty meta,
    GetMetricTargetType (Externals := Reference.externals)
      (Examples.pkConfig Examples.pkTrigger) = Ok ty /\
    PredictKube.parsePredictKubeMetadata (H := Reference.externals)
      (Examples.pkConfig Examples.pkTrigger) = Ok meta.
Proof.
  assert (Hnew : PredictKube.NewPredictKubeScaler (H := Reference.externals)
                   Worlds.silentPrometheus (Examples.pkConfig Examples.pkTrigger) =
                 (Err "error create Prometheus client and API objects: connection refused",
                  [PredictKube.CallCreateHTTPRoundTripper;
                   PredictKube.CallNewClient "http://prometheus:9090";
                   PredictKube.CallRuntimeinfo])) by reflexivity.
  destruct (NewPredictKubeScaler_dials_last (H := Reference.externals) _ _ _ _ Hnew)
    as [Hcalled _].
  apply Hcalled. discriminate.
Defined.

(** ** The normalizer on every shape *)

Section Shapes.
Context `{Externals}.

(** A loop that ends well has appended one item per sample, in order. *)
Lemma forRange_appendItem_inv {A : Type} (time : A -> Z) (value : A -> float64)
  (metricName : string) (samples : list A) :
  forall out out' : list PredictKube.Item,
    PredictKube.forRange
      (fun out a => PredictKube.appendItem metricName out (time a) (value a))
      samples out = Ok out' ->
    exists items : list PredictKube.Item,
      out' = out ++ items /\
      Forall2 (fun a item => itemOf metricName (time a) (value a) item) samples items.
Proof.
  induction samples as [|a samples IH]; intros out out' Hrun.
  - cbn in Hrun. injection Hrun as <-. exists []. rewrite app_nil_r. split; constructor.
  - cbn [PredictKube.forRange] in Hrun. unfold PredictKube.appendItem at 1 in Hrun.
    destruct (AdaptTimeToPbTimestamp (time a)) as [t|e] eqn:Ht; [|discriminate Hrun].
    cbn [bind] in Hrun. destruct (IH _ _ Hrun) as (items & -> & Hitems).
    eexists (_ :: items). rewrite <- app_assoc. split; [reflexivity|].
    constructor; [|assumption]. repeat split. assumption.
Qed.

(** What a successful [parsePrometheusResult] returns: one observation per
    sample, in the order of the samples, with the converted timestamp of its
    sample and the metric name of the scaler. *)
Lemma parsePrometheusResult_inv
  (s : PredictKube.PredictKubeScaler) (v : model.Value) (out : list PredictKube.Item) :
  PredictKube.parsePrometheusResult s v = Ok out ->
  Forall2 (fun t item =>
             AdaptTimeToPbTimestamp t = Ok (PredictKube.Timestamp item) /\
             PredictKube.MetricName item = PredictKube.metricName s)
    (timesOf v) out.
Proof.
  destruct v as [res|res|res|res|ty]; unfold PredictKube.parsePrometheusResult;
    cbn [model.Type_ timesOf].
  - change (model.ValVector =? model.ValVector) with true. cbv iota. intros Hrun.
    destruct (forRange_appendItem_inv _ _ _ _ _ _ Hrun) as (items & -> & Hitems).
    cbn [app]. apply Forall2_fmap_l.
    eapply Forall2_impl; [exact Hitems|]. intros a item (Ht & _ & Hname). split; assumption.
  - change (model.ValMatrix =? model.ValVector) with false.
    change (model.ValMatrix =? model.ValMatrix) with true. cbv iota.
    rewrite forRange_flatten. intros Hrun.
    destruct (forRange_appendItem_inv _ _ _ _ _ _ Hrun) as (items & -> & Hitems).
    cbn [app]. apply Forall2_fmap_l.
    eapply Forall2_impl; [exact Hitems|]. intros a item (Ht & _ & Hname). split; assumption.
  - change (model.ValScalar =? model.ValVector) with false.
    change (model.ValScalar =? model.ValMatrix) with false.
    change (model.ValScalar =? model.ValScalar) with true. cbv iota.
    unfold PredictKube.appendItem.
    destruct (AdaptTimeToPbTimestamp (model.Scalar.Timestamp res)) as [t|e] eqn:Ht;
      [|discriminate].
    cbn [bind app]. intros Hout. injection Hout as <-.
    constructor; [split; [exact Ht | reflexivity] | constructor].
  - change (model.ValString =? model.ValVector) with false.
    change (model.ValString =? model.ValMatrix) with false.
    change (model.ValString =? model.ValScalar) with false.
    change (model.ValString =? model.ValString) with true. cbv iota.
    destruct (AdaptTimeToPbTimestamp (model.String.Timestamp res)) as [t|e] eqn:Ht;
      [|discriminate].
    cbn [bind]. destruct (ParseFloat (model.String.Value res) 64) as [f|e]; [|discriminate].
    cbn [bind app]. intros Hout. injection Hout as <-.
    constructor; [split; [exact Ht | reflexivity] | constructor].
  - destruct (ty =? model.ValVector); [intros Hout; injection Hout as <-; constructor|].
    destruct (ty =? model.ValMatrix); [intros Hout; injection Hout as <-; constructor|].
    destruct (ty =? model.ValScalar); [intros Hout; injection Hout as <-; constructor|].
    destruct (ty =? model.ValString); [intros Hout; injection Hout as <-; constructor|].
    discriminate.
Qed.

(** X15. [parsePrometheusResult] fails on the first sample, in the order of
    the source, whose timestamp does not convert, with the error of that
    conversion and without any observation, whatever the shape of the result
    and whatever follows that sample. *)
Theorem parsePrometheusResult_first_bad_timestamp
  (s : PredictKube.PredictKubeScaler) (v : model.Value)
  (pre : list Z) (t : Z) (rest : list Z) (e : error) :
  timesOf v = pre ++ t :: rest ->
  Forall convertible pre ->
  AdaptTimeToPbTimestamp t = Err e ->
  PredictKube.parsePrometheusResult s v = Err e.
Proof.
  intros Htimes Hpre Hbad.
  destruct v as [res|res|res|res|ty]; unfold PredictKube.parsePrometheusResult;
    cbn [model.Type_ timesOf] in *.
  - change (model.ValVector =? model.ValVector) with true. cbv iota.
    eapply forRange_appendItem_fail; eassumption.
  - change (model.ValMatrix =? model.ValVector) with false.
    change (model.ValMatrix =? model.ValMatrix) with true. cbv iota.
    rewrite forRange_flatten. eapply forRange_appendItem_fail; eassumption.
  - change (model.ValScalar =? model.ValVector) with false.
    change (model.ValScalar =? model.ValMatrix) with false.
    change (model.ValScalar =? model.ValScalar) with true. cbv iota.
    destruct pre as [|p pre]; [|destruct pre; discriminate Htimes].
    injection Htimes as -> _. unfold PredictKube.appendItem. rewrite Hbad. reflexivity.
  - change (model.ValString =? model.ValVector) with false.
    change (model.ValString =? model.ValMatrix) with false.
    change (model.ValString =? model.ValScalar) with false.
    change (model.ValString =? model.ValString) with true. cbv iota.
    destruct pre as [|p pre]; [|destruct pre; discriminate Htimes].
    injection Htimes as -> _. rewrite Hbad. reflexivity.
  - destruct pre; discriminate Htimes.
Qed.

(** X16. On a vector, a matrix or a scalar, [parsePrometheusResult] succeeds
    exactly when the timestamp of every sample converts; on a string sample,
    exactly when its timestamp converts and [ParseFloat] reads its text. *)
Theorem parsePrometheusResult_succeeds_iff
  (s : PredictKube.PredictKubeScaler) (v : model.Value) :
  (forall ty, v <> model.Foreign ty) ->
  (exists out, PredictKube.parsePrometheusResult s v = Ok out) <->
  Forall convertible (timesOf v) /\
  match v with
  | model.OfString str => exists f, ParseFloat (model.String.Value str) 64 = Ok f
  | _ => True
  end.
Proof.
  intros Hshape. split.
  - intros [out Hout]. split.
    + pose proof (parsePrometheusResult_inv s v out Hout) as Hitems.
      clear Hout. induction Hitems as [|t item times out' [Ht _] _ IH]; constructor.
      * eexists. exact Ht.
      * exact IH.
    + destruct v as [res|res|res|res|ty]; try exact I.
      revert Hout. cbn.
      destruct (AdaptTimeToPbTimestamp (model.String.Timestamp res)); [|discriminate].
      cbn. destruct (ParseFloat (model.String.Value res) 64) as [f|]; [|discriminate].
      intros _. exists f. reflexivity.
  - intros [Hconv Hfloat].
    destruct v as [res|res|res|res|ty]; unfold PredictKube.parsePrometheusResult;
      cbn [model.Type_ timesOf] in *.
    + change (model.ValVector =? model.ValVector) with true. cbv iota.
      apply (proj1 (Forall_fmap _ _ _)) in Hconv.
      destruct (forRange_appendItem model.Sample.Timestamp model.Sample.Value
                  (PredictKube.metricName s) res [] Hconv) as (items & Hrun & _).
      exists items. exact Hrun.
    + change (model.ValMatrix =? model.ValVector) with false.
      change (model.ValMatrix =? model.ValMatrix) with true. cbv iota.
      apply (proj1 (Forall_fmap _ _ _)) in Hconv.
      destruct (forRange_matrix (PredictKube.metricName s) res [] Hconv)
        as (items & Hrun & _).
      exists items. exact Hrun.
    + change (model.ValScalar =? model.ValVector) with false.
      change (model.ValScalar =? model.ValMatrix) with false.
      change (model.ValScalar =? model.ValScalar) with true. cbv iota.
      apply Forall_inv in Hconv. destruct Hconv as [t Ht].
      unfold PredictKube.appendItem. rewrite Ht. eexists. reflexivity.
    + change (model.ValString =? model.ValVector) with false.
      change (model.ValString =? model.ValMatrix) with false.
      change (model.ValString =? model.ValScalar) with false.
      change (model.ValString =? model.ValString) with true. cbv iota.
      apply Forall_inv in Hconv. destruct Hconv as [t Ht]. destruct Hfloat as [f Hf].
      rewrite Ht. cbn [bind]. rewrite Hf. eexists. reflexivity.
    + exfalso. exact (Hshape ty eq_refl).
Qed.

End Shapes.

(** A vector whose second sample carries the zero time. *)
Lemma parsePrometheusResult_first_bad_timestamp_witness :
  PredictKube.parsePrometheusResult (H := Reference.externals)
    (Examples.pkScaler (120 * Examples.minute) (2 * Examples.minute)) Worlds.yearOne =
  Err "time parameter is empty or zero".
Proof.
  apply (parsePrometheusResult_first_bad_timestamp (H := Reference.externals)
           (Examples.pkScaler (120 * Examples.minute) (2 * Examples.minute))
           Worlds.yearOne [1000] Reference.zeroTime [3000]).
  - reflexivity.
  - repeat constructor. eexists. reflexivity.
  - reflexivity.
Defined.

(** A string sample that is a number. *)
Lemma parsePrometheusResult_succeeds_iff_witness :
  (exists out,
     PredictKube.parsePrometheusResult (H := Reference.externals)
       (Examples.pkScaler (120 * Examples.minute) (2 * Examples.minute))
       (model.OfString {| model.String.Value := "9.5"; model.String.Timestamp := 1000 |})
     = Ok out) <->
  Forall (convertible (H := Reference.externals)) [1000] /\
  exists f, ParseFloat (Externals := Reference.externals) "9.5" 64 = Ok f.
Proof.
  apply (parsePrometheusResult_succeeds_iff (H := Reference.externals)
           (Examples.pkScaler (120 * Examples.minute) (2 * Examples.minute))
           (model.OfString
              {| model.String.Value := "9.5"; model.String.Timestamp := 1000 |})).
  intros ty. discriminate.
Defined.

(** ** The metric specification of the PredictKube scaler *)

Section PredictKubeSpecification.
Context `{Externals} `{Targets}.

(** X14. The observations of a successful [parsePrometheusResult] are as many
    as the samples of the result, and each carries the metric name that
    [GetMetricSpecForScaling] announces for the scaler; that specification is
    one external metric whose target is built from the threshold. *)
Theorem observations_carry_spec_name
  (s : PredictKube.PredictKubeScaler) (v : model.Value) (out : list PredictKube.Item) :
  PredictKube.parsePrometheusResult s v = Ok out ->
  exists spec,
    PredictKubeScaling.GetMetricSpecForScaling s = [spec] /\
    v2beta2.Type_ spec = "External" /\
    v2beta2.Target (v2beta2.External spec) =
      GetMetricTarget (PredictKube.metricType s)
        (PredictKube.threshold (PredictKube.metadata s)) /\
    length out = length (timesOf v) /\
    Forall (fun item =>
              PredictKube.MetricName item =
              v2beta2.Name (v2beta2.Metric (v2beta2.External spec))) out.
Proof.
  intros Hout. eexists. split; [reflexivity|]. cbn.
  split; [reflexivity|]. split; [reflexivity|].
  pose proof (parsePrometheusResult_inv s v out Hout) as Hitems.
  split; [symmetry; eapply Forall2_length; exact Hitems|].
  clear Hout. induction Hitems as [|t item times out' [_ Hname] _ IH]; constructor.
  - exact Hname.
  - exact IH.
Qed.

(** X17. The specification of a scaler that [NewPredictKubeScaler] returns
    names the metric after the trigger index and the fixed text
    "predictkube-predictkube_metric", and its target is built, for the accepted
    metric type, from the threshold read in the trigger. *)
Theorem predictkube_spec_of_constructed
  (b : PredictKube.Backend) (config : ScalerConfig) (s : PredictKube.PredictKubeScaler)
  (calls : list PredictKube.Call) :
  PredictKube.NewPredictKubeScaler b config = (Ok s, calls) ->
  exists (val : string) (threshold : Z) (ty : MetricTargetType),
    TriggerMetadata config !! "threshold" = Some val /\
    ParseInt val 10 64 = Ok threshold /\
    GetMetricTargetType config = Ok ty /\
    PredictKubeScaling.GetMetricSpecForScaling s =
    [{| v2beta2.External :=
          {| v2beta2.Metric :=
               {| v2beta2.Name :=
                    GenerateMetricNameWithIndex (ScalerIndex config)
                      (NormalizeString "predictkube-predictkube_metric") |};
             v2beta2.Target := GetMetricTarget ty threshold |};
        v2beta2.Type_ := "External" |}].
Proof.
  intros Hnew. destruct (NewPredictKubeScaler_inv b config s calls Hnew) as [Hty Hmeta].
  destruct (parsePredictKubeMetadata_inv config _ Hmeta)
    as (_ & _ & _ & _ & _ & (val & Hval & Hthr) & Hindex & _).
  exists val, (PredictKube.threshold (PredictKube.metadata s)), (PredictKube.metricType s).
  split; [exact Hval|]. split; [exact Hthr|]. split; [exact Hty|].
  unfold PredictKubeScaling.GetMetricSpecForScaling. rewrite Hindex. reflexivity.
Qed.

End PredictKubeSpecification.

(** The matrix of three series: three observations under the announced name. *)
Lemma observations_carry_spec_name_witness :
  exists spec,
    PredictKubeScaling.GetMetricSpecForScaling (H := Reference.externals)
      (H0 := ReferenceTargets.targets)
      (Examples.pkScaler (120 * Examples.minute) (2 * Examples.minute)) = [spec] /\
    v2beta2.Name (v2beta2.Metric (v2beta2.External spec)) =
      "s0-predictkube-predictkube_metric" /\
    Forall (fun item =>
              PredictKube.MetricName item =
              v2beta2.Name (v2beta2.Metric (v2beta2.External spec)))
      [Examples.item 1 (float64_of 5 0); Examples.item 2 (float64_of 19 (-1));
       Examples.item 1 (float64_of 1 0)].
Proof.
  assert (Hout : PredictKube.parsePrometheusResult (H := Reference.externals)
                   (Examples.pkScaler (120 * Examples.minute) (2 * Examples.minute))
                   (model.OfMatrix Examples.threeSeries) =
                 Ok [Examples.item 1 (float64_of 5 0); Examples.item 2 (float64_of 19 (-1));
                     Examples.item 1 (float64_of 1 0)]) by reflexivity.
  destruct (observations_carry_spec_name (H := Reference.externals)
              (H0 := ReferenceTargets.targets) _ _ _ Hout)
    as (spec & Hspec & _ & _ & _ & Hnames).
  exists spec. split; [exact Hspec|]. split; [|exact Hnames].
  injection Hspec as <-. reflexivity.
Defined.

Lemma predictkube_spec_of_constructed_witness :
  PredictKubeScaling.GetMetricSpecForScaling (H := Reference.externals)
    (H0 := ReferenceTargets.targets)
    (Examples.pkScaler (120 * Examples.minute) (2 * Examples.minute)) =
  [{| v2beta2.External :=
        {| v2beta2.Metric := {| v2beta2.Name := "s0-predictkube-predictkube_metric" |};
           v2beta2.Target :=
             ReferenceTargets.metricTarget "AverageValue" 2000
             : MetricTarget (Targets := ReferenceTargets.targets) |};
      v2beta2.Type_ := "External" |}].
Proof.
  assert (Hnew : PredictKube.NewPredictKubeScaler (H := Reference.externals)
                   Examples.backend (Examples.pkConfig Examples.pkTrigger) =
                 (Ok (Examples.pkScaler (120 * Examples.minute) (2 * Examples.minute)),
                  [PredictKube.CallCreateHTTPRoundTripper;
                   PredictKube.CallNewClient "http://prometheus:9090";
                   PredictKube.CallRuntimeinfo;
                   PredictKube.CallSetGrpcClientOptions;
                   PredictKube.CallDial "api.predictkube.com:443"])) by reflexivity.
  destruct (predictkube_spec_of_constructed (H := Reference.externals)
              (H0 := ReferenceTargets.targets) _ _ _ _ Hnew)
    as (val & threshold & ty & Hval & Hthr & Hty & Hspec).
  change (Some "2000" = Some val) in Hval. injection Hval as <-.
  change (Ok 2000 = Ok threshold) in Hthr. injection Hthr as <-.
  change (Ok "AverageValue" = Ok ty) in Hty. injection Hty as <-.
  rewrite Hspec. reflexivity.
Defined.

(** ** The operations of the PredictKube scaler *)

Section Operations.
Context `{Externals}.

(** The scaler after [doQuery]: the step filled in, nothing else touched. *)
Lemma doQuery_state (w : PredictKube.Remote) (s : PredictKube.PredictKubeScaler) :
  snd (PredictKube.doQuery w s) =
  if PredictKube.stepDuration (PredictKube.metadata s) =? 0
  then {| PredictKube.metricType := PredictKube.metricType s;
          PredictKube.metadata :=
            {| PredictKube.predictHorizon := PredictKube.predictHorizon (PredictKube.metadata s);
               PredictKube.historyTimeWindow :=
                 PredictKube.historyTimeWindow (PredictKube.metadata s);
               PredictKube.stepDuration := PredictKube.defaultStep;
               PredictKube.apiKey := PredictKube.apiKey (PredictKube.metadata s);
               PredictKube.prometheusAddress :=
                 PredictKube.prometheusAddress (PredictKube.metadata s);
               PredictKube.prometheusAuth := PredictKube.prometheusAuth (PredictKube.metadata s);
               PredictKube.query := PredictKube.query (PredictKube.metadata s);
               PredictKube.threshold := PredictKube.threshold (PredictKube.metadata s);
               PredictKube.scalerIndex := PredictKube.scalerIndex (PredictKube.metadata s) |} |}
  else s.
Proof.
  unfold PredictKube.doQuery.
  destruct (PredictKube.stepDuration (PredictKube.metadata s) =? 0);
    match goal with |- context [PredictKube.QueryRange ?w ?q ?r] =>
      destruct (PredictKube.QueryRange w q r) end; reflexivity.
Qed.

Lemma doPredictRequest_state (w : PredictKube.Remote) (s : PredictKube.PredictKubeScaler) :
  snd (PredictKube.doPredictRequest w s) = snd (PredictKube.doQuery w s).
Proof.
  unfold PredictKube.doPredictRequest.
  destruct (PredictKube.doQuery w s) as [[results|e] s']; [|reflexivity].
  destruct (PredictKube.GetPredictMetric w _); reflexivity.
Qed.

(** X18. The only trace a call leaves in the scaler is the step: [IsActive],
    [GetMetrics] and [doPredictRequest] leave it as [doQuery] does, which
    replaces a step of 0 by 5 minutes (300000000000 ns) and changes nothing
    else, whatever the remote side answers: the metric type, the horizon, the
    history window, the API key, the address and the authentication of
    Prometheus, the query, the threshold and the index are kept. A scaler
    with a step other than 0 is left as it was, and a second call changes
    nothing more. *)
Theorem calls_only_fill_the_step
  (w w' : PredictKube.Remote) (s : PredictKube.PredictKubeScaler) (name : string) :
  snd (PredictKube.IsActive w s) = snd (PredictKube.doQuery w s) /\
  snd (PredictKube.GetMetrics w s name) = snd (PredictKube.doQuery w s) /\
  snd (PredictKube.doPredictRequest w s) = snd (PredictKube.doQuery w s) /\
  snd (PredictKube.doQuery w' s) = snd (PredictKube.doQuery w s) /\
  snd (PredictKube.doQuery w' (snd (PredictKube.doQuery w s))) =
    snd (PredictKube.doQuery w s) /\
  (PredictKube.stepDuration (PredictKube.metadata s) <> 0 ->
   snd (PredictKube.doQuery w s) = s) /\
  (PredictKube.stepDuration (PredictKube.metadata s) = 0 ->
   PredictKube.stepDuration (PredictKube.metadata (snd (PredictKube.doQuery w s))) =
     5 * 60 * 1000000000) /\
  PredictKube.stepDuration (PredictKube.metadata (snd (PredictKube.doQuery w s))) <> 0 /\
  PredictKube.metricType (snd (PredictKube.doQuery w s)) = PredictKube.metricType s /\
  PredictKube.predictHorizon (PredictKube.metadata (snd (PredictKube.doQuery w s))) =
    PredictKube.predictHorizon (PredictKube.metadata s) /\
  PredictKube.historyTimeWindow (PredictKube.metadata (snd (PredictKube.doQuery w s))) =
    PredictKube.historyTimeWindow (PredictKube.metadata s) /\
  PredictKube.apiKey (PredictKube.metadata (snd (PredictKube.doQuery w s))) =
    PredictKube.apiKey (PredictKube.metadata s) /\
  PredictKube.prometheusAddress (PredictKube.metadata (snd (PredictKube.doQuery w s))) =
    PredictKube.prometheusAddress (PredictKube.metadata s) /\
  PredictKube.prometheusAuth (PredictKube.metadata (snd (PredictKube.doQuery w s))) =
    PredictKube.prometheusAuth (PredictKube.metadata s) /\
  PredictKube.query (PredictKube.metadata (snd (PredictKube.doQuery w s))) =
    PredictKube.query (PredictKube.metadata s) /\
  PredictKube.threshold (PredictKube.metadata (snd (PredictKube.doQuery w s))) =
    PredictKube.threshold (PredictKube.metadata s) /\
  PredictKube.scalerIndex (PredictKube.metadata (snd (PredictKube.doQuery w s))) =
    PredictKube.scalerIndex (PredictKube.metadata s).
Proof.
  split; [|split; [|split; [exact (doPredictRequest_state w s)|]]].
  - unfold PredictKube.IsActive.
    destruct (PredictKube.doQuery w s) as [[results|e] s']; [|reflexivity].
    destruct (PredictKube.Check w) as [[resp|] [e|]]; reflexivity.
  - unfold PredictKube.GetMetrics. rewrite <- doPredictRequest_state.
    destruct (PredictKube.doPredictRequest w s) as [[value [e|]] s']; [reflexivity|].
    destruct (value =? 0); reflexivity.
  - rewrite (doQuery_state w' (snd (PredictKube.doQuery w s))).
    rewrite (doQuery_state w'), (doQuery_state w).
    destruct (PredictKube.stepDuration (PredictKube.metadata s) =? 0) eqn:Hstep.
    + split; [reflexivity|]. split; [reflexivity|].
      split; [intros Hne; apply Z.eqb_eq in Hstep; contradiction|].
      split; [intros _; reflexivity|].
      split; [cbn; discriminate|].
      repeat split.
    + rewrite Hstep. apply Z.eqb_neq in Hstep.
      split; [reflexivity|]. split; [reflexivity|].
      split; [intros _; reflexivity|].
      split; [intros Hzero; contradiction|].
      split; [exact Hstep|].
      repeat split.
Qed.

(** X19. A failure of the query, of Prometheus or of the normalization, is
    returned as it is by [doPredictRequest], [GetMetrics] and [IsActive], with
    value 0, no metric and false, without regard to the engine or the health
    probe; and when the query succeeds, an error of the engine is returned as
    it is by [doPredictRequest] and [GetMetrics]. *)
Theorem errors_are_passed_on
  (w : PredictKube.Remote) (s : PredictKube.PredictKubeScaler) (name : string) (e : error) :
  (fst (PredictKube.doQuery w s) = Err e ->
   fst (PredictKube.doPredictRequest w s) = (0, Some e) /\
   fst (PredictKube.GetMetrics w s name) = ([], Some e) /\
   fst (PredictKube.IsActive w s) = (false, Some e)) /\
  (forall results,
     fst (PredictKube.doQuery w s) = Ok results ->
     PredictKube.GetPredictMetric w
       (PredictKube.predictRequest (snd (PredictKube.doQuery w s)) results) = Err e ->
     fst (PredictKube.doPredictRequest w s) = (0, Some e) /\
     fst (PredictKube.GetMetrics w s name) = ([], Some e)).
Proof.
  unfold PredictKube.GetMetrics, PredictKube.IsActive, PredictKube.doPredictRequest.
  destruct (PredictKube.doQuery w s) as [[results|e'] s']; cbn [fst snd]; split.
  - discriminate.
  - intros results' Hresults Hengine. injection Hresults as <-. rewrite Hengine.
    split; reflexivity.
  - intros He. injection He as ->. repeat split.
  - discriminate.
Qed.

(** X20. [GetMetrics] of the predictive scaler returns either an error with
    an empty list, or no error with exactly one metric that has the name asked
    for, the time of the call and a value other than 0. *)
Theorem predictkube_GetMetrics_shape
  (w : PredictKube.Remote) (s : PredictKube.PredictKubeScaler) (name : string) :
  (exists e, fst (PredictKube.GetMetrics w s name) = ([], Some e)) \/
  (exists value : Z,
     value <> 0 /\
     fst (PredictKube.GetMetrics w s name) =
     ([{| external_metrics.MetricName := name;
          external_metrics.Value := value;
          external_metrics.Timestamp := PredictKube.metricNow w |}], None)).
Proof.
  unfold PredictKube.GetMetrics.
  destruct (PredictKube.doPredictRequest w s) as [[value [e|]] s'].
  - left. exists e. reflexivity.
  - destruct (value =? 0) eqn:Hzero.
    + left. eexists. reflexivity.
    + right. exists value. split; [apply Z.eqb_neq; exact Hzero | reflexivity].
Qed.

(** X21. [IsActive] of the predictive scaler answers true only when the query
    succeeded and returned at least one observation, with or without an error
    of the probe. *)
Theorem predictkube_active_has_observations
  (w : PredictKube.Remote) (s : PredictKube.PredictKubeScaler) (err : option error) :
  fst (PredictKube.IsActive w s) = (true, err) ->
  exists results, fst (PredictKube.doQuery w s) = Ok results /\ results <> [].
Proof.
  unfold PredictKube.IsActive.
  destruct (PredictKube.doQuery w s) as [[results|e] s']; cbn [fst]; [|discriminate].
  intros Hactive. exists results. split; [reflexivity|].
  intros ->. destruct (PredictKube.Check w) as [[resp|] [e|]]; discriminate Hactive.
Qed.

(** X22. When [IsActive] answers true without error and the engine answers the
    request made of the observations of the query, [GetMetrics] on the same
    remote side returns a metric whose value is the larger of the prediction
    and the last observed value: it is at least the last observed value,
    which the activity check found positive. *)
Theorem predictkube_active_then_metric
  (w : PredictKube.Remote) (s s' : PredictKube.PredictKubeScaler) (name : string)
  (results : list PredictKube.Item) (resp : PredictKube.ResGetPredictMetric) :
  fst (PredictKube.IsActive w s) = (true, None) ->
  PredictKube.doQuery w s = (Ok results, s') ->
  PredictKube.GetPredictMetric w (PredictKube.predictRequest s' results) = Ok resp ->
  exists value : Z,
    value = Z.max (PredictKube.ResultMetric resp) (PredictKube.lastValue results) /\
    0 < PredictKube.lastValue results <= value /\
    fst (PredictKube.GetMetrics w s name) =
    ([{| external_metrics.MetricName := name;
         external_metrics.Value := value;
         external_metrics.Timestamp := PredictKube.metricNow w |}], None).
Proof.
  intros Hactive Hquery Hanswer.
  unfold PredictKube.IsActive in Hactive. rewrite Hquery in Hactive. cbn [fst] in Hactive.
  assert (Hlast : 0 < PredictKube.lastValue results).
  { destruct (PredictKube.Check w) as [[health|] [e|]]; try discriminate Hactive.
    injection Hactive as Hlast. apply Z.ltb_lt in Hlast. exact Hlast. }
  exists (Z.max (PredictKube.ResultMetric resp) (PredictKube.lastValue results)).
  split; [reflexivity|]. split; [lia|].
  unfold PredictKube.GetMetrics.
  rewrite (doPredictRequest_max w s s' results resp Hquery Hanswer).
  replace (Z.max _ _ =? 0) with false by (symmetry; apply Z.eqb_neq; lia).
  reflexivity.
Qed.

(** X23. For a horizon that is not negative and a positive step, the forecast
    horizon of the request is the integer quotient of the horizon by the step
    (as long as it is below 2^53): whole steps only, and 0 when the horizon is
    shorter than the step. *)
Theorem forecastHorizon_whole_steps
  (s : PredictKube.PredictKubeScaler) (results : list PredictKube.Item) :
  0 <= PredictKube.predictHorizon (PredictKube.metadata s) ->
  0 < PredictKube.stepDuration (PredictKube.metadata s) ->
  PredictKube.predictHorizon (PredictKube.metadata s) /
    PredictKube.stepDuration (PredictKube.metadata s) < 2 ^ 53 ->
  PredictKube.ForecastHorizon (PredictKube.predictRequest s results) =
    PredictKube.predictHorizon (PredictKube.metadata s) /
    PredictKube.stepDuration (PredictKube.metadata s) /\
  (PredictKube.predictHorizon (PredictKube.metadata s) <
     PredictKube.stepDuration (PredictKube.metadata s) ->
   PredictKube.ForecastHorizon (PredictKube.predictRequest s results) = 0).
Proof.
  intros Hhorizon Hstep Hsmall.
  assert (Hquot : Z.quot (PredictKube.predictHorizon (PredictKube.metadata s))
                         (PredictKube.stepDuration (PredictKube.metadata s)) =
                  PredictKube.predictHorizon (PredictKube.metadata s) /
                  PredictKube.stepDuration (PredictKube.metadata s))
    by (apply Z.quot_div_nonneg; lia).
  assert (Hpos : 0 <= PredictKube.predictHorizon (PredictKube.metadata s) /
                      PredictKube.stepDuration (PredictKube.metadata s))
    by (apply Z.div_pos; lia).
  rewrite forecastHorizon_quotient by (rewrite Hquot; lia).
  split; [exact Hquot|].
  intros Hshort. rewrite Hquot. apply Z.div_small. lia.
Qed.

(** X24. When the window of the query holds no observation, the prediction
    alone decides: a positive prediction is returned as the metric, and a
    prediction of 0 or below makes [GetMetrics] fail with "empty response
    after predict request". *)
Theorem GetMetrics_on_empty_window
  (w : PredictKube.Remote) (s s' : PredictKube.PredictKubeScaler) (name : string)
  (resp : PredictKube.ResGetPredictMetric) :
  PredictKube.doQuery w s = (Ok [], s') ->
  PredictKube.GetPredictMetric w (PredictKube.predictRequest s' []) = Ok resp ->
  PredictKube.GetMetrics w s name =
  if PredictKube.ResultMetric resp <=? 0
  then (([], Some "empty response after predict request"), s')
  else (([{| external_metrics.MetricName := name;
             external_metrics.Value := PredictKube.ResultMetric resp;
             external_metrics.Timestamp := PredictKube.metricNow w |}], None), s').
Proof.
  intros Hquery Hengine. unfold PredictKube.GetMetrics.
  rewrite (doPredictRequest_max w s s' [] resp Hquery Hengine), lastValue_nil.
  destruct (PredictKube.ResultMetric resp <=? 0) eqn:Hsign.
  - apply Z.leb_le in Hsign. rewrite Z.max_r by lia. reflexivity.
  - apply Z.leb_gt in Hsign. rewrite Z.max_l by lia.
    replace (PredictKube.ResultMetric resp =? 0) with false
      by (symmetry; apply Z.eqb_neq; lia).
    reflexivity.
Qed.

End Operations.

(** ** The operations on examples *)

(** A scaler with a step of 2 minutes is left as it was; one with a step of 0
    is left by [GetMetrics] as by [doQuery], with a step of 5 minutes. *)
Lemma calls_only_fill_the_step_witness :
  snd (PredictKube.doQuery (H := Reference.externals) Examples.steady
         (Examples.pkScaler (120 * Examples.minute) (2 * Examples.minute))) =
  Examples.pkScaler (120 * Examples.minute) (2 * Examples.minute) /\
  snd (PredictKube.GetMetrics (H := Reference.externals) Examples.steady
         (Examples.pkScaler (120 * Examples.minute) 0) "m") =
  snd (PredictKube.doQuery (H := Reference.externals) Examples.steady
         (Examples.pkScaler (120 * Examples.minute) 0)) /\
  PredictKube.stepDuration
    (PredictKube.metadata
       (snd (PredictKube.doQuery (H := Reference.externals) Examples.steady
               (Examples.pkScaler (120 * Examples.minute) 0)))) = 5 * Examples.minute.
Proof.
  split; [|split].
  - destruct (calls_only_fill_the_step (H := Reference.externals)
                Examples.steady Examples.fractional
                (Examples.pkScaler (120 * Examples.minute) (2 * Examples.minute)) "m")
      as (_ & _ & _ & _ & _ & Hsame & _).
    apply Hsame. intros Hzero. vm_compute in Hzero. discriminate Hzero.
  - destruct (calls_only_fill_the_step (H := Reference.externals)
                Examples.steady Examples.fractional
                (Examples.pkScaler (120 * Examples.minute) 0) "m")
      as (_ & Hmetrics & _).
    exact Hmetrics.
  - destruct (calls_only_fill_the_step (H := Reference.externals)
                Examples.steady Examples.fractional
                (Examples.pkScaler (120 * Examples.minute) 0) "m")
      as (_ & _ & _ & _ & _ & _ & Hfilled & _).
    apply Hfilled. reflexivity.
Defined.

(** Prometheus refuses the connection; the engine is unavailable. *)
Lemma errors_are_passed_on_witness :
  fst (PredictKube.GetMetrics (H := Reference.externals)
         (Worlds.unreachable "connection refused")
         (Examples.pkScaler (120 * Examples.minute) (2 * Examples.minute)) "m") =
  ([], Some "connection refused") /\
  fst (PredictKube.IsActive (H := Reference.externals)
         (Worlds.unreachable "connection refused")
         (Examples.pkScaler (120 * Examples.minute) (2 * Examples.minute))) =
  (false, Some "connection refused") /\
  fst (PredictKube.GetMetrics (H := Reference.externals)
         (Worlds.refused (Examples.vector [(1000, float64_of 5 0)]) "rpc error: unavailable")
         (Examples.pkScaler (120 * Examples.minute) (2 * Examples.minute)) "m") =
  ([], Some "rpc error: unavailable").
Proof.
  destruct (errors_are_passed_on (H := Reference.externals)
              (Worlds.unreachable "connection refused")
              (Examples.pkScaler (120 * Examples.minute) (2 * Examples.minute)) "m"
              "connection refused") as [Hquery _].
  destruct (Hquery eq_refl) as (_ & Hmetrics & Hactive).
  destruct (errors_are_passed_on (H := Reference.externals)
              (Worlds.refused (Examples.vector [(1000, float64_of 5 0)])
                 "rpc error: unavailable")
              (Examples.pkScaler (120 * Examples.minute) (2 * Examples.minute)) "m"
              "rpc error: unavailable") as [_ Hengine].
  destruct (Hengine [Examples.item 1 (float64_of 5 0)] eq_refl eq_refl) as [_ Hrefused].
  split; [exact Hmetrics|]. split; [exact Hactive | exact Hrefused].
Defined.

Lemma predictkube_active_has_observations_witness :
  exists results,
    fst (PredictKube.doQuery (H := Reference.externals) Examples.steady
           (Examples.pkScaler (120 * Examples.minute) (2 * Examples.minute))) = Ok results /\
    results <> [].
Proof.
  apply (predictkube_active_has_observations (H := Reference.externals) Examples.steady
           (Examples.pkScaler (120 * Examples.minute) (2 * Examples.minute)) None).
  reflexivity.
Defined.

(** Observations of 5 and 9 and a prediction of 7: the metric is 9. *)
Lemma predictkube_active_then_metric_witness :
  exists value : Z,
    value = Z.max 7 9 /\
    0 < 9 <= value /\
    fst (PredictKube.GetMetrics (H := Reference.externals) Examples.steady
           (Examples.pkScaler (120 * Examples.minute) (2 * Examples.minute)) "m") =
    ([{| external_metrics.MetricName := "m";
         external_metrics.Value := value;
         external_metrics.Timestamp := PredictKube.metricNow Examples.steady |}], None).
Proof.
  assert (Hquery :
    PredictKube.doQuery (H := Reference.externals) Examples.steady
      (Examples.pkScaler (120 * Examples.minute) (2 * Examples.minute)) =
    (Ok [Examples.item 1 (float64_of 5 0); Examples.item 2 (float64_of 9 0)],
     Examples.pkScaler (120 * Examples.minute) (2 * Examples.minute))) by reflexivity.
  exact (predictkube_active_then_metric (H := Reference.externals) Examples.steady
           (Examples.pkScaler (120 * Examples.minute) (2 * Examples.minute))
           (Examples.pkScaler (120 * Examples.minute) (2 * Examples.minute)) "m"
           [Examples.item 1 (float64_of 5 0); Examples.item 2 (float64_of 9 0)]
           {| PredictKube.ResultMetric := 7 |} eq_refl Hquery eq_refl).
Defined.

(** A horizon of two hours in steps of two minutes: 60 steps. *)
Lemma forecastHorizon_whole_steps_witness :
  PredictKube.ForecastHorizon
    (PredictKube.predictRequest (H := Reference.externals)
       (Examples.pkScaler (120 * Examples.minute) (2 * Examples.minute)) []) = 60.
Proof.
  destruct (forecastHorizon_whole_steps (H := Reference.externals)
              (Examples.pkScaler (120 * Examples.minute) (2 * Examples.minute)) [])
    as [Hsteps _].
  - vm_compute. discriminate.
  - reflexivity.
  - reflexivity.
  - rewrite Hsteps. reflexivity.
Defined.

(** No observation and a prediction of -3. *)
Lemma GetMetrics_on_empty_window_witness :
  PredictKube.GetMetrics (H := Reference.externals)
    (Examples.remote (Examples.vector []) (-3) (Some Examples.serving, None))
    (Examples.pkScaler (120 * Examples.minute) (2 * Examples.minute)) "m" =
  (([], Some "empty response after predict request"),
   Examples.pkScaler (120 * Examples.minute) (2 * Examples.minute)).
Proof.
  apply (GetMetrics_on_empty_window (H := Reference.externals)
           (Examples.remote (Examples.vector []) (-3) (Some Examples.serving, None))
           (Examples.pkScaler (120 * Examples.minute) (2 * Examples.minute))
           (Examples.pkScaler (120 * Examples.minute) (2 * Examples.minute)) "m"
           {| PredictKube.ResultMetric := -3 |}); reflexivity.
Defined.

(** ** The validations on complete triggers *)

(** A trigger that names only the bucket: the defaults of 100 and 1000. *)
Lemma parseGcsMetadata_ok_iff_witness :
  Gcs.parseGcsMetadata (H := Reference.externals)
    (Cases.gcsTrigger (<["bucketName" := "jobs"]> ∅)) =
  Ok {| Gcs.bucketName := "jobs";
        Gcs.gcpAuthorization :=
          {| GoogleApplicationCredentials := "{}";
             GoogleApplicationCredentialsFile := "";
             podIdentityProviderEnabled := false |};
        Gcs.maxBucketItemsToScan := 1000;
        Gcs.metricName := "s2-gcp-storage-jobs";
        Gcs.targetObjectCount := 100 |}.
Proof.
  apply (proj2 (parseGcsMetadata_ok_iff (H := Reference.externals)
                  (Cases.gcsTrigger (<["bucketName" := "jobs"]> ∅)) _)).
  repeat split; (reflexivity || discriminate).
Defined.

(** The complete PredictKube trigger. *)
Lemma parsePredictKubeMetadata_ok_iff_witness :
  PredictKube.parsePredictKubeMetadata (H := Reference.externals)
    (Examples.pkConfig Examples.pkTrigger) =
  Ok (Examples.pkMeta (120 * Examples.minute) (2 * Examples.minute)).
Proof.
  apply (proj2 (parsePredictKubeMetadata_ok_iff (H := Reference.externals)
                  (Examples.pkConfig Examples.pkTrigger) _)).
  repeat split; try reflexivity; try discriminate; eexists; split; reflexivity.
Defined.
